(** * Agro back office: workflow core

    A shallow embedding of the three business endpoints of the repository

      - the approvisionnement workflow endpoint
        (validate_bd / reject_bd / receive_stock / reject_stock),
      - [pages/api/orders/process/index.ts] (process_order, in its two
        versions),
      - [pages/api/stocks/management/index.ts] (adjust / transfer / report /
        alert),

    over an explicit model of the Prisma store they talk to, and of the
    rate limiter and the sanitiser of [utils/crud-handler.ts].

    Modelling conventions.
      - Numbers ([z.number()], Prisma numeric columns) are exact integers [Z].
      - Identifiers (UUID strings, user ids) are [string]s. Zod's test
        [uuid()] of a string belongs to a library that is not part of the
        repository; it is the field [is_uuid] of [env].
      - The [x-user-data] header is kept as what [JSON.parse] makes of it:
        a SyntaxError, [null], or an object with the fields [id] and
        [role].
      - A template literal is kept as the list of its fragments ([text]), so
        that no number formatting has to be chosen.
      - The store is a record of tables, each a list of rows in table order;
        [findFirst] returns the first matching row of that order.
      - Store calls are computations in a state-and-exception monad [M];
        [$transaction] rolls the state back when its body throws.
      - What the environment decides (the clock, the identifiers the store
        generates for new rows, whether the audit and notification tables
        accept a write) is collected in the record [env].
      - Of the timestamps only [last_updated] of a ledger row and
        [updated_at] of an approvisionnement are kept. *)

From Stdlib Require Import Ascii ZArith List String Bool Lia.
Import ListNotations.

Open Scope string_scope.
Open Scope list_scope.
Open Scope Z_scope.

(** ** Rows *)

Inductive frag := Str (s : string) | Num (n : Z).
Definition text := list frag.

Module Product.
Record t := { product_id : string; name : string }.
End Product.

Module Approvisionnement.
Inductive status_enum := pending | validated_bd | rejected | received.

Definition status_eqb (a b : status_enum) : bool :=
  match a, b with
  | pending, pending | validated_bd, validated_bd
  | rejected, rejected | received, received => true
  | _, _ => false
  end.

Record t := {
  approvisionnement_id : string;
  supplier_id : string;
  product_id : string;
  warehouse_id : string;
  quantity : Z;
  proposed_price : Z;
  status : status_enum;
  business_developer_id : option string;
  stock_manager_id : option string;
  updated_at : Z
}.
End Approvisionnement.

Module Stock.
Record t := {
  stock_id : string;
  product_id : string;
  warehouse_id : string;
  quantity : Z;
  unit_price : Z;
  last_updated : Z;
  approvisionnement_id : option string
}.
End Stock.

Inductive payment_method := direct | credit.

Module Order.
Inductive status_enum := pending | paid | shipped | delivered | cancelled.
Record t := {
  order_id : string;
  client_id : string;
  warehouse_id : string;
  total_amount : Z;
  status : status_enum;
  delivery_option : bool;
  delivery_address : option string;
  payment_method : payment_method
}.
End Order.

Module OrderItem.
Record t := {
  order_id : string;
  product_id : string;
  quantity : Z;
  unit_price : Z
}.
End OrderItem.

Module Delivery.
Record t := { order_id : string; status : string }.
End Delivery.

Module Payment.
Inductive status_enum := pending | completed | failed.
Record t := {
  order_id : option string;
  approvisionnement_id : option string;
  amount : Z;
  payment_method : payment_method;
  status : status_enum
}.
End Payment.

(** The [details] object of an audit record, one constructor per shape the
    endpoints write. *)
Inductive details :=
| WorkflowDetails (action : string)
    (previous_status new_status : Approvisionnement.status_enum)
    (quantity_received : option Z) (notes : option string)
| ProcessOrderDetails (total_amount : Z) (items_count : nat)
    (delivery_option : bool) (method : payment_method)
| StockAdjustmentDetails (product_id warehouse_id : string)
    (previous_quantity adjustment new_quantity : Z) (reason : string)
| StockTransferDetails (product_id from_warehouse_id to_warehouse_id : string)
    (quantity_transferred : Z) (reason : string)
| LowStockAlertDetails (product_id : string) (current_quantity threshold : Z)
    (alert_triggered : bool).

Module Log.
Record t := {
  entity_type : string;
  entity_id : string;
  action : string;
  user_id : string;
  details : details
}.
End Log.

Module Notification.
Record t := {
  user_id : string;
  type : string;
  message : text;
  status : string
}.
End Notification.

Record user := { id : string; role : string }.

(** ** The store *)

Record db := {
  products : string -> Product.t;
  approvisionnements : list Approvisionnement.t;
  stocks : list Stock.t;
  orders : list Order.t;
  order_items : list OrderItem.t;
  deliveries : list Delivery.t;
  payments : list Payment.t;
  transaction_logs : list Log.t;
  notifications : list Notification.t
}.

Record env := {
  now : Z;
  new_stock_id : string;
  new_order_id : string;
  log_failure : option string;
  notification_failure : option string;
  is_uuid : string -> bool
}.

Inductive outcome (A : Type) := Ret (a : A) | Throw (message : string).
Arguments Ret {A} a.
Arguments Throw {A} message.

Definition M (A : Type) := db -> outcome A * db.

Definition ret {A} (a : A) : M A := fun d => (Ret a, d).
Definition throw {A} (e : string) : M A := fun d => (Throw e, d).
Definition bind {A B} (c : M A) (k : A -> M B) : M B :=
  fun d => match c d with
           | (Ret a, d') => k a d'
           | (Throw e, d') => (Throw e, d')
           end.

Notation "x <- c ;; k" := (bind c (fun x => k))
  (at level 61, c at next level, right associativity).
Notation "c ;;; k" := (bind c (fun _ => k))
  (at level 61, right associativity).

(** [prisma.$transaction(body)]: the writes of [body] are kept when it
    returns and dropped when it throws; the exception is re-thrown. *)
Definition transaction {A} (body : M A) : M A :=
  fun d => match body d with
           | (Ret a, d') => (Ret a, d')
           | (Throw e, _) => (Throw e, d)
           end.

Definition set_approvisionnements l (d : db) : db :=
  {| products := products d; approvisionnements := l; stocks := stocks d;
     orders := orders d; order_items := order_items d;
     deliveries := deliveries d; payments := payments d;
     transaction_logs := transaction_logs d;
     notifications := notifications d |}.

Definition set_stocks l (d : db) : db :=
  {| products := products d; approvisionnements := approvisionnements d;
     stocks := l; orders := orders d; order_items := order_items d;
     deliveries := deliveries d; payments := payments d;
     transaction_logs := transaction_logs d;
     notifications := notifications d |}.

Definition set_orders l (d : db) : db :=
  {| products := products d; approvisionnements := approvisionnements d;
     stocks := stocks d; orders := l; order_items := order_items d;
     deliveries := deliveries d; payments := payments d;
     transaction_logs := transaction_logs d;
     notifications := notifications d |}.

Definition set_order_items l (d : db) : db :=
  {| products := products d; approvisionnements := approvisionnements d;
     stocks := stocks d; orders := orders d; order_items := l;
     deliveries := deliveries d; payments := payments d;
     transaction_logs := transaction_logs d;
     notifications := notifications d |}.

Definition set_deliveries l (d : db) : db :=
  {| products := products d; approvisionnements := approvisionnements d;
     stocks := stocks d; orders := orders d; order_items := order_items d;
     deliveries := l; payments := payments d;
     transaction_logs := transaction_logs d;
     notifications := notifications d |}.

Definition set_payments l (d : db) : db :=
  {| products := products d; approvisionnements := approvisionnements d;
     stocks := stocks d; orders := orders d; order_items := order_items d;
     deliveries := deliveries d; payments := l;
     transaction_logs := transaction_logs d;
     notifications := notifications d |}.

Definition set_transaction_logs l (d : db) : db :=
  {| products := products d; approvisionnements := approvisionnements d;
     stocks := stocks d; orders := orders d; order_items := order_items d;
     deliveries := deliveries d; payments := payments d;
     transaction_logs := l;
     notifications := notifications d |}.

Definition set_notifications l (d : db) : db :=
  {| products := products d; approvisionnements := approvisionnements d;
     stocks := stocks d; orders := orders d; order_items := order_items d;
     deliveries := deliveries d; payments := payments d;
     transaction_logs := transaction_logs d;
     notifications := l |}.

(** Prisma's [update] throws when no row has the given key. *)
Definition record_not_found : string := "Record to update not found.".

Module Prisma.
Section WithEnv.
Variable E : env.

(** [approvisionnements.findUnique({ where: { approvisionnement_id },
    include: { products: true } })] *)
Definition approvisionnements_findUnique (aid : string)
  : M (option (Approvisionnement.t * Product.t)) :=
  fun d =>
    (Ret (option_map
            (fun a => (a, products d (Approvisionnement.product_id a)))
            (find (fun a => Approvisionnement.approvisionnement_id a =? aid)%string
                  (approvisionnements d))), d).

(** [approvisionnements.update({ where: { approvisionnement_id }, data })] *)
Definition approvisionnements_update (aid : string)
    (data : Approvisionnement.t -> Approvisionnement.t)
  : M Approvisionnement.t :=
  fun d =>
    match find (fun a => Approvisionnement.approvisionnement_id a =? aid)%string
               (approvisionnements d) with
    | None => (Throw record_not_found, d)
    | Some a =>
        (Ret (data a),
         set_approvisionnements
           (map (fun a => if (Approvisionnement.approvisionnement_id a =? aid)%string
                          then data a else a)
                (approvisionnements d)) d)
    end.

(** [stocks.findFirst({ where })] *)
Definition stocks_findFirst (where_ : Stock.t -> bool) : M (option Stock.t) :=
  fun d => (Ret (find where_ (stocks d)), d).

(** [stocks.findFirst({ where, include: { products: true } })] *)
Definition stocks_findFirst_include (where_ : Stock.t -> bool)
  : M (option (Stock.t * Product.t)) :=
  fun d =>
    (Ret (option_map (fun s => (s, products d (Stock.product_id s)))
                     (find where_ (stocks d))), d).

(** [stocks.findMany()] *)
Definition stocks_findMany : M (list Stock.t) :=
  fun d => (Ret (stocks d), d).

(** [stocks.update({ where: { stock_id }, data })] *)
Definition stocks_update (sid : string) (data : Stock.t -> Stock.t)
  : M Stock.t :=
  fun d =>
    match find (fun s => Stock.stock_id s =? sid)%string (stocks d) with
    | None => (Throw record_not_found, d)
    | Some s =>
        (Ret (data s),
         set_stocks
           (map (fun s => if (Stock.stock_id s =? sid)%string
                          then data s else s)
                (stocks d)) d)
    end.

(** [stocks.create({ data })]: the store chooses the new row's key. *)
Definition stocks_create (product_id warehouse_id : string)
    (quantity unit_price : Z) (approvisionnement_id : option string)
  : M Stock.t :=
  fun d =>
    let s := {| Stock.stock_id := new_stock_id E;
                Stock.product_id := product_id;
                Stock.warehouse_id := warehouse_id;
                Stock.quantity := quantity;
                Stock.unit_price := unit_price;
                Stock.last_updated := now E;
                Stock.approvisionnement_id := approvisionnement_id |} in
    (Ret s, set_stocks (stocks d ++ [s]) d).

Definition orders_create (o : Order.t) : M Order.t :=
  fun d => (Ret o, set_orders (orders d ++ [o]) d).

Definition orders_update (oid : string) (data : Order.t -> Order.t)
  : M Order.t :=
  fun d =>
    match find (fun o => Order.order_id o =? oid)%string (orders d) with
    | None => (Throw record_not_found, d)
    | Some o =>
        (Ret (data o),
         set_orders
           (map (fun o => if (Order.order_id o =? oid)%string
                          then data o else o)
                (orders d)) d)
    end.

Definition order_items_create (i : OrderItem.t) : M OrderItem.t :=
  fun d => (Ret i, set_order_items (order_items d ++ [i]) d).

Definition deliveries_create (x : Delivery.t) : M Delivery.t :=
  fun d => (Ret x, set_deliveries (deliveries d ++ [x]) d).

Definition payments_create (p : Payment.t) : M Payment.t :=
  fun d => (Ret p, set_payments (payments d ++ [p]) d).

(** [transaction_logs.create]: the audit sink; it may refuse the write. *)
Definition transaction_logs_create (l : Log.t) : M unit :=
  fun d =>
    match log_failure E with
    | Some e => (Throw e, d)
    | None => (Ret tt, set_transaction_logs (transaction_logs d ++ [l]) d)
    end.

(** [notifications.create]: the notification sink; it may refuse too. *)
Definition notifications_create (n : Notification.t) : M unit :=
  fun d =>
    match notification_failure E with
    | Some e => (Throw e, d)
    | None => (Ret tt, set_notifications (notifications d ++ [n]) d)
    end.
End WithEnv.
End Prisma.

(** ** Responses *)

Inductive payload :=
| ApprovisionnementData (a : Approvisionnement.t)
| OrderResult (order : Order.t) (orderItems : list OrderItem.t)
    (delivery : option Delivery.t) (payment : Payment.t)
| AdjustmentData (stock : Stock.t) (product : Product.t)
    (adjustment previous_quantity new_quantity : Z)
| TransferData (source_stock destination_stock : Stock.t)
    (product : Product.t) (quantity_transferred : Z)
| ReportData (total_items : nat) (total_value : Z)
    (low_stock_items : nat) (generated_by : string)
| AlertData (product : Product.t) (current_quantity threshold : Z)
    (is_low_stock alert_sent : bool).

Inductive response :=
| Failure (status : nat) (error code : string)
| Success (status : nat) (data : payload) (message : text).

(** The [x-user-data] header, when it is present and not empty.
    [JSON.parse] throws a SyntaxError on a text that is not JSON. On the
    text [null] it returns [null], and the first read of a property of
    that ([user.role], [user.id]) throws a TypeError. Otherwise the header
    is taken to hold an object with the fields [id] and [role]. The
    messages are those of the engine. *)
Inductive user_data :=
| NotJSON (syntax_error : string)
| JSONNull (type_error : string)
| UserObject (u : user).

(** [JSON.parse(userData)] *)
Definition JSON_parse (userData : user_data) : outcome user_data :=
  match userData with
  | NotJSON e => Throw e
  | JSONNull _ | UserObject _ => Ret userData
  end.

(** The first read of a property of the parsed value. *)
Definition property_of (parsed : user_data) : outcome user :=
  match parsed with
  | UserObject u => Ret u
  | JSONNull e => Throw e
  | NotJSON e => Throw e
  end.

Record request (B : Type) := {
  method : string;
  x_user_data : option user_data;
  body : B
}.
Arguments method {B} r.
Arguments x_user_data {B} r.
Arguments body {B} r.

(** JavaScript's [x || fallback] on an optional string. *)
Definition or_default (x : option string) (fallback : string) : string :=
  match x with
  | Some s => if (s =? "")%string then fallback else s
  | None => fallback
  end.

(** JavaScript's [!x] on an optional string and on an optional number. *)
Definition missing_string (x : option string) : bool :=
  match x with
  | Some s => (s =? "")%string
  | None => true
  end.

Definition missing_number (x : option Z) : bool :=
  match x with
  | Some n => n =? 0
  | None => true
  end.

Definition positive_if_present (x : option Z) : bool :=
  match x with
  | Some n => 0 <? n
  | None => true
  end.

(** [z.string().uuid().optional()] *)
Definition uuid_if_present (E : env) (x : option string) : bool :=
  match x with
  | Some s => is_uuid E s
  | None => true
  end.

Definition is_role (u : user) (r : string) : bool := (role u =? r)%string.

(** ** The approvisionnement workflow endpoint *)

Module Workflow.

Inductive action := validate_bd | reject_bd | receive_stock | reject_stock.

Record WorkflowData := {
  action_of : action;
  approvisionnement_id : string;
  notes : option string;
  reason : option string;
  actual_quantity : option Z;
  actual_price : option Z
}.

(** [workflowActionSchema]: the identifier is a UUID and the two numbers,
    when present, are positive. The [action] enum is the type [action]. *)
Definition workflowActionSchema (E : env) (data : WorkflowData) : bool :=
  is_uuid E (approvisionnement_id data)
  && positive_if_present (actual_quantity data)
  && positive_if_present (actual_price data).

Definition set_bd (st : Approvisionnement.status_enum) (uid : string)
    (t : Z) (a : Approvisionnement.t) : Approvisionnement.t :=
  {| Approvisionnement.approvisionnement_id := Approvisionnement.approvisionnement_id a;
     Approvisionnement.supplier_id := Approvisionnement.supplier_id a;
     Approvisionnement.product_id := Approvisionnement.product_id a;
     Approvisionnement.warehouse_id := Approvisionnement.warehouse_id a;
     Approvisionnement.quantity := Approvisionnement.quantity a;
     Approvisionnement.proposed_price := Approvisionnement.proposed_price a;
     Approvisionnement.status := st;
     Approvisionnement.business_developer_id := Some uid;
     Approvisionnement.stock_manager_id := Approvisionnement.stock_manager_id a;
     Approvisionnement.updated_at := t |}.

Definition set_sm (st : Approvisionnement.status_enum) (uid : string)
    (t : Z) (a : Approvisionnement.t) : Approvisionnement.t :=
  {| Approvisionnement.approvisionnement_id := Approvisionnement.approvisionnement_id a;
     Approvisionnement.supplier_id := Approvisionnement.supplier_id a;
     Approvisionnement.product_id := Approvisionnement.product_id a;
     Approvisionnement.warehouse_id := Approvisionnement.warehouse_id a;
     Approvisionnement.quantity := Approvisionnement.quantity a;
     Approvisionnement.proposed_price := Approvisionnement.proposed_price a;
     Approvisionnement.status := st;
     Approvisionnement.business_developer_id := Approvisionnement.business_developer_id a;
     Approvisionnement.stock_manager_id := Some uid;
     Approvisionnement.updated_at := t |}.

(** The [data] of the [stocks.update] of a receipt. *)
Definition credit (a : Approvisionnement.t) (existing : Stock.t) (t : Z)
    (s : Stock.t) : Stock.t :=
  {| Stock.stock_id := Stock.stock_id s;
     Stock.product_id := Stock.product_id s;
     Stock.warehouse_id := Stock.warehouse_id s;
     Stock.quantity := Stock.quantity existing + Approvisionnement.quantity a;
     Stock.unit_price := Approvisionnement.proposed_price a;
     Stock.last_updated := t;
     Stock.approvisionnement_id := Some (Approvisionnement.approvisionnement_id a) |}.

Definition workflow_log (u : user) (a : Approvisionnement.t)
    (act : string) (new_status : Approvisionnement.status_enum)
    (received : option Z) (data : WorkflowData) : Log.t :=
  {| Log.entity_type := "approvisionnements";
     Log.entity_id := Approvisionnement.approvisionnement_id a;
     Log.action := "UPDATE";
     Log.user_id := id u;
     Log.details := WorkflowDetails act (Approvisionnement.status a)
                      new_status received (notes data) |}.

Definition email (to : string) (msg : text) : Notification.t :=
  {| Notification.user_id := to; Notification.type := "email";
     Notification.message := msg; Notification.status := "sent" |}.

Section WithEnv.
Variable E : env.

Definition handleBusinessDeveloperValidation (u : user)
    (approvisionnement : Approvisionnement.t) (product : Product.t)
    (data : WorkflowData) : M response :=
  if negb (is_role u "business_developer") && negb (is_role u "admin") then
    ret (Failure 403 "Only Business Developers can validate approvisionnements"
                 "INSUFFICIENT_PERMISSIONS")
  else if negb (Approvisionnement.status_eqb
                  (Approvisionnement.status approvisionnement)
                  Approvisionnement.pending) then
    ret (Failure 400 "Approvisionnement must be in pending status to be validated"
                 "INVALID_STATUS")
  else
    updatedApprovisionnement <-
      Prisma.approvisionnements_update
        (Approvisionnement.approvisionnement_id approvisionnement)
        (set_bd Approvisionnement.validated_bd (id u) (now E)) ;;
    Prisma.transaction_logs_create E
      (workflow_log u approvisionnement "validate_bd"
         Approvisionnement.validated_bd None data) ;;;
    Prisma.notifications_create E
      (email (or_default (Approvisionnement.stock_manager_id approvisionnement)
                         "stock-manager-id")
             [Str "New approvisionnement validated by Business Developer: ";
              Str (Product.name product); Str " - ";
              Num (Approvisionnement.quantity approvisionnement);
              Str " units"]) ;;;
    ret (Success 200 (ApprovisionnementData updatedApprovisionnement)
           [Str "Approvisionnement validated successfully by Business Developer"]).

Definition handleBusinessDeveloperRejection (u : user)
    (approvisionnement : Approvisionnement.t) (data : WorkflowData)
  : M response :=
  if negb (is_role u "business_developer") && negb (is_role u "admin") then
    ret (Failure 403 "Only Business Developers can reject approvisionnements"
                 "INSUFFICIENT_PERMISSIONS")
  else if negb (Approvisionnement.status_eqb
                  (Approvisionnement.status approvisionnement)
                  Approvisionnement.pending) then
    ret (Failure 400 "Approvisionnement must be in pending status to be rejected"
                 "INVALID_STATUS")
  else
    updatedApprovisionnement <-
      Prisma.approvisionnements_update
        (Approvisionnement.approvisionnement_id approvisionnement)
        (set_bd Approvisionnement.rejected (id u) (now E)) ;;
    Prisma.transaction_logs_create E
      (workflow_log u approvisionnement "reject_bd"
         Approvisionnement.rejected None data) ;;;
    Prisma.notifications_create E
      (email (Approvisionnement.supplier_id approvisionnement)
             [Str "Your approvisionnement has been rejected by Business Developer. Reason: ";
              Str (or_default (notes data) "No reason provided")]) ;;;
    ret (Success 200 (ApprovisionnementData updatedApprovisionnement)
           [Str "Approvisionnement rejected successfully by Business Developer"]).

(** The body of the transaction of [handleStockReceival]. *)
Definition receival_transaction (u : user)
    (approvisionnement : Approvisionnement.t) : M Approvisionnement.t :=
  updatedApprovisionnement <-
    Prisma.approvisionnements_update
      (Approvisionnement.approvisionnement_id approvisionnement)
      (set_sm Approvisionnement.received (id u) (now E)) ;;
  existingStock <-
    Prisma.stocks_findFirst
      (fun s => (Stock.product_id s =? Approvisionnement.product_id approvisionnement)%string
             && (Stock.warehouse_id s =? Approvisionnement.warehouse_id approvisionnement)%string) ;;
  match existingStock with
  | Some existing =>
      _ <- Prisma.stocks_update (Stock.stock_id existing)
             (credit approvisionnement existing (now E)) ;;
      ret tt
  | None =>
      _ <- Prisma.stocks_create E
             (Approvisionnement.product_id approvisionnement)
             (Approvisionnement.warehouse_id approvisionnement)
             (Approvisionnement.quantity approvisionnement)
             (Approvisionnement.proposed_price approvisionnement)
             (Some (Approvisionnement.approvisionnement_id approvisionnement)) ;;
      ret tt
  end ;;;
  Prisma.payments_create
    {| Payment.order_id := None;
       Payment.approvisionnement_id :=
         Some (Approvisionnement.approvisionnement_id approvisionnement);
       Payment.amount := Approvisionnement.quantity approvisionnement
                         * Approvisionnement.proposed_price approvisionnement;
       Payment.payment_method := direct;
       Payment.status := Payment.pending |} ;;;
  ret updatedApprovisionnement.

Definition handleStockReceival (u : user)
    (approvisionnement : Approvisionnement.t) (data : WorkflowData)
  : M response :=
  if negb (is_role u "stock_manager") && negb (is_role u "admin") then
    ret (Failure 403 "Only Stock Managers can receive stock"
                 "INSUFFICIENT_PERMISSIONS")
  else if negb (Approvisionnement.status_eqb
                  (Approvisionnement.status approvisionnement)
                  Approvisionnement.validated_bd) then
    ret (Failure 400 "Approvisionnement must be validated by Business Developer before stock can be received"
                 "INVALID_STATUS")
  else
    result <- transaction (receival_transaction u approvisionnement) ;;
    Prisma.transaction_logs_create E
      (workflow_log u approvisionnement "receive_stock"
         Approvisionnement.received
         (Some (Approvisionnement.quantity approvisionnement)) data) ;;;
    Prisma.notifications_create E
      (email (Approvisionnement.supplier_id approvisionnement)
             [Str "Your stock has been received and payment of ";
              Num (Approvisionnement.quantity approvisionnement
                   * Approvisionnement.proposed_price approvisionnement);
              Str " has been processed."]) ;;;
    ret (Success 200 (ApprovisionnementData result)
           [Str "Stock received successfully. Inventory updated and payment processed."]).

Definition handleStockRejection (u : user)
    (approvisionnement : Approvisionnement.t) (data : WorkflowData)
  : M response :=
  if negb (is_role u "stock_manager") && negb (is_role u "admin") then
    ret (Failure 403 "Only Stock Managers can reject stock"
                 "INSUFFICIENT_PERMISSIONS")
  else if negb (Approvisionnement.status_eqb
                  (Approvisionnement.status approvisionnement)
                  Approvisionnement.validated_bd) then
    ret (Failure 400 "Approvisionnement must be validated by Business Developer before stock can be rejected"
                 "INVALID_STATUS")
  else
    updatedApprovisionnement <-
      Prisma.approvisionnements_update
        (Approvisionnement.approvisionnement_id approvisionnement)
        (set_sm Approvisionnement.rejected (id u) (now E)) ;;
    Prisma.transaction_logs_create E
      (workflow_log u approvisionnement "reject_stock"
         Approvisionnement.rejected None data) ;;;
    Prisma.notifications_create E
      (email (Approvisionnement.supplier_id approvisionnement)
             [Str "Your stock has been rejected by Stock Manager. Reason: ";
              Str (or_default (notes data) "No reason provided")]) ;;;
    ret (Success 200 (ApprovisionnementData updatedApprovisionnement)
           [Str "Stock rejected successfully by Stock Manager"]).

(** The [try] block of [handler]. *)
Definition handler_try (req : request WorkflowData) : M response :=
  if negb (method req =? "POST")%string then
    ret (Failure 405 "Method not allowed" "METHOD_NOT_ALLOWED")
  else
    match x_user_data req with
    | None => ret (Failure 401 "Authentication required" "UNAUTHORIZED")
    | Some userData =>
        match JSON_parse userData with
        | Throw e => throw e
        | Ret parsed =>
            let validatedData := body req in
            if negb (workflowActionSchema E validatedData) then
              ret (Failure 400 "Invalid input data" "VALIDATION_ERROR")
            else
              found <- Prisma.approvisionnements_findUnique
                         (approvisionnement_id validatedData) ;;
              match found with
              | None =>
                  ret (Failure 404 "Approvisionnement not found" "NOT_FOUND")
              | Some (approvisionnement, product) =>
                  (* every sub-handler opens with a read of [user.role] *)
                  match property_of parsed with
                  | Throw e => throw e
                  | Ret u =>
                      match action_of validatedData with
                      | validate_bd =>
                          handleBusinessDeveloperValidation u approvisionnement
                            product validatedData
                      | reject_bd =>
                          handleBusinessDeveloperRejection u approvisionnement
                            validatedData
                      | receive_stock =>
                          handleStockReceival u approvisionnement validatedData
                      | reject_stock =>
                          handleStockRejection u approvisionnement validatedData
                      end
                  end
              end
        end
    end.

(** [handler]: what the caller receives and the store it leaves. *)
Definition handler (req : request WorkflowData) (d : db) : response * db :=
  match handler_try req d with
  | (Ret r, d') => (r, d')
  | (Throw _, d') =>
      (Failure 500 "Internal server error" "INTERNAL_SERVER_ERROR", d')
  end.
End WithEnv.
End Workflow.

(** ** The order processing endpoint *)

Module OrderProcess.

Record item := {
  product_id : string;
  quantity : Z;
  unit_price : Z
}.

Record OrderData := {
  client_id : string;
  warehouse_id : string;
  items : list item;
  delivery_option : bool;
  delivery_address : option string;
  payment_method_of : payment_method
}.

(** [orderProcessingSchema]: the warehouse and the product of every item
    are UUIDs ([client_id] is any string), there is at least one item, and
    every quantity and every unit price is positive. *)
Definition orderProcessingSchema (E : env) (data : OrderData) : bool :=
  is_uuid E (warehouse_id data)
  && negb (Nat.eqb (List.length (items data)) 0)
  && forallb (fun i => is_uuid E (product_id i)
                       && (0 <? quantity i) && (0 <? unit_price i))
             (items data).

Record StockValidation := {
  valid : bool;
  productName : option string;
  availableQuantity : option Z;
  requestedQuantity : option Z
}.

Definition where_stock (product warehouse : string) (s : Stock.t) : bool :=
  (Stock.product_id s =? product)%string
  && (Stock.warehouse_id s =? warehouse)%string.

(** The [data] of the [stocks.update] of an order line:
    [quantity: { decrement }] and [last_updated]. *)
Definition decrement (q t : Z) (s : Stock.t) : Stock.t :=
  {| Stock.stock_id := Stock.stock_id s;
     Stock.product_id := Stock.product_id s;
     Stock.warehouse_id := Stock.warehouse_id s;
     Stock.quantity := Stock.quantity s - q;
     Stock.unit_price := Stock.unit_price s;
     Stock.last_updated := t;
     Stock.approvisionnement_id := Stock.approvisionnement_id s |}.

Definition set_status (st : Order.status_enum) (o : Order.t) : Order.t :=
  {| Order.order_id := Order.order_id o;
     Order.client_id := Order.client_id o;
     Order.warehouse_id := Order.warehouse_id o;
     Order.total_amount := Order.total_amount o;
     Order.status := st;
     Order.delivery_option := Order.delivery_option o;
     Order.delivery_address := Order.delivery_address o;
     Order.payment_method := Order.payment_method o |}.

Definition totalAmount (l : list item) : Z :=
  fold_left (fun sum i => sum + quantity i * unit_price i) l 0.

Fixpoint validateStockAvailability (l : list item) (warehouseId : string)
  : M StockValidation :=
  match l with
  | [] => ret {| valid := true; productName := None;
                 availableQuantity := None; requestedQuantity := None |}
  | i :: rest =>
      stock <- Prisma.stocks_findFirst_include
                 (where_stock (product_id i) warehouseId) ;;
      match stock with
      | None =>
          ret {| valid := false;
                 productName := Some ("Product ID: " ++ product_id i)%string;
                 availableQuantity := Some 0;
                 requestedQuantity := Some (quantity i) |}
      | Some (s, p) =>
          if Stock.quantity s <? quantity i then
            ret {| valid := false;
                   productName := Some (Product.name p);
                   availableQuantity := Some (Stock.quantity s);
                   requestedQuantity := Some (quantity i) |}
          else validateStockAvailability rest warehouseId
      end
  end.

(** [`${x}`] of an optional string ([undefined] prints as such). *)
Definition interpolate (x : option string) : string :=
  match x with Some s => s | None => "undefined" end.

Section WithEnv.
Variable E : env.

(** Step 4 of the transaction: one order item and one decrement per line. *)
Fixpoint create_items (order_id warehouse : string) (l : list item)
  : M (list OrderItem.t) :=
  match l with
  | [] => ret []
  | i :: rest =>
      orderItem <- Prisma.order_items_create
                     {| OrderItem.order_id := order_id;
                        OrderItem.product_id := product_id i;
                        OrderItem.quantity := quantity i;
                        OrderItem.unit_price := unit_price i |} ;;
      stock <- Prisma.stocks_findFirst
                 (where_stock (product_id i) warehouse) ;;
      match stock with
      | Some s =>
          _ <- Prisma.stocks_update (Stock.stock_id s)
                 (decrement (quantity i) (now E)) ;;
          ret tt
      | None => ret tt
      end ;;;
      orderItems <- create_items order_id warehouse rest ;;
      ret (orderItem :: orderItems)
  end.

(** The body of the transaction of [handler]. *)
Definition order_transaction (validatedData : OrderData)
  : M (Order.t * list OrderItem.t * option Delivery.t * Payment.t) :=
  stockValidation <- validateStockAvailability (items validatedData)
                       (warehouse_id validatedData) ;;
  if negb (valid stockValidation) then
    throw ("Insufficient stock for product: "
           ++ interpolate (productName stockValidation))%string
  else
    let total := totalAmount (items validatedData) in
    order <- Prisma.orders_create
               {| Order.order_id := new_order_id E;
                  Order.client_id := client_id validatedData;
                  Order.warehouse_id := warehouse_id validatedData;
                  Order.total_amount := total;
                  Order.status := Order.pending;
                  Order.delivery_option := delivery_option validatedData;
                  Order.delivery_address := delivery_address validatedData;
                  Order.payment_method := payment_method_of validatedData |} ;;
    orderItems <- create_items (Order.order_id order)
                    (warehouse_id validatedData) (items validatedData) ;;
    delivery <-
      (if delivery_option validatedData then
         x <- Prisma.deliveries_create
                {| Delivery.order_id := Order.order_id order;
                   Delivery.status := "assigned" |} ;;
         ret (Some x)
       else ret None) ;;
    payment <- Prisma.payments_create
                 {| Payment.order_id := Some (Order.order_id order);
                    Payment.approvisionnement_id := None;
                    Payment.amount := total;
                    Payment.payment_method := payment_method_of validatedData;
                    Payment.status :=
                      match payment_method_of validatedData with
                      | direct => Payment.completed
                      | credit => Payment.pending
                      end |} ;;
    updatedOrder <- Prisma.orders_update (Order.order_id order)
                      (set_status
                         match payment_method_of validatedData with
                         | direct => Order.paid
                         | credit => Order.pending
                         end) ;;
    ret (updatedOrder, orderItems, delivery, payment).

(** The [try] block of [handler]. *)
Definition handler_try (req : request OrderData) : M response :=
  if negb (method req =? "POST")%string then
    ret (Failure 405 "Method not allowed" "METHOD_NOT_ALLOWED")
  else
    match x_user_data req with
    | None => ret (Failure 401 "Authentication required" "UNAUTHORIZED")
    | Some userData =>
      match JSON_parse userData with
      | Throw e => throw e
      | Ret parsed =>
        let validatedData := body req in
        if negb (orderProcessingSchema E validatedData) then
          ret (Failure 400 "Invalid input data" "VALIDATION_ERROR")
        else
        (* the role check reads [user.role] *)
        match property_of parsed with
        | Throw e => throw e
        | Ret u =>
        if negb (is_role u "client") && negb (is_role u "admin") then
          ret (Failure 403 "Only clients can place orders"
                       "INSUFFICIENT_PERMISSIONS")
        else
          result <- transaction (order_transaction validatedData) ;;
          match result with
          | (order, orderItems, delivery, payment) =>
              Prisma.transaction_logs_create E
                {| Log.entity_type := "orders";
                   Log.entity_id := Order.order_id order;
                   Log.action := "CREATE";
                   Log.user_id := id u;
                   Log.details :=
                     ProcessOrderDetails (Order.total_amount order)
                       (List.length orderItems)
                       (delivery_option validatedData)
                       (payment_method_of validatedData) |} ;;;
              Prisma.notifications_create E
                {| Notification.user_id := client_id validatedData;
                   Notification.type := "email";
                   Notification.message :=
                     [Str "Your order #"; Str (Order.order_id order);
                      Str " has been processed successfully. Total: $";
                      Num (Order.total_amount order)];
                   Notification.status := "sent" |} ;;;
              Prisma.notifications_create E
                {| Notification.user_id := "warehouse-staff-id";
                   Notification.type := "email";
                   Notification.message :=
                     [Str "New order #"; Str (Order.order_id order);
                      Str " received. ";
                      Num (Z.of_nat (List.length orderItems));
                      Str " items to prepare."];
                   Notification.status := "sent" |} ;;;
              ret (Success 201 (OrderResult order orderItems delivery payment)
                     [Str "Order processed successfully"])
          end
        end
      end
    end.

(** [handler]: what the caller receives and the store it leaves. *)
Definition handler (req : request OrderData) (d : db) : response * db :=
  match handler_try req d with
  | (Ret r, d') => (r, d')
  | (Throw e, d') => (Failure 500 e "INTERNAL_SERVER_ERROR", d')
  end.
End WithEnv.
End OrderProcess.

(** ** The stock management endpoint *)

Module StockManagement.

Inductive action := adjust | transfer | report | alert.

Record StockData := {
  action_of : action;
  product_id : option string;
  warehouse_id : option string;
  quantity : option Z;
  from_warehouse_id : option string;
  to_warehouse_id : option string;
  reason : option string;
  threshold : option Z
}.

(** [stockManagementSchema]: the identifiers that are present are UUIDs,
    and the threshold, when present, is positive. *)
Definition stockManagementSchema (E : env) (data : StockData) : bool :=
  uuid_if_present E (product_id data)
  && uuid_if_present E (warehouse_id data)
  && uuid_if_present E (from_warehouse_id data)
  && uuid_if_present E (to_warehouse_id data)
  && positive_if_present (threshold data).

(** The value of a field the guard of a handler has found present. *)
Definition str (x : option string) : string :=
  match x with Some s => s | None => "" end.

Definition num (x : option Z) : Z :=
  match x with Some n => n | None => 0 end.

Definition is_undefined {A} (x : option A) : bool :=
  match x with Some _ => false | None => true end.

Definition where_stock (product warehouse : string) (s : Stock.t) : bool :=
  (Stock.product_id s =? product)%string
  && (Stock.warehouse_id s =? warehouse)%string.

Definition where_product (product : string) (s : Stock.t) : bool :=
  (Stock.product_id s =? product)%string.

(** The [data] of a [stocks.update] that writes a quantity and
    [last_updated]. *)
Definition set_quantity (q t : Z) (s : Stock.t) : Stock.t :=
  {| Stock.stock_id := Stock.stock_id s;
     Stock.product_id := Stock.product_id s;
     Stock.warehouse_id := Stock.warehouse_id s;
     Stock.quantity := q;
     Stock.unit_price := Stock.unit_price s;
     Stock.last_updated := t;
     Stock.approvisionnement_id := Stock.approvisionnement_id s |}.

Section WithEnv.
Variable E : env.

(** The body of the transaction of [handleStockAdjustment]. *)
Definition adjustment_transaction (u : user) (data : StockData)
  : M payload :=
  currentStock <- Prisma.stocks_findFirst_include
                    (where_stock (str (product_id data))
                                 (str (warehouse_id data))) ;;
  match currentStock with
  | None => throw "Stock record not found for this product and warehouse"
  | Some (current, product) =>
      let newQuantity := Stock.quantity current + num (quantity data) in
      if newQuantity <? 0 then
        throw "Stock adjustment would result in negative quantity"
      else
        updatedStock <- Prisma.stocks_update (Stock.stock_id current)
                          (set_quantity newQuantity (now E)) ;;
        Prisma.transaction_logs_create E
          {| Log.entity_type := "stocks";
             Log.entity_id := Stock.stock_id current;
             Log.action := "UPDATE";
             Log.user_id := id u;
             Log.details :=
               StockAdjustmentDetails (str (product_id data))
                 (str (warehouse_id data)) (Stock.quantity current)
                 (num (quantity data)) newQuantity
                 (or_default (reason data) "Manual adjustment") |} ;;;
        ret (AdjustmentData updatedStock product (num (quantity data))
               (Stock.quantity current) newQuantity)
  end.

Definition handleStockAdjustment (u : user) (data : StockData) (d : db)
  : response * db :=
  if missing_string (product_id data) || missing_string (warehouse_id data)
     || is_undefined (quantity data) then
    (Failure 400 "product_id, warehouse_id, and quantity are required for stock adjustment"
             "MISSING_REQUIRED_FIELDS", d)
  else
    match transaction (adjustment_transaction u data) d with
    | (Ret result, d') =>
        (Success 200 result
           [Str "Stock adjusted successfully. ";
            Str (if 0 <? num (quantity data) then "Added" else "Removed");
            Str " "; Num (Z.abs (num (quantity data))); Str " units."], d')
    | (Throw e, d') => (Failure 500 e "STOCK_ADJUSTMENT_FAILED", d')
    end.

(** The body of the transaction of [handleStockTransfer]. *)
Definition transfer_transaction (u : user) (data : StockData)
  : M payload :=
  sourceStock <- Prisma.stocks_findFirst_include
                   (where_stock (str (product_id data))
                                (str (from_warehouse_id data))) ;;
  match sourceStock with
  | None => throw "Source stock not found"
  | Some (source, product) =>
      if Stock.quantity source <? num (quantity data) then
        throw "Insufficient stock in source warehouse"
      else
        found <- Prisma.stocks_findFirst
                   (where_stock (str (product_id data))
                                (str (to_warehouse_id data))) ;;
        destinationStock <-
          match found with
          | None =>
              Prisma.stocks_create E (str (product_id data))
                (str (to_warehouse_id data)) (num (quantity data))
                (Stock.unit_price source) None
          | Some destination =>
              Prisma.stocks_update (Stock.stock_id destination)
                (set_quantity
                   (Stock.quantity destination + num (quantity data))
                   (now E))
          end ;;
        updatedSourceStock <-
          Prisma.stocks_update (Stock.stock_id source)
            (set_quantity (Stock.quantity source - num (quantity data))
                          (now E)) ;;
        Prisma.transaction_logs_create E
          {| Log.entity_type := "stocks";
             Log.entity_id := Stock.stock_id source;
             Log.action := "UPDATE";
             Log.user_id := id u;
             Log.details :=
               StockTransferDetails (str (product_id data))
                 (str (from_warehouse_id data))
                 (str (to_warehouse_id data)) (num (quantity data))
                 (or_default (reason data) "Manual transfer") |} ;;;
        ret (TransferData updatedSourceStock destinationStock product
               (num (quantity data)))
  end.

Definition handleStockTransfer (u : user) (data : StockData) (d : db)
  : response * db :=
  if missing_string (product_id data)
     || missing_string (from_warehouse_id data)
     || missing_string (to_warehouse_id data)
     || missing_number (quantity data) then
    (Failure 400 "product_id, from_warehouse_id, to_warehouse_id, and quantity are required for stock transfer"
             "MISSING_REQUIRED_FIELDS", d)
  else if (str (from_warehouse_id data) =? str (to_warehouse_id data))%string then
    (Failure 400 "Source and destination warehouses must be different"
             "INVALID_TRANSFER", d)
  else
    match transaction (transfer_transaction u data) d with
    | (Ret result, d') =>
        (Success 200 result
           [Str "Stock transfer completed successfully. ";
            Num (num (quantity data)); Str " units transferred."], d')
    | (Throw e, d') => (Failure 500 e "STOCK_TRANSFER_FAILED", d')
    end.

(** The [summary] of [handleInventoryReport]: the number of rows, their
    value and the number of rows under 10 units, none of which depends on
    the order in which the store returns the rows. The lists of the report
    (low-stock rows, per-warehouse grouping, recent movements) are left
    out. *)
Definition handleInventoryReport (u : user) (data : StockData) (d : db)
  : response * db :=
  match Prisma.stocks_findMany d with
  | (Ret stockReport, d') =>
      (Success 200
         (ReportData (List.length stockReport)
            (fold_left (fun sum s => sum + Stock.quantity s * Stock.unit_price s)
                       stockReport 0)
            (List.length
               (filter (fun s => Stock.quantity s <? 10) stockReport))
            (id u))
         [Str "Inventory report generated successfully"], d')
  | (Throw _, d') =>
      (Failure 500 "Failed to generate inventory report"
               "REPORT_GENERATION_FAILED", d')
  end.

(** The [try] block of [handleStockAlert]. *)
Definition alert_try (u : user) (data : StockData) : M response :=
  currentStock <- Prisma.stocks_findFirst_include
                    (where_product (str (product_id data))) ;;
  match currentStock with
  | None => ret (Failure 404 "Stock not found for this product"
                         "STOCK_NOT_FOUND")
  | Some (current, product) =>
      let isLowStock := Stock.quantity current <=? num (threshold data) in
      (if isLowStock then
         Prisma.notifications_create E
           {| Notification.user_id := id u;
              Notification.type := "email";
              Notification.message :=
                [Str "LOW STOCK ALERT: "; Str (Product.name product);
                 Str " is below threshold. Current: ";
                 Num (Stock.quantity current); Str ", Threshold: ";
                 Num (num (threshold data))];
              Notification.status := "sent" |} ;;;
         Prisma.transaction_logs_create E
           {| Log.entity_type := "stocks";
              Log.entity_id := Stock.stock_id current;
              Log.action := "CREATE";
              Log.user_id := id u;
              Log.details :=
                LowStockAlertDetails (str (product_id data))
                  (Stock.quantity current) (num (threshold data)) true |}
       else ret tt) ;;;
      ret (Success 200
             (AlertData product (Stock.quantity current)
                (num (threshold data)) isLowStock isLowStock)
             [Str (if isLowStock then "Low stock alert triggered for "
                   else "Stock level is above threshold for ");
              Str (Product.name product)])
  end.

Definition handleStockAlert (u : user) (data : StockData) (d : db)
  : response * db :=
  if missing_string (product_id data) || missing_number (threshold data) then
    (Failure 400 "product_id and threshold are required for stock alerts"
             "MISSING_REQUIRED_FIELDS", d)
  else
    match alert_try u data d with
    | (Ret r, d') => (r, d')
    | (Throw _, d') =>
        (Failure 500 "Failed to process stock alert"
                 "ALERT_PROCESSING_FAILED", d')
    end.

Definition handler (req : request StockData) (d : db) : response * db :=
  if negb (method req =? "POST")%string then
    (Failure 405 "Method not allowed" "METHOD_NOT_ALLOWED", d)
  else
    match x_user_data req with
    | None => (Failure 401 "Authentication required" "UNAUTHORIZED", d)
    | Some userData =>
      match JSON_parse userData with
      | Throw _ =>
          (Failure 500 "Internal server error" "INTERNAL_SERVER_ERROR", d)
      | Ret parsed =>
        let validatedData := body req in
        if negb (stockManagementSchema E validatedData) then
          (Failure 400 "Invalid input data" "VALIDATION_ERROR", d)
        else
        (* the role check reads [user.role] *)
        match property_of parsed with
        | Throw _ =>
            (Failure 500 "Internal server error" "INTERNAL_SERVER_ERROR", d)
        | Ret u =>
        if negb (is_role u "stock_manager") && negb (is_role u "admin") then
          (Failure 403 "Only Stock Managers can manage inventory"
                   "INSUFFICIENT_PERMISSIONS", d)
        else
          match action_of validatedData with
          | adjust => handleStockAdjustment u validatedData d
          | transfer => handleStockTransfer u validatedData d
          | report => handleInventoryReport u validatedData d
          | alert => handleStockAlert u validatedData d
          end
        end
      end
    end.
End WithEnv.
End StockManagement.

(** ** The order processing endpoint, second version

    The same file holds a second handler for the same route. It differs
    from the first in that it checks no role, accepts an empty list of
    items, writes the order items and the decrements with [Promise.all]
    over the lines (the decrements with [updateMany], on every matching
    row), always creates a delivery, creates no payment and leaves the
    order pending, and puts the available and requested quantities in the
    message of a refusal. The calls of a [Promise.all] are issued in the
    order of the lines. The conversion of a number to text in a template
    literal is the parameter [show]; [delivery_date] and [driver_id] of the
    delivery are not kept. *)

Module OrderProcessV2.

Inductive reply :=
| Refused (status : nat) (error code : string)
| Created (order : Order.t) (orderItems : list OrderItem.t)
    (delivery : Delivery.t) (message : text).

(** This version's [orderProcessingSchema]: the client, the warehouse and
    the product of every item are UUIDs, and every quantity and every unit
    price is positive; the list of items may be empty. *)
Definition orderProcessingSchema (E : env) (data : OrderProcess.OrderData)
  : bool :=
  is_uuid E (OrderProcess.client_id data)
  && is_uuid E (OrderProcess.warehouse_id data)
  && forallb (fun i => is_uuid E (OrderProcess.product_id i)
                       && (0 <? OrderProcess.quantity i)
                       && (0 <? OrderProcess.unit_price i))
             (OrderProcess.items data).

(** [stocks.updateMany({ where, data })]: every matching row is rewritten,
    and there need be none. *)
Definition stocks_updateMany (where_ : Stock.t -> bool)
    (data : Stock.t -> Stock.t) : M unit :=
  fun d =>
    (Ret tt,
     set_stocks (map (fun s => if where_ s then data s else s) (stocks d)) d).

(** The [data] of the [updateMany] of an order line:
    [quantity: { decrement }]. *)
Definition decrement (q : Z) (s : Stock.t) : Stock.t :=
  {| Stock.stock_id := Stock.stock_id s;
     Stock.product_id := Stock.product_id s;
     Stock.warehouse_id := Stock.warehouse_id s;
     Stock.quantity := Stock.quantity s - q;
     Stock.unit_price := Stock.unit_price s;
     Stock.last_updated := Stock.last_updated s;
     Stock.approvisionnement_id := Stock.approvisionnement_id s |}.

Definition show_option (show : Z -> string) (x : option Z) : string :=
  match x with Some n => show n | None => "undefined" end.

Section WithEnv.
Variable E : env.
Variable show : Z -> string.

(** [Promise.all(items.map(item => tx.order_items.create(...)))] *)
Fixpoint create_order_items (order_id : string) (l : list OrderProcess.item)
  : M (list OrderItem.t) :=
  match l with
  | [] => ret []
  | i :: rest =>
      orderItem <- Prisma.order_items_create
                     {| OrderItem.order_id := order_id;
                        OrderItem.product_id := OrderProcess.product_id i;
                        OrderItem.quantity := OrderProcess.quantity i;
                        OrderItem.unit_price := OrderProcess.unit_price i |} ;;
      orderItems <- create_order_items order_id rest ;;
      ret (orderItem :: orderItems)
  end.

(** [Promise.all(items.map(item => tx.stocks.updateMany(...)))] *)
Fixpoint update_stocks (warehouse : string) (l : list OrderProcess.item)
  : M unit :=
  match l with
  | [] => ret tt
  | i :: rest =>
      stocks_updateMany
        (OrderProcess.where_stock (OrderProcess.product_id i) warehouse)
        (decrement (OrderProcess.quantity i)) ;;;
      update_stocks warehouse rest
  end.

(** The body of the transaction of [handler]. *)
Definition order_transaction (validatedData : OrderProcess.OrderData)
  : M (Order.t * list OrderItem.t * Delivery.t) :=
  stockValidation <- OrderProcess.validateStockAvailability
                       (OrderProcess.items validatedData)
                       (OrderProcess.warehouse_id validatedData) ;;
  if negb (OrderProcess.valid stockValidation) then
    throw ("Insufficient stock for "
           ++ OrderProcess.interpolate (OrderProcess.productName stockValidation)
           ++ ". Available: "
           ++ show_option show (OrderProcess.availableQuantity stockValidation)
           ++ ", Requested: "
           ++ show_option show (OrderProcess.requestedQuantity stockValidation))%string
  else
    order <- Prisma.orders_create
               {| Order.order_id := new_order_id E;
                  Order.client_id := OrderProcess.client_id validatedData;
                  Order.warehouse_id := OrderProcess.warehouse_id validatedData;
                  Order.total_amount :=
                    OrderProcess.totalAmount (OrderProcess.items validatedData);
                  Order.status := Order.pending;
                  Order.delivery_option :=
                    OrderProcess.delivery_option validatedData;
                  Order.delivery_address :=
                    OrderProcess.delivery_address validatedData;
                  Order.payment_method :=
                    OrderProcess.payment_method_of validatedData |} ;;
    orderItems <- create_order_items (Order.order_id order)
                    (OrderProcess.items validatedData) ;;
    update_stocks (OrderProcess.warehouse_id validatedData)
      (OrderProcess.items validatedData) ;;;
    delivery <- Prisma.deliveries_create
                  {| Delivery.order_id := Order.order_id order;
                     Delivery.status := "assigned" |} ;;
    ret (order, orderItems, delivery).

(** The [try] block of [handler]. *)
Definition handler_try (req : request OrderProcess.OrderData) : M reply :=
  if negb (method req =? "POST")%string then
    ret (Refused 405 "Method not allowed" "METHOD_NOT_ALLOWED")
  else
    match x_user_data req with
    | None => ret (Refused 401 "Authentication required" "UNAUTHORIZED")
    | Some userData =>
      match JSON_parse userData with
      | Throw e => throw e
      | Ret parsed =>
        let validatedData := body req in
        if negb (orderProcessingSchema E validatedData) then
          ret (Refused 400 "Invalid input data" "VALIDATION_ERROR")
        else
          result <- transaction (order_transaction validatedData) ;;
          match result with
          | (order, orderItems, delivery) =>
            (* the audit record is built with [user.id] *)
            match property_of parsed with
            | Throw e => throw e
            | Ret u =>
              Prisma.transaction_logs_create E
                {| Log.entity_type := "orders";
                   Log.entity_id := Order.order_id order;
                   Log.action := "CREATE";
                   Log.user_id := id u;
                   Log.details :=
                     ProcessOrderDetails (Order.total_amount order)
                       (List.length orderItems)
                       (OrderProcess.delivery_option validatedData)
                       (OrderProcess.payment_method_of validatedData) |} ;;;
              Prisma.notifications_create E
                {| Notification.user_id := OrderProcess.client_id validatedData;
                   Notification.type := "email";
                   Notification.message :=
                     [Str "Your order #"; Str (Order.order_id order);
                      Str " has been processed successfully. Total: $";
                      Num (Order.total_amount order)];
                   Notification.status := "sent" |} ;;;
              Prisma.notifications_create E
                {| Notification.user_id := "warehouse-staff-id";
                   Notification.type := "email";
                   Notification.message :=
                     [Str "New order #"; Str (Order.order_id order);
                      Str " received. ";
                      Num (Z.of_nat (List.length orderItems));
                      Str " items to prepare."];
                   Notification.status := "sent" |} ;;;
              ret (Created order orderItems delivery
                     [Str "Order processed successfully"])
            end
          end
      end
    end.

(** [handler]: what the caller receives and the store it leaves. *)
Definition handler (req : request OrderProcess.OrderData) (d : db)
  : reply * db :=
  match handler_try req d with
  | (Ret r, d') => (r, d')
  | (Throw e, d') => (Refused 500 e "INTERNAL_SERVER_ERROR", d')
  end.
End WithEnv.
End OrderProcessV2.

(** * The helpers of the generic CRUD handler

    [src/utils/crud-handler.ts]. [checkRateLimit] keeps one record per
    client address in the module-level [rateLimitMap]; the map is threaded
    through here, and the clock reading [Date.now()] is an argument.
    [record.count++] changes the record held by the map, so the admitted
    call within a window stores the incremented record under the same
    address. *)

Module CrudHandler.

Record rate_record := { count : Z; resetTime : Z }.

Definition rate_map := string -> option rate_record.

Definition map_set (ip : string) (r : rate_record) (m : rate_map) : rate_map :=
  fun k => if (k =? ip)%string then Some r else m k.

Definition checkRateLimit (now : Z) (ip : string) (limit windowMs : Z)
    (m : rate_map) : bool * rate_map :=
  match m ip with
  | None =>
      (true, map_set ip {| count := 1; resetTime := now + windowMs |} m)
  | Some record =>
      if resetTime record <? now then
        (true, map_set ip {| count := 1; resetTime := now + windowMs |} m)
      else if limit <=? count record then (false, m)
      else
        (true,
         map_set ip {| count := count record + 1;
                       resetTime := resetTime record |} m)
  end.

(** Successive calls for one address, at the given clock readings. *)
Fixpoint calls (ip : string) (limit windowMs : Z) (ts : list Z)
    (m : rate_map) : list bool * rate_map :=
  match ts with
  | [] => ([], m)
  | t :: ts' =>
      let (b, m1) := checkRateLimit t ip limit windowMs m in
      let (bs, m2) := calls ip limit windowMs ts' m1 in
      (b :: bs, m2)
  end.

(** [sanitizeInput] on a string: [input.trim().replace(/[<>]/g, '')]. A
    string is the list of its UTF-16 code units. [trim] removes from both
    ends the code units that are white space or line terminators; the
    global replacement then deletes every [<] (60) and [>] (62). The same
    expression is applied to each string value of an object input. *)
Definition is_white_space (c : Z) : bool :=
  (c =? 9) || (c =? 10) || (c =? 11) || (c =? 12) || (c =? 13)
  || (c =? 32) || (c =? 160) || (c =? 5760)
  || ((8192 <=? c) && (c <=? 8202))
  || (c =? 8232) || (c =? 8233) || (c =? 8239) || (c =? 8287)
  || (c =? 12288) || (c =? 65279).

Fixpoint trimStart (s : list Z) : list Z :=
  match s with
  | [] => []
  | c :: s' => if is_white_space c then trimStart s' else s
  end.

Definition trimEnd (s : list Z) : list Z := rev (trimStart (rev s)).

Definition trim (s : list Z) : list Z := trimEnd (trimStart s).

Definition angle_bracket (c : Z) : bool := (c =? 60) || (c =? 62).

Definition sanitizeInput (input : list Z) : list Z :=
  filter (fun c => negb (angle_bracket c)) (trim input).

End CrudHandler.

(** ** Sample data *)

(** A test of the canonical form of a UUID (lower-case hexadecimal digits
    in groups of 8, 4, 4, 4 and 12, version 1 to 5, RFC variant), which
    every release of the validation library accepts; the samples take it
    for [is_uuid]. *)
Definition hex_digit (c : ascii) : bool :=
  let n := nat_of_ascii c in
  (((48 <=? n) && (n <=? 57)) || ((97 <=? n) && (n <=? 102)))%nat.

Fixpoint fits (template s : string) : bool :=
  match template, s with
  | EmptyString, EmptyString => true
  | String t template', String c s' =>
      (if Ascii.eqb t "x" then hex_digit c
       else if Ascii.eqb t "M" then
         existsb (Ascii.eqb c) ["1"; "2"; "3"; "4"; "5"]%char
       else if Ascii.eqb t "N" then
         existsb (Ascii.eqb c) ["8"; "9"; "a"; "b"]%char
       else Ascii.eqb t c)
      && fits template' s'
  | _, _ => false
  end.

Definition canonical_uuid (s : string) : bool :=
  fits "xxxxxxxx-xxxx-Mxxx-Nxxx-xxxxxxxxxxxx" s.

(** The identifiers of the samples. *)
Module Ids.
Definition productA : string := "aaaaaaaa-aaaa-4aaa-8aaa-aaaaaaaaaaaa".
Definition productB : string := "bbbbbbbb-bbbb-4bbb-8bbb-bbbbbbbbbbbb".
Definition W1 : string := "11111111-1111-4111-8111-111111111111".
Definition W2 : string := "22222222-2222-4222-8222-222222222222".
Definition appro1 : string := "a0000000-0000-4000-8000-000000000001".
Definition client1 : string := "c0000000-0000-4000-8000-000000000001".
(** An identifier that no sample table holds. *)
Definition absent : string := "deadbeef-dead-4ead-8ead-deadbeefdead".
End Ids.

Module Sample.
Definition catalogue (pid : string) : Product.t :=
  {| Product.product_id := pid;
     Product.name := if (pid =? Ids.productA)%string then "Apples"
                     else if (pid =? Ids.productB)%string then "Bananas"
                     else "Other" |}.

Definition stock (sid pid wid : string) (q price : Z) : Stock.t :=
  {| Stock.stock_id := sid; Stock.product_id := pid;
     Stock.warehouse_id := wid; Stock.quantity := q;
     Stock.unit_price := price; Stock.last_updated := 0;
     Stock.approvisionnement_id := None |}.

Definition supply (st : Approvisionnement.status_enum) : Approvisionnement.t :=
  {| Approvisionnement.approvisionnement_id := Ids.appro1;
     Approvisionnement.supplier_id := "supplier1";
     Approvisionnement.product_id := Ids.productA;
     Approvisionnement.warehouse_id := Ids.W1;
     Approvisionnement.quantity := 40;
     Approvisionnement.proposed_price := 7;
     Approvisionnement.status := st;
     Approvisionnement.business_developer_id := None;
     Approvisionnement.stock_manager_id := None;
     Approvisionnement.updated_at := 0 |}.

Definition store (supplies : list Approvisionnement.t)
    (ledger : list Stock.t) : db :=
  {| products := catalogue; approvisionnements := supplies;
     stocks := ledger; orders := []; order_items := [];
     deliveries := []; payments := []; transaction_logs := [];
     notifications := [] |}.

(** An environment whose sinks accept every write. *)
Definition calm : env :=
  {| now := 100; new_stock_id := "stock-new"; new_order_id := "order-new";
     log_failure := None; notification_failure := None;
     is_uuid := canonical_uuid |}.

(** An environment whose audit sink refuses the write. *)
Definition audit_down : env :=
  {| now := 100; new_stock_id := "stock-new"; new_order_id := "order-new";
     log_failure := Some "audit store unavailable";
     notification_failure := None;
     is_uuid := canonical_uuid |}.

(** An environment whose notification sink refuses the write. *)
Definition mail_down : env :=
  {| now := 100; new_stock_id := "stock-new"; new_order_id := "order-new";
     log_failure := None;
     notification_failure := Some "notification store unavailable";
     is_uuid := canonical_uuid |}.

Definition post {B} (u : user) (b : B) : request B :=
  {| method := "POST"; x_user_data := Some (UserObject u); body := b |}.

Definition client : user := {| id := Ids.client1; role := "client" |}.
Definition manager : user := {| id := "sm1"; role := "stock_manager" |}.
Definition developer : user := {| id := "bd1"; role := "business_developer" |}.

Definition workflow (a : Workflow.action) (aid : string)
  : Workflow.WorkflowData :=
  {| Workflow.action_of := a; Workflow.approvisionnement_id := aid;
     Workflow.notes := None; Workflow.reason := None;
     Workflow.actual_quantity := None; Workflow.actual_price := None |}.

Definition line (pid : string) (q price : Z) : OrderProcess.item :=
  {| OrderProcess.product_id := pid; OrderProcess.quantity := q;
     OrderProcess.unit_price := price |}.

Definition order (l : list OrderProcess.item) : OrderProcess.OrderData :=
  {| OrderProcess.client_id := Ids.client1; OrderProcess.warehouse_id := Ids.W1;
     OrderProcess.items := l; OrderProcess.delivery_option := false;
     OrderProcess.delivery_address := None;
     OrderProcess.payment_method_of := direct |}.

Definition adjustment (pid wid : string) (delta : Z)
  : StockManagement.StockData :=
  {| StockManagement.action_of := StockManagement.adjust;
     StockManagement.product_id := Some pid;
     StockManagement.warehouse_id := Some wid;
     StockManagement.quantity := Some delta;
     StockManagement.from_warehouse_id := None;
     StockManagement.to_warehouse_id := None;
     StockManagement.reason := Some "count correction";
     StockManagement.threshold := None |}.

Definition move (pid from to : string) (q : Z) : StockManagement.StockData :=
  {| StockManagement.action_of := StockManagement.transfer;
     StockManagement.product_id := Some pid;
     StockManagement.warehouse_id := None;
     StockManagement.quantity := Some q;
     StockManagement.from_warehouse_id := Some from;
     StockManagement.to_warehouse_id := Some to;
     StockManagement.reason := None;
     StockManagement.threshold := None |}.

Definition watch (pid : string) (t : Z) : StockManagement.StockData :=
  {| StockManagement.action_of := StockManagement.alert;
     StockManagement.product_id := Some pid;
     StockManagement.warehouse_id := None;
     StockManagement.quantity := None;
     StockManagement.from_warehouse_id := None;
     StockManagement.to_warehouse_id := None;
     StockManagement.reason := None;
     StockManagement.threshold := Some t |}.

Definition validated_supply : Approvisionnement.t :=
  supply Approvisionnement.validated_bd.

(** One validated approvisionnement of 40 units of productA at price 7 for
    W1, where the ledger holds 10 units at price 5. *)
Definition receipt_store : db :=
  store [validated_supply] [stock "s1" Ids.productA Ids.W1 10 5].

Definition receive_request : request Workflow.WorkflowData :=
  post manager (workflow Workflow.receive_stock Ids.appro1).

(** The same approvisionnement before validation, and the store after a
    business developer validated it and after a stock manager received it. *)
Definition pending_store : db :=
  store [supply Approvisionnement.pending] [stock "s1" Ids.productA Ids.W1 10 5].

Definition validate_request : request Workflow.WorkflowData :=
  post developer (workflow Workflow.validate_bd Ids.appro1).

Definition after_validation : db :=
  snd (Workflow.handler calm validate_request pending_store).

Definition after_receipt : db :=
  snd (Workflow.handler calm receive_request after_validation).

(** W1 holds 5 units of productA and [b] units of productB. *)
Definition two_products (b : Z) : db :=
  store [] [stock "s1" Ids.productA Ids.W1 5 10; stock "s2" Ids.productB Ids.W1 b 20].

(** An order of 5 units of productA and [b] units of productB. *)
Definition two_lines (b : Z) : request OrderProcess.OrderData :=
  post client (order [line Ids.productA 5 10; line Ids.productB b 20]).

(** W1 holds 5 units of productA; the order names productA twice, 3 units
    each time. *)
Definition one_product : db :=
  store [] [stock "s1" Ids.productA Ids.W1 5 10].

Definition same_product_twice : request OrderProcess.OrderData :=
  post client (order [line Ids.productA 3 10; line Ids.productA 3 10]).

Definition single_line : request OrderProcess.OrderData :=
  post client (order [line Ids.productA 3 10]).

(** The store an order of 3 units of productA leaves when the audit sink
    refuses the write. *)
Definition after_unlogged_order : db :=
  snd (OrderProcess.handler audit_down single_line one_product).

(** The store a receipt on [receipt_store] leaves when both sinks work. *)
Definition receipt_done : db :=
  snd (Workflow.handler calm receive_request receipt_store).

(** W1 holds 10 units of productA at price 5; W2 holds none. *)
Definition one_warehouse : db :=
  store [] [stock "s1" Ids.productA Ids.W1 10 5].

(** W1 holds 10 units of productA at price 5; W2 holds 4 at price 6. *)
Definition two_warehouses : db :=
  store [] [stock "s1" Ids.productA Ids.W1 10 5; stock "s2" Ids.productA Ids.W2 4 6].

(** The first ledger row of productA holds [q] units (at W1); a later row
    of productA (at W2) holds 100. *)
Definition watched (q : Z) : db :=
  store [] [stock "s1" Ids.productA Ids.W1 q 5; stock "s2" Ids.productA Ids.W2 100 5].

(** The store a receipt on [receipt_store] leaves when the audit sink
    refuses the write. *)
Definition unlogged_receipt : db :=
  snd (Workflow.handler audit_down receive_request receipt_store).

Definition reject_request (u : user) (a : Workflow.action)
  : request Workflow.WorkflowData :=
  post u {| Workflow.action_of := a;
            Workflow.approvisionnement_id := Ids.appro1;
            Workflow.notes := Some "bruised fruit";
            Workflow.reason := Some "ignored";
            Workflow.actual_quantity := None;
            Workflow.actual_price := None |}.

(** The approvisionnement already received, and already rejected. *)
Definition received_store_sample : db :=
  store [supply Approvisionnement.received]
        [stock "s1" Ids.productA Ids.W1 50 7].

Definition rejected_store_sample : db :=
  store [supply Approvisionnement.rejected]
        [stock "s1" Ids.productA Ids.W1 10 5].

Definition admin : user := {| id := "root"; role := "admin" |}.

(** W1 holds 5 units of productA and 9 of productB, W2 holds 4 of
    productA. *)
Definition three_rows : db :=
  store [] [stock "s1" Ids.productA Ids.W1 5 10; stock "s2" Ids.productB Ids.W1 9 20;
            stock "s3" Ids.productA Ids.W2 4 10].

Definition two_products_order : request OrderProcess.OrderData :=
  post client (order [line Ids.productA 5 10; line Ids.productB 3 20]).

Definition stock_request (b : StockManagement.StockData)
  : request StockManagement.StockData := post manager b.

Definition driver : user := {| id := "driver1"; role := "driver" |}.

(** W1 holds productA on two rows, 5 and 9 units. *)
Definition split_rows : db :=
  store [] [stock "s1" Ids.productA Ids.W1 5 10; stock "s2" Ids.productA Ids.W1 9 10].

Definition driver_order : request OrderProcess.OrderData :=
  post driver (order [line Ids.productA 3 10]).

(** A ledger of four rows: 7 units of productB at W1, 4 of productA at
    W2, 10 of productA at W1 (price 5) and 1 of productB at W2. *)
Definition assorted : db :=
  store [] [stock "s0" Ids.productB Ids.W1 7 3;
            stock "s1" Ids.productA Ids.W2 4 6;
            stock "s2" Ids.productA Ids.W1 10 5;
            stock "s3" Ids.productB Ids.W2 1 1].

(** The first row of the ledger holds 1 unit of productB; the first row of
    productA (at W2) holds [q] units, a later one (at W1) holds 100. *)
Definition watched_among (q : Z) : db :=
  store [] [stock "s0" Ids.productB Ids.W1 1 3;
            stock "s1" Ids.productA Ids.W2 q 5;
            stock "s2" Ids.productA Ids.W1 100 5].

(** W2 holds 100 units of productB; W1 holds 5 of productA and [b] of
    productB. *)
Definition two_products_among (b : Z) : db :=
  store [] [stock "s0" Ids.productB Ids.W2 100 20;
            stock "s1" Ids.productA Ids.W1 5 10;
            stock "s2" Ids.productB Ids.W1 b 20].

(** A request whose header is the text null, and one whose header is not
    JSON; the messages are those of the engine. *)
Definition null_post {B} (b : B) : request B :=
  {| method := "POST";
     x_user_data :=
       Some (JSONNull "Cannot read properties of null (reading 'role')");
     body := b |}.

Definition garbled_post {B} (b : B) : request B :=
  {| method := "POST";
     x_user_data := Some (NotJSON "Unexpected token o in JSON at position 1");
     body := b |}.

(** A rendering of numbers, for the examples. *)
Definition tally (n : Z) : string :=
  if n =? 2 then "2" else if n =? 3 then "3" else "?".
End Sample.

(** ** Vocabulary of the statements *)

(** The row of the approvisionnement table with a given key. *)
Definition by_id (aid : string) (a : Approvisionnement.t) : bool :=
  (Approvisionnement.approvisionnement_id a =? aid)%string.

(** The ledger entry an approvisionnement replenishes. *)
Definition ledger_key (a : Approvisionnement.t) (s : Stock.t) : bool :=
  (Stock.product_id s =? Approvisionnement.product_id a)%string
  && (Stock.warehouse_id s =? Approvisionnement.warehouse_id a)%string.

(** The rows with a given primary key. *)
Definition stock_key (sid : string) (s : Stock.t) : bool :=
  (Stock.stock_id s =? sid)%string.

(** The payment stub of a receipt. *)
Definition supplier_payment (a : Approvisionnement.t) : Payment.t :=
  {| Payment.order_id := None;
     Payment.approvisionnement_id :=
       Some (Approvisionnement.approvisionnement_id a);
     Payment.amount := Approvisionnement.quantity a
                       * Approvisionnement.proposed_price a;
     Payment.payment_method := direct;
     Payment.status := Payment.pending |}.

(** The store a committed receipt leaves. *)
Definition received_store (E : env) (u : user) (a : Approvisionnement.t)
    (d : db) : db :=
  let d1 :=
    set_approvisionnements
      (map (fun x => if by_id (Approvisionnement.approvisionnement_id a) x
                     then Workflow.set_sm Approvisionnement.received (id u) (now E) x
                     else x)
           (approvisionnements d)) d in
  let d2 :=
    match find (ledger_key a) (stocks d) with
    | Some s =>
        set_stocks
          (map (fun x => if stock_key (Stock.stock_id s) x
                         then Workflow.credit a s (now E) x else x)
               (stocks d)) d1
    | None =>
        set_stocks
          (stocks d ++
             [{| Stock.stock_id := new_stock_id E;
                 Stock.product_id := Approvisionnement.product_id a;
                 Stock.warehouse_id := Approvisionnement.warehouse_id a;
                 Stock.quantity := Approvisionnement.quantity a;
                 Stock.unit_price := Approvisionnement.proposed_price a;
                 Stock.last_updated := now E;
                 Stock.approvisionnement_id :=
                   Some (Approvisionnement.approvisionnement_id a) |}]) d1
    end in
  set_payments (payments d ++ [supplier_payment a]) d2.

(** The same environment with other answers from the two sinks. *)
Definition with_sinks (E : env) (audit notification : option string) : env :=
  {| now := now E; new_stock_id := new_stock_id E;
     new_order_id := new_order_id E;
     log_failure := audit; notification_failure := notification;
     is_uuid := is_uuid E |}.

(** The audit record of a receipt and the message to the supplier. *)
Definition receipt_log (u : user) (a : Approvisionnement.t)
    (data : Workflow.WorkflowData) : Log.t :=
  Workflow.workflow_log u a "receive_stock" Approvisionnement.received
    (Some (Approvisionnement.quantity a)) data.

Definition receipt_notice (a : Approvisionnement.t) : Notification.t :=
  Workflow.email (Approvisionnement.supplier_id a)
    [Str "Your stock has been received and payment of ";
     Num (Approvisionnement.quantity a * Approvisionnement.proposed_price a);
     Str " has been processed."].

Definition internal_error : response :=
  Failure 500 "Internal server error" "INTERNAL_SERVER_ERROR".

(** An order line the ledger cannot serve: no entry for its product in the
    warehouse, or less on hand than requested. *)
Definition offending (d : db) (warehouse : string) (i : OrderProcess.item)
  : bool :=
  match find (OrderProcess.where_stock (OrderProcess.product_id i) warehouse)
             (stocks d) with
  | None => true
  | Some s => Stock.quantity s <? OrderProcess.quantity i
  end.

(** What the validation pass reports about the first offending line. *)
Definition verdict (d : db) (warehouse : string)
    (first : option OrderProcess.item) : OrderProcess.StockValidation :=
  match first with
  | None =>
      {| OrderProcess.valid := true; OrderProcess.productName := None;
         OrderProcess.availableQuantity := None;
         OrderProcess.requestedQuantity := None |}
  | Some i =>
      match find (OrderProcess.where_stock (OrderProcess.product_id i) warehouse)
                 (stocks d) with
      | None =>
          {| OrderProcess.valid := false;
             OrderProcess.productName :=
               Some ("Product ID: " ++ OrderProcess.product_id i)%string;
             OrderProcess.availableQuantity := Some 0;
             OrderProcess.requestedQuantity := Some (OrderProcess.quantity i) |}
      | Some s =>
          {| OrderProcess.valid := false;
             OrderProcess.productName :=
               Some (Product.name (products d (Stock.product_id s)));
             OrderProcess.availableQuantity := Some (Stock.quantity s);
             OrderProcess.requestedQuantity := Some (OrderProcess.quantity i) |}
      end
  end.

(** The audit record and the two notifications of a processed order. *)
Definition order_log (u : user) (data : OrderProcess.OrderData)
    (order : Order.t) (orderItems : list OrderItem.t) : Log.t :=
  {| Log.entity_type := "orders";
     Log.entity_id := Order.order_id order;
     Log.action := "CREATE";
     Log.user_id := id u;
     Log.details :=
       ProcessOrderDetails (Order.total_amount order)
         (List.length orderItems) (OrderProcess.delivery_option data)
         (OrderProcess.payment_method_of data) |}.

Definition client_notice (data : OrderProcess.OrderData) (order : Order.t)
  : Notification.t :=
  {| Notification.user_id := OrderProcess.client_id data;
     Notification.type := "email";
     Notification.message :=
       [Str "Your order #"; Str (Order.order_id order);
        Str " has been processed successfully. Total: $";
        Num (Order.total_amount order)];
     Notification.status := "sent" |}.

Definition warehouse_notice (order : Order.t) (orderItems : list OrderItem.t)
  : Notification.t :=
  {| Notification.user_id := "warehouse-staff-id";
     Notification.type := "email";
     Notification.message :=
       [Str "New order #"; Str (Order.order_id order); Str " received. ";
        Num (Z.of_nat (List.length orderItems)); Str " items to prepare."];
     Notification.status := "sent" |}.

(** What the caller of the order endpoint receives, and the store left, once
    the transaction has returned [result] and left [d1]. *)
Definition after_order_commit (E : env) (u : user)
    (data : OrderProcess.OrderData)
    (result : Order.t * list OrderItem.t * option Delivery.t * Payment.t)
    (d1 : db) : response * db :=
  match result with
  | (order, orderItems, delivery, payment) =>
      match log_failure E, notification_failure E with
      | Some e, _ => (Failure 500 e "INTERNAL_SERVER_ERROR", d1)
      | None, Some e =>
          (Failure 500 e "INTERNAL_SERVER_ERROR",
           set_transaction_logs
             (transaction_logs d1 ++ [order_log u data order orderItems]) d1)
      | None, None =>
          (Success 201 (OrderResult order orderItems delivery payment)
             [Str "Order processed successfully"],
           set_notifications
             (notifications d1
              ++ [client_notice data order]
              ++ [warehouse_notice order orderItems])
             (set_transaction_logs
                (transaction_logs d1 ++ [order_log u data order orderItems])
                d1))
      end
  end.

(** The outcome of a run with a failing sink, compared with the store [d0]
    the run with working sinks leaves. *)
Definition surfaced (run : outcome response * db) (d0 : db) : Prop :=
  exists e d',
    run = (Throw e, d')
    /\ approvisionnements d' = approvisionnements d0
    /\ stocks d' = stocks d0
    /\ payments d' = payments d0.

(** Primary keys of the ledger: no two rows share a [stock_id], and the key
    the store will give the next new row is not in use. *)
Fixpoint distinct (l : list string) : bool :=
  match l with
  | [] => true
  | x :: rest => negb (existsb (String.eqb x) rest) && distinct rest
  end.

Definition stock_keys_unique (E : env) (d : db) : bool :=
  distinct (new_stock_id E :: map Stock.stock_id (stocks d)).

(** The audit record of a transfer. *)
Definition transfer_log (u : user) (data : StockManagement.StockData)
    (source : Stock.t) (p from to : string) (q : Z) : Log.t :=
  {| Log.entity_type := "stocks";
     Log.entity_id := Stock.stock_id source;
     Log.action := "UPDATE";
     Log.user_id := id u;
     Log.details :=
       StockTransferDetails p from to q
         (or_default (StockManagement.reason data) "Manual transfer") |}.

(** The ledger after a transfer of [q] from [source] to the row [found] by
    the destination lookup (or to a new row). *)
Definition transferred (E : env) (source : Stock.t) (found : option Stock.t)
    (p to : string) (q : Z) (l : list Stock.t) : list Stock.t :=
  let l1 :=
    match found with
    | Some destination =>
        map (fun x => if stock_key (Stock.stock_id destination) x
                      then StockManagement.set_quantity
                             (Stock.quantity destination + q) (now E) x
                      else x) l
    | None =>
        l ++ [{| Stock.stock_id := new_stock_id E;
                 Stock.product_id := p;
                 Stock.warehouse_id := to;
                 Stock.quantity := q;
                 Stock.unit_price := Stock.unit_price source;
                 Stock.last_updated := now E;
                 Stock.approvisionnement_id := None |}]
    end in
  map (fun x => if stock_key (Stock.stock_id source) x
                then StockManagement.set_quantity
                       (Stock.quantity source - q) (now E) x
                else x) l1.

(** A ledger write and its audit record are one unit: a success adds
    exactly one audit record, a failure leaves the store as it was. *)
Definition logged_or_untouched (run : response * db) (d : db) : Prop :=
  match run with
  | (Success _ _ _, d') =>
      exists l, transaction_logs d' = transaction_logs d ++ [l]
  | (Failure _ _ _, d') => d' = d
  end.

(** *** The workflow endpoint as a whole *)

(** The status an action requires, the status it gives, and the role it is
    reserved to (besides admin). *)
Definition required_status (act : Workflow.action)
  : Approvisionnement.status_enum :=
  match act with
  | Workflow.validate_bd | Workflow.reject_bd => Approvisionnement.pending
  | Workflow.receive_stock | Workflow.reject_stock =>
      Approvisionnement.validated_bd
  end.

Definition target_status (act : Workflow.action)
  : Approvisionnement.status_enum :=
  match act with
  | Workflow.validate_bd => Approvisionnement.validated_bd
  | Workflow.receive_stock => Approvisionnement.received
  | Workflow.reject_bd | Workflow.reject_stock => Approvisionnement.rejected
  end.

Definition actor_role (act : Workflow.action) : string :=
  match act with
  | Workflow.validate_bd | Workflow.reject_bd => "business_developer"
  | Workflow.receive_stock | Workflow.reject_stock => "stock_manager"
  end.

(** The caller and the row of a request that passes every check of the
    endpoint. *)
Definition admissible (E : env) (req : request Workflow.WorkflowData)
    (d : db) : option (user * Approvisionnement.t) :=
  if negb (method req =? "POST")%string then None
  else
    match x_user_data req with
    | None | Some (NotJSON _) | Some (JSONNull _) => None
    | Some (UserObject u) =>
        if negb (Workflow.workflowActionSchema E (body req)) then None
        else
          match find (by_id (Workflow.approvisionnement_id (body req)))
                     (approvisionnements d) with
          | None => None
          | Some a =>
              if (is_role u (actor_role (Workflow.action_of (body req)))
                  || is_role u "admin")
                 && Approvisionnement.status_eqb (Approvisionnement.status a)
                      (required_status (Workflow.action_of (body req)))
              then Some (u, a)
              else None
          end
    end.

(** The row as the action rewrites it. *)
Definition decided (E : env) (u : user) (act : Workflow.action)
    (a : Approvisionnement.t) : Approvisionnement.t :=
  match act with
  | Workflow.validate_bd =>
      Workflow.set_bd Approvisionnement.validated_bd (id u) (now E) a
  | Workflow.reject_bd =>
      Workflow.set_bd Approvisionnement.rejected (id u) (now E) a
  | Workflow.receive_stock =>
      Workflow.set_sm Approvisionnement.received (id u) (now E) a
  | Workflow.reject_stock =>
      Workflow.set_sm Approvisionnement.rejected (id u) (now E) a
  end.

(** The store after the writes an admissible request makes before it turns
    to the sinks. *)
Definition primary_store (E : env) (u : user) (a : Approvisionnement.t)
    (act : Workflow.action) (d : db) : db :=
  match act with
  | Workflow.receive_stock => received_store E u a d
  | _ =>
      set_approvisionnements
        (map (fun x => if by_id (Approvisionnement.approvisionnement_id a) x
                       then decided E u act x else x)
             (approvisionnements d)) d
  end.

Definition action_name (act : Workflow.action) : string :=
  match act with
  | Workflow.validate_bd => "validate_bd"
  | Workflow.reject_bd => "reject_bd"
  | Workflow.receive_stock => "receive_stock"
  | Workflow.reject_stock => "reject_stock"
  end.

Definition action_log (u : user) (a : Approvisionnement.t)
    (data : Workflow.WorkflowData) : Log.t :=
  Workflow.workflow_log u a (action_name (Workflow.action_of data))
    (target_status (Workflow.action_of data))
    match Workflow.action_of data with
    | Workflow.receive_stock => Some (Approvisionnement.quantity a)
    | _ => None
    end data.

Definition action_notice (d : db) (a : Approvisionnement.t)
    (data : Workflow.WorkflowData) : Notification.t :=
  match Workflow.action_of data with
  | Workflow.validate_bd =>
      Workflow.email
        (or_default (Approvisionnement.stock_manager_id a) "stock-manager-id")
        [Str "New approvisionnement validated by Business Developer: ";
         Str (Product.name (products d (Approvisionnement.product_id a)));
         Str " - "; Num (Approvisionnement.quantity a); Str " units"]
  | Workflow.reject_bd =>
      Workflow.email (Approvisionnement.supplier_id a)
        [Str "Your approvisionnement has been rejected by Business Developer. Reason: ";
         Str (or_default (Workflow.notes data) "No reason provided")]
  | Workflow.receive_stock => receipt_notice a
  | Workflow.reject_stock =>
      Workflow.email (Approvisionnement.supplier_id a)
        [Str "Your stock has been rejected by Stock Manager. Reason: ";
         Str (or_default (Workflow.notes data) "No reason provided")]
  end.

Definition action_message (act : Workflow.action) : text :=
  match act with
  | Workflow.validate_bd =>
      [Str "Approvisionnement validated successfully by Business Developer"]
  | Workflow.reject_bd =>
      [Str "Approvisionnement rejected successfully by Business Developer"]
  | Workflow.receive_stock =>
      [Str "Stock received successfully. Inventory updated and payment processed."]
  | Workflow.reject_stock =>
      [Str "Stock rejected successfully by Stock Manager"]
  end.

(** What an admissible request returns and leaves, by the answers of the
    two sinks. *)
Definition workflow_outcome (E : env) (u : user) (a : Approvisionnement.t)
    (data : Workflow.WorkflowData) (d : db) : response * db :=
  let d1 := primary_store E u a (Workflow.action_of data) d in
  match log_failure E, notification_failure E with
  | Some _, _ => (internal_error, d1)
  | None, Some _ =>
      (internal_error,
       set_transaction_logs (transaction_logs d ++ [action_log u a data]) d1)
  | None, None =>
      (Success 200
         (ApprovisionnementData (decided E u (Workflow.action_of data) a))
         (action_message (Workflow.action_of data)),
       set_notifications (notifications d ++ [action_notice d a data])
         (set_transaction_logs
            (transaction_logs d ++ [action_log u a data]) d1))
  end.

(** The status changes the workflow allows. *)
Definition legal_step (before after : Approvisionnement.status_enum) : bool :=
  match before, after with
  | Approvisionnement.pending, Approvisionnement.validated_bd
  | Approvisionnement.pending, Approvisionnement.rejected
  | Approvisionnement.validated_bd, Approvisionnement.received
  | Approvisionnement.validated_bd, Approvisionnement.rejected => true
  | _, _ => false
  end.

(** Every quantity on the ledger is non-negative. *)
Definition ledger_ok (l : list Stock.t) : Prop :=
  Forall (fun s => 0 <= Stock.quantity s) l.

(** *** The order endpoint as a whole *)

Definition to_order_item (oid : string) (i : OrderProcess.item) : OrderItem.t :=
  {| OrderItem.order_id := oid;
     OrderItem.product_id := OrderProcess.product_id i;
     OrderItem.quantity := OrderProcess.quantity i;
     OrderItem.unit_price := OrderProcess.unit_price i |}.

(** The ledger after the decrements of the lines of an order, taken in
    order: each line decrements the row its lookup finds at that moment. *)
Fixpoint ledger_after_lines (t : Z) (warehouse : string)
    (lines : list OrderProcess.item) (l : list Stock.t) : list Stock.t :=
  match lines with
  | [] => l
  | i :: rest =>
      ledger_after_lines t warehouse rest
        match find (OrderProcess.where_stock (OrderProcess.product_id i)
                      warehouse) l with
        | Some s =>
            map (fun x => if stock_key (Stock.stock_id s) x
                          then OrderProcess.decrement (OrderProcess.quantity i) t x
                          else x) l
        | None => l
        end
  end.

(** The order row as created, before its status is settled. *)
Definition new_order (E : env) (data : OrderProcess.OrderData) : Order.t :=
  {| Order.order_id := new_order_id E;
     Order.client_id := OrderProcess.client_id data;
     Order.warehouse_id := OrderProcess.warehouse_id data;
     Order.total_amount := OrderProcess.totalAmount (OrderProcess.items data);
     Order.status := Order.pending;
     Order.delivery_option := OrderProcess.delivery_option data;
     Order.delivery_address := OrderProcess.delivery_address data;
     Order.payment_method := OrderProcess.payment_method_of data |}.

Definition settled_status (m : payment_method) : Order.status_enum :=
  match m with direct => Order.paid | credit => Order.pending end.

Definition order_payment (E : env) (data : OrderProcess.OrderData) : Payment.t :=
  {| Payment.order_id := Some (new_order_id E);
     Payment.approvisionnement_id := None;
     Payment.amount := OrderProcess.totalAmount (OrderProcess.items data);
     Payment.payment_method := OrderProcess.payment_method_of data;
     Payment.status :=
       match OrderProcess.payment_method_of data with
       | direct => Payment.completed
       | credit => Payment.pending
       end |}.

Definition order_delivery (E : env) (data : OrderProcess.OrderData)
  : list Delivery.t :=
  if OrderProcess.delivery_option data
  then [{| Delivery.order_id := new_order_id E; Delivery.status := "assigned" |}]
  else [].

(** The sum of quantity times unit price over the lines of an order. *)
Fixpoint lines_value (l : list OrderProcess.item) : Z :=
  match l with
  | [] => 0
  | i :: rest =>
      OrderProcess.quantity i * OrderProcess.unit_price i + lines_value rest
  end.

(** The rows of the ledger held at other warehouses than [w]. *)
Definition elsewhere (w : string) (l : list Stock.t) : list Stock.t :=
  filter (fun s => negb (Stock.warehouse_id s =? w)%string) l.

(** The store the transaction of an accepted order leaves. *)
Definition ordered_store (E : env) (data : OrderProcess.OrderData) (d : db)
  : db :=
  {| products := products d;
     approvisionnements := approvisionnements d;
     stocks := ledger_after_lines (now E) (OrderProcess.warehouse_id data)
                 (OrderProcess.items data) (stocks d);
     orders :=
       map (fun o => if (Order.order_id o =? new_order_id E)%string
                     then OrderProcess.set_status
                            (settled_status (OrderProcess.payment_method_of data)) o
                     else o)
           (orders d ++ [new_order E data]);
     order_items :=
       order_items d
       ++ map (to_order_item (new_order_id E)) (OrderProcess.items data);
     deliveries := deliveries d ++ order_delivery E data;
     payments := payments d ++ [order_payment E data];
     transaction_logs := transaction_logs d;
     notifications := notifications d |}.

(** *** The stock management endpoint as a whole *)

(** The ledger after an adjustment of the row [current] to quantity [q]. *)
Definition adjusted (E : env) (current : Stock.t) (q : Z) (l : list Stock.t)
  : list Stock.t :=
  map (fun x => if stock_key (Stock.stock_id current) x
                then StockManagement.set_quantity q (now E) x else x) l.

(** The quantity of a product on hand over all warehouses. *)
Fixpoint product_total (p : string) (l : list Stock.t) : Z :=
  match l with
  | [] => 0
  | s :: rest =>
      (if (Stock.product_id s =? p)%string then Stock.quantity s else 0)
      + product_total p rest
  end.

(** The tables the stock management endpoint does not write to. *)
Definition same_business (d d' : db) : Prop :=
  approvisionnements d' = approvisionnements d
  /\ orders d' = orders d
  /\ order_items d' = order_items d
  /\ deliveries d' = deliveries d
  /\ payments d' = payments d.

(** *** The second version of the order endpoint *)

(** The quantity an order requests of a product, over all its lines. *)
Fixpoint requested (p : string) (lines : list OrderProcess.item) : Z :=
  match lines with
  | [] => 0
  | i :: rest =>
      (if (OrderProcess.product_id i =? p)%string
       then OrderProcess.quantity i else 0)
      + requested p rest
  end.

(** The ledger after the [updateMany] calls of an order for [warehouse]. *)
Definition ledger_after_updates (warehouse : string)
    (lines : list OrderProcess.item) (l : list Stock.t) : list Stock.t :=
  map (fun s => if (Stock.warehouse_id s =? warehouse)%string
                then OrderProcessV2.decrement
                       (requested (Stock.product_id s) lines) s
                else s) l.

(** The delivery every order of the second version creates, and the store
    its transaction leaves. *)
Definition assigned_delivery (E : env) : Delivery.t :=
  {| Delivery.order_id := new_order_id E; Delivery.status := "assigned" |}.

Definition ordered_store_v2 (E : env) (data : OrderProcess.OrderData) (d : db)
  : db :=
  {| products := products d;
     approvisionnements := approvisionnements d;
     stocks := ledger_after_updates (OrderProcess.warehouse_id data)
                 (OrderProcess.items data) (stocks d);
     orders := orders d ++ [new_order E data];
     order_items :=
       order_items d
       ++ map (to_order_item (new_order_id E)) (OrderProcess.items data);
     deliveries := deliveries d ++ [assigned_delivery E];
     payments := payments d;
     transaction_logs := transaction_logs d;
     notifications := notifications d |}.

(** *** Ledger entries and error kinds *)

(** The rows of the ledger that belong to a product in a warehouse, and to
    a product in any warehouse. When there are several, the entry an
    operation reads is the first in table order. *)
Definition entry_of (p w : string) (s : Stock.t) : bool :=
  (Stock.product_id s =? p)%string && (Stock.warehouse_id s =? w)%string.

Definition row_of_product (p : string) (s : Stock.t) : bool :=
  (Stock.product_id s =? p)%string.

(** The error kind of a response: the code of a failure. *)
Definition error_code (r : response) : option string :=
  match r with
  | Failure _ _ c => Some c
  | Success _ _ _ => None
  end.

(** An order line is short in a warehouse when the entry of its product
    there holds less than the line requests, or when there is no entry.
    Of a short line a refusal can name the product (by the name of the
    catalogue, or by its identifier when there is no entry) and the
    quantity on hand (0 when there is no entry). *)
Definition short (rows : list Stock.t) (w : string) (i : OrderProcess.item)
  : bool :=
  match find (entry_of (OrderProcess.product_id i) w) rows with
  | None => true
  | Some s => Stock.quantity s <? OrderProcess.quantity i
  end.

Definition name_of (d : db) (w : string) (i : OrderProcess.item) : string :=
  match find (entry_of (OrderProcess.product_id i) w) (stocks d) with
  | None => ("Product ID: " ++ OrderProcess.product_id i)%string
  | Some s => Product.name (products d (Stock.product_id s))
  end.

Definition on_hand (rows : list Stock.t) (w : string) (i : OrderProcess.item)
  : Z :=
  match find (entry_of (OrderProcess.product_id i) w) rows with
  | None => 0
  | Some s => Stock.quantity s
  end.

(** *** The header *)

(** The header is absent or empty, or holds a user object: reading the
    caller raises no exception. *)
Definition header_read {B} (req : request B) : Prop :=
  match x_user_data req with
  | Some (NotJSON _) | Some (JSONNull _) => False
  | Some (UserObject _) | None => True
  end.

(** * Properties *)

(** ** Lists of rows *)

Section FindFacts.
Context {A : Type}.
Variables (p q : A -> bool) (f : A -> A).
Hypothesis f_keeps_p : forall x, p (f x) = p x.

(** Rewriting the rows selected by [q] with a function that does not
    change what [p] looks at leaves [findFirst p] on the same row. *)
Lemma find_map_if (l : list A) (a : A) :
  find p l = Some a ->
  find p (map (fun x => if q x then f x else x) l)
  = Some (if q a then f a else a).
Proof.
  induction l as [|x l IH]; simpl; [discriminate|].
  destruct (p x) eqn:Hx.
  - intros [= ->]. destruct (q a); [rewrite f_keeps_p|]; now rewrite Hx.
  - intros H. destruct (q x); [rewrite f_keeps_p|]; rewrite Hx; auto.
Qed.

End FindFacts.

Lemma find_app_new {A} (p : A -> bool) (l : list A) (a : A) :
  find p l = None -> p a = true -> find p (l ++ [a]) = Some a.
Proof.
  induction l as [|x l IH]; simpl; intros H Ha.
  - now rewrite Ha.
  - destruct (p x); [discriminate|auto].
Qed.

Lemma find_app_old {A} (p : A -> bool) (l : list A) (a b : A) :
  find p l = Some a -> find p (l ++ [b]) = Some a.
Proof.
  induction l as [|x l IH]; simpl; [discriminate|].
  destruct (p x); auto.
Qed.

(** A row found by any criterion is also found by its own key. *)
Lemma find_by_key {A} (p : A -> bool) (key : A -> string) (l : list A) (a : A) :
  find p l = Some a ->
  exists x, find (fun s => (key s =? key a)%string) l = Some x.
Proof.
  induction l as [|x l IH]; simpl; [discriminate|].
  destruct (p x).
  - intros [= ->]. rewrite String.eqb_refl. eauto.
  - intros H. destruct (key x =? key a)%string; eauto.
Qed.

(** ** Requests whose caller cannot be read *)

Module HeaderFacts.

(** The workflow, order and stock endpoints refuse a request whose header
    does not hold a user object, and leave the store as it was. *)
Lemma workflow_unread (E : env) (req : request Workflow.WorkflowData)
    (d : db) (e : string) :
  x_user_data req = Some (NotJSON e) \/ x_user_data req = Some (JSONNull e) ->
  exists st er c, Workflow.handler E req d = (Failure st er c, d).
Proof.
  intros Hu. unfold Workflow.handler, Workflow.handler_try.
  destruct (negb (method req =? "POST")%string); [cbn; eauto|].
  destruct Hu as [-> | ->]; cbn; [eauto|].
  destruct (negb (Workflow.workflowActionSchema E (body req))); cbn; [eauto|].
  unfold bind, Prisma.approvisionnements_findUnique.
  destruct (find _ (approvisionnements d)); cbn; eauto.
Qed.

Lemma order_unread (E : env) (req : request OrderProcess.OrderData)
    (d : db) (e : string) :
  x_user_data req = Some (NotJSON e) \/ x_user_data req = Some (JSONNull e) ->
  exists st er c, OrderProcess.handler E req d = (Failure st er c, d).
Proof.
  intros Hu. unfold OrderProcess.handler, OrderProcess.handler_try.
  destruct (negb (method req =? "POST")%string); [cbn; eauto|].
  destruct Hu as [-> | ->]; cbn; [eauto|].
  destruct (negb (OrderProcess.orderProcessingSchema E (body req)));
    cbn; eauto.
Qed.

Lemma stock_unread (E : env) (req : request StockManagement.StockData)
    (d : db) (e : string) :
  x_user_data req = Some (NotJSON e) \/ x_user_data req = Some (JSONNull e) ->
  exists st er c, StockManagement.handler E req d = (Failure st er c, d).
Proof.
  intros Hu. unfold StockManagement.handler.
  destruct (negb (method req =? "POST")%string); [cbn; eauto|].
  destruct Hu as [-> | ->]; cbn; [eauto|].
  destruct (negb (StockManagement.stockManagementSchema E (body req)));
    cbn; eauto.
Qed.

(** In the workflow endpoint such a request of a well-formed body on a row
    of the table is answered 500. *)
Lemma workflow_unread_found (E : env) (req : request Workflow.WorkflowData)
    (d : db) (e : string) (a : Approvisionnement.t) :
  method req = "POST" ->
  x_user_data req = Some (NotJSON e) \/ x_user_data req = Some (JSONNull e) ->
  Workflow.workflowActionSchema E (body req) = true ->
  find (by_id (Workflow.approvisionnement_id (body req)))
       (approvisionnements d) = Some a ->
  Workflow.handler E req d = (internal_error, d).
Proof.
  intros Hm Hu Hs Hf. unfold Workflow.handler, Workflow.handler_try.
  rewrite Hm. destruct Hu as [-> | ->]; cbn; [reflexivity|].
  rewrite Hs. cbn. unfold bind, Prisma.approvisionnements_findUnique.
  unfold by_id in Hf. rewrite Hf. reflexivity.
Qed.

End HeaderFacts.

(** ** Approvisionnement workflow *)

Module WorkflowFacts.
Import Workflow.

(** C10, as the code has it. In the workflow endpoint the lookup of the
    approvisionnement comes before any role check: an authenticated POST
    whose body passes the validation (its identifier is a UUID) and names
    an identifier absent from the table is answered 404 NOT_FOUND and
    leaves the store untouched, whatever the action and whatever the
    caller's role; a request that names an identifier present in the table
    is never answered 404. So the answer tells any caller whether the
    identifier exists. *)
Theorem lookup_precedes_role_check (E : env) (req : request WorkflowData)
    (d : db) (u : user) :
  method req = "POST" ->
  x_user_data req = Some (UserObject u) ->
  workflowActionSchema E (body req) = true ->
  (find (by_id (approvisionnement_id (body req))) (approvisionnements d) = None ->
   handler E req d = (Failure 404 "Approvisionnement not found" "NOT_FOUND", d))
  /\ (forall a,
        find (by_id (approvisionnement_id (body req))) (approvisionnements d)
        = Some a ->
        forall e c, fst (handler E req d) <> Failure 404 e c).
Proof.
  intros Hm Hu Hs.
  unfold handler, handler_try. rewrite Hm, Hu, Hs. simpl.
  unfold bind at 1. unfold Prisma.approvisionnements_findUnique.
  fold (by_id (approvisionnement_id (body req))).
  unfold bind at 1.
  split.
  - intros ->. reflexivity.
  - intros a -> e c. cbn [option_map].
    destruct (action_of (body req));
      [ unfold handleBusinessDeveloperValidation
      | unfold handleBusinessDeveloperRejection
      | unfold handleStockReceival
      | unfold handleStockRejection ];
      (destruct (negb _ && negb _); [discriminate|]);
      (destruct (negb (Approvisionnement.status_eqb _ _)); [discriminate|]).
    + unfold bind, Prisma.approvisionnements_update,
        Prisma.transaction_logs_create, Prisma.notifications_create.
      destruct (find _ (approvisionnements d)); [|discriminate].
      destruct (log_failure E); [discriminate|].
      destruct (notification_failure E); discriminate.
    + unfold bind, Prisma.approvisionnements_update,
        Prisma.transaction_logs_create, Prisma.notifications_create.
      destruct (find _ (approvisionnements d)); [|discriminate].
      destruct (log_failure E); [discriminate|].
      destruct (notification_failure E); discriminate.
    + unfold bind at 1.
      destruct (transaction (receival_transaction E u a) d) as [[r|x] d1];
        [|discriminate].
      unfold bind, Prisma.transaction_logs_create, Prisma.notifications_create.
      destruct (log_failure E); [discriminate|].
      destruct (notification_failure E); discriminate.
    + unfold bind, Prisma.approvisionnements_update,
        Prisma.transaction_logs_create, Prisma.notifications_create.
      destruct (find _ (approvisionnements d)); [|discriminate].
      destruct (log_failure E); [discriminate|].
      destruct (notification_failure E); discriminate.
Qed.

Lemma lookup_precedes_role_check_witness :
  role Sample.client = "client"
  /\ handler Sample.calm
       (Sample.post Sample.client (Sample.workflow receive_stock Ids.absent))
       Sample.receipt_store
     = (Failure 404 "Approvisionnement not found" "NOT_FOUND",
        Sample.receipt_store).
Proof.
  split; [reflexivity|].
  exact (proj1
    (lookup_precedes_role_check Sample.calm
       (Sample.post Sample.client (Sample.workflow receive_stock Ids.absent))
       Sample.receipt_store Sample.client eq_refl eq_refl eq_refl)
    eq_refl).
Defined.

(** C10, as stated, fails for an identifier that is not a UUID: the
    validation of the body comes before the lookup. The identifier of the
    request is in no row of the table, and the request is answered 400
    VALIDATION_ERROR, not NOT_FOUND. *)
Lemma malformed_id_refused_before_lookup :
  find (by_id "ghost") (approvisionnements Sample.receipt_store) = None
  /\ handler Sample.calm
       (Sample.post Sample.client (Sample.workflow receive_stock "ghost"))
       Sample.receipt_store
     = (Failure 400 "Invalid input data" "VALIDATION_ERROR",
        Sample.receipt_store)
  /\ error_code
       (fst (handler Sample.calm
               (Sample.post Sample.client
                  (Sample.workflow receive_stock "ghost"))
               Sample.receipt_store))
     <> Some "NOT_FOUND".
Proof. repeat split. discriminate. Qed.

Lemma allowed_role (u : user) (r1 r2 : string) :
  role u = r1 \/ role u = r2 ->
  negb (is_role u r1) && negb (is_role u r2) = false.
Proof.
  unfold is_role. intros [-> | ->]; rewrite String.eqb_refl; simpl;
    [reflexivity | apply andb_false_r].
Qed.

Lemma set_sm_keeps_id st uid t aid x :
  by_id aid (set_sm st uid t x) = by_id aid x.
Proof. reflexivity. Qed.

Lemma credit_keeps_key a a0 s0 t x :
  ledger_key a (credit a0 s0 t x) = ledger_key a x.
Proof. reflexivity. Qed.

(** The transaction of a receipt always commits, and leaves
    [received_store]. *)
Lemma receival_transaction_commits (E : env) (u : user)
    (a : Approvisionnement.t) (d : db) :
  find (by_id (Approvisionnement.approvisionnement_id a)) (approvisionnements d)
  = Some a ->
  transaction (receival_transaction E u a) d
  = (Ret (set_sm Approvisionnement.received (id u) (now E) a),
     received_store E u a d).
Proof.
  intros Hf.
  unfold transaction, receival_transaction, bind,
    Prisma.approvisionnements_update, Prisma.stocks_findFirst.
  unfold by_id in Hf. rewrite Hf. cbn [stocks set_approvisionnements].
  unfold received_store.
  fold (ledger_key a).
  destruct (find (ledger_key a) (stocks d)) as [s|] eqn:Hs.
  - unfold Prisma.stocks_update. cbn [stocks set_approvisionnements].
    destruct (find_by_key _ Stock.stock_id _ _ Hs) as [x Hx].
    rewrite Hx. reflexivity.
  - reflexivity.
Qed.

Lemma received_store_sinks (E : env) (u : user) (a : Approvisionnement.t)
    (d : db) :
  transaction_logs (received_store E u a d) = transaction_logs d
  /\ notifications (received_store E u a d) = notifications d.
Proof.
  unfold received_store. destruct (find (ledger_key a) (stocks d)); split;
    reflexivity.
Qed.

(** What a receive_stock request on a validated approvisionnement returns
    and leaves, by the answers of the two sinks. *)
Lemma receive_stock_run (E : env) (req : request WorkflowData) (d : db)
    (u : user) (a : Approvisionnement.t) :
  method req = "POST" ->
  x_user_data req = Some (UserObject u) ->
  workflowActionSchema E (body req) = true ->
  action_of (body req) = receive_stock ->
  find (by_id (approvisionnement_id (body req))) (approvisionnements d) = Some a ->
  role u = "stock_manager" \/ role u = "admin" ->
  Approvisionnement.status a = Approvisionnement.validated_bd ->
  handler E req d =
  match log_failure E, notification_failure E with
  | Some _, _ => (internal_error, received_store E u a d)
  | None, Some _ =>
      (internal_error,
       set_transaction_logs
         (transaction_logs d ++ [receipt_log u a (body req)])
         (received_store E u a d))
  | None, None =>
      (Success 200
         (ApprovisionnementData
            (set_sm Approvisionnement.received (id u) (now E) a))
         [Str "Stock received successfully. Inventory updated and payment processed."],
       set_notifications
         (notifications d ++ [receipt_notice a])
         (set_transaction_logs
            (transaction_logs d ++ [receipt_log u a (body req)])
            (received_store E u a d)))
  end.
Proof.
  intros Hm Hu Hs Ha Hf Hr Hst.
  assert (Hid : Approvisionnement.approvisionnement_id a
                = approvisionnement_id (body req)).
  { apply find_some in Hf. destruct Hf as [_ Hf]. now apply String.eqb_eq. }
  unfold handler, handler_try. rewrite Hm, Hu, Hs. simpl.
  unfold bind at 1. unfold Prisma.approvisionnements_findUnique.
  fold (by_id (approvisionnement_id (body req))). rewrite Hf. simpl.
  rewrite Ha. unfold handleStockReceival.
  rewrite (allowed_role _ _ _ Hr), Hst. simpl.
  unfold bind at 1.
  rewrite receival_transaction_commits by (now rewrite Hid).
  unfold bind, Prisma.transaction_logs_create, Prisma.notifications_create.
  destruct (received_store_sinks E u a d) as [Hl Hn].
  destruct (log_failure E); [reflexivity|].
  destruct (notification_failure E); cbn [notifications set_transaction_logs];
    rewrite Hl, ?Hn; reflexivity.
Qed.

Lemma received_store_status (E : env) (u : user) (a : Approvisionnement.t)
    (d : db) (aid : string) :
  find (by_id aid) (approvisionnements d) = Some a ->
  find (by_id aid) (approvisionnements (received_store E u a d))
  = Some (set_sm Approvisionnement.received (id u) (now E) a).
Proof.
  intros Hf.
  assert (Hid : by_id (Approvisionnement.approvisionnement_id a) a = true)
    by apply String.eqb_refl.
  unfold received_store.
  destruct (find (ledger_key a) (stocks d)); cbn;
    now rewrite (find_map_if _ _ _ (set_sm_keeps_id _ _ _ _) _ _ Hf), Hid.
Qed.

Lemma received_store_ledger (E : env) (u : user) (a : Approvisionnement.t)
    (d : db) :
  exists s',
    find (ledger_key a) (stocks (received_store E u a d)) = Some s'
    /\ Stock.unit_price s' = Approvisionnement.proposed_price a
    /\ Stock.quantity s' =
       match find (ledger_key a) (stocks d) with
       | Some s => Stock.quantity s + Approvisionnement.quantity a
       | None => Approvisionnement.quantity a
       end.
Proof.
  unfold received_store.
  destruct (find (ledger_key a) (stocks d)) as [s|] eqn:Hl; cbn.
  - rewrite (find_map_if _ _ _ (credit_keeps_key a a s (now E)) _ _ Hl).
    unfold stock_key. rewrite String.eqb_refl.
    eexists; repeat split.
  - rewrite (find_app_new _ _ _ Hl).
    + eexists; repeat split.
    + unfold ledger_key. cbn. now rewrite !String.eqb_refl.
Qed.

Lemma received_store_payments (E : env) (u : user) (a : Approvisionnement.t)
    (d : db) :
  payments (received_store E u a d) = payments d ++ [supplier_payment a].
Proof.
  unfold received_store. now destruct (find (ledger_key a) (stocks d)).
Qed.

(** C3. A receive_stock request by a stock manager or an admin on an
    approvisionnement in status validated_bd leaves the approvisionnement
    received with [stock_manager_id] the caller; the ledger entry of its
    (product, warehouse): the one that was there with its quantity increased
    by the approvisionnement's and its unit price replaced by the proposed
    price, or a new one with that quantity and price; and one more payment:
    quantity times proposed price, direct, pending. *)
Theorem receive_stock_effect (E : env) (req : request WorkflowData) (d : db)
    (u : user) (a : Approvisionnement.t) :
  method req = "POST" ->
  x_user_data req = Some (UserObject u) ->
  workflowActionSchema E (body req) = true ->
  action_of (body req) = receive_stock ->
  find (by_id (approvisionnement_id (body req))) (approvisionnements d) = Some a ->
  role u = "stock_manager" \/ role u = "admin" ->
  Approvisionnement.status a = Approvisionnement.validated_bd ->
  let d' := snd (handler E req d) in
  (exists a',
      find (by_id (approvisionnement_id (body req))) (approvisionnements d')
      = Some a'
      /\ Approvisionnement.status a' = Approvisionnement.received
      /\ Approvisionnement.stock_manager_id a' = Some (id u))
  /\ (exists s',
        find (ledger_key a) (stocks d') = Some s'
        /\ Stock.unit_price s' = Approvisionnement.proposed_price a
        /\ Stock.quantity s' =
           match find (ledger_key a) (stocks d) with
           | Some s => Stock.quantity s + Approvisionnement.quantity a
           | None => Approvisionnement.quantity a
           end)
  /\ payments d' =
     payments d ++
       [{| Payment.order_id := None;
           Payment.approvisionnement_id :=
             Some (Approvisionnement.approvisionnement_id a);
           Payment.amount := Approvisionnement.quantity a
                             * Approvisionnement.proposed_price a;
           Payment.payment_method := direct;
           Payment.status := Payment.pending |}].
Proof.
  intros Hm Hu Hs Ha Hf Hr Hst d'.
  assert (Hd : approvisionnements d' = approvisionnements (received_store E u a d)
               /\ stocks d' = stocks (received_store E u a d)
               /\ payments d' = payments (received_store E u a d)).
  { subst d'. rewrite (receive_stock_run E req d u a) by assumption.
    destruct (log_failure E), (notification_failure E); repeat split. }
  destruct Hd as (Hda & Hds & Hdp). rewrite Hda, Hds, Hdp. clear d' Hda Hds Hdp.
  split; [|split].
  - rewrite (received_store_status E u a d _ Hf). eexists; repeat split.
  - apply received_store_ledger.
  - apply received_store_payments.
Qed.

Lemma receive_stock_effect_witness :
  exists s',
    find (ledger_key Sample.validated_supply)
         (stocks (snd (handler Sample.calm Sample.receive_request
                         Sample.receipt_store)))
    = Some s'
    /\ Stock.unit_price s' = 7 /\ Stock.quantity s' = 50.
Proof.
  exact (proj1 (proj2
    (receive_stock_effect Sample.calm Sample.receive_request
       Sample.receipt_store Sample.manager Sample.validated_supply
       eq_refl eq_refl eq_refl eq_refl eq_refl (or_introl eq_refl) eq_refl))).
Defined.

Lemma role_check_passed (u : user) (r1 r2 : string) :
  negb (is_role u r1) && negb (is_role u r2) = false ->
  role u = r1 \/ role u = r2.
Proof.
  unfold is_role. intros H.
  destruct (role u =? r1)%string eqn:H1.
  - left. now apply String.eqb_eq.
  - destruct (role u =? r2)%string eqn:H2; [|discriminate].
    right. now apply String.eqb_eq.
Qed.

Lemma status_eqb_eq (a b : Approvisionnement.status_enum) :
  Approvisionnement.status_eqb a b = true <-> a = b.
Proof. destruct a, b; simpl; split; congruence. Qed.

(** A request that reaches a handler of the workflow is an authenticated,
    well-formed POST naming a row of the table. *)
Lemma handler_reaches (E : env) (req : request WorkflowData) (d : db)
    (st : nat) (p : payload) (m : text) (d' : db) :
  handler E req d = (Success st p m, d') ->
  method req = "POST"
  /\ workflowActionSchema E (body req) = true
  /\ exists u a,
       x_user_data req = Some (UserObject u)
       /\ find (by_id (approvisionnement_id (body req))) (approvisionnements d)
          = Some a.
Proof.
  unfold handler, handler_try. intros H.
  destruct (method req =? "POST")%string eqn:Hm; simpl in H; [|discriminate].
  apply String.eqb_eq in Hm.
  destruct (x_user_data req) as [[e|e|u]|]; simpl in H;
    [discriminate| | |discriminate].
  { destruct (workflowActionSchema E (body req)); simpl in H; [|discriminate].
    unfold bind, Prisma.approvisionnements_findUnique in H.
    destruct (find _ (approvisionnements d)); discriminate. }
  destruct (workflowActionSchema E (body req)); simpl in H; [|discriminate].
  unfold bind at 1 in H. unfold Prisma.approvisionnements_findUnique in H.
  fold (by_id (approvisionnement_id (body req))) in H.
  destruct (find (by_id (approvisionnement_id (body req))) (approvisionnements d))
    as [a|]; [|discriminate].
  repeat split; auto. now exists u, a.
Qed.

(** A successful validate_bd changes neither the ledger nor the payments,
    and rewrites the approvisionnement's status and validator only. *)
Lemma validate_bd_success (E : env) (req : request WorkflowData) (d : db)
    (st : nat) (p : payload) (m : text) (d' : db) :
  action_of (body req) = validate_bd ->
  handler E req d = (Success st p m, d') ->
  exists u a,
    find (by_id (approvisionnement_id (body req))) (approvisionnements d) = Some a
    /\ find (by_id (approvisionnement_id (body req))) (approvisionnements d')
       = Some (set_bd Approvisionnement.validated_bd (id u) (now E) a)
    /\ stocks d' = stocks d
    /\ payments d' = payments d.
Proof.
  intros Ha H.
  destruct (handler_reaches _ _ _ _ _ _ _ H) as (Hm & Hs & u & a & Hu & Hf).
  exists u, a. split; [exact Hf|].
  assert (Hid : Approvisionnement.approvisionnement_id a
                = approvisionnement_id (body req)).
  { apply find_some in Hf. destruct Hf as [_ Hf]. now apply String.eqb_eq. }
  revert H. unfold handler, handler_try. rewrite Hm, Hu, Hs. simpl.
  unfold bind at 1. unfold Prisma.approvisionnements_findUnique.
  fold (by_id (approvisionnement_id (body req))). rewrite Hf. simpl.
  rewrite Ha. unfold handleBusinessDeveloperValidation.
  destruct (negb (is_role u "business_developer") && negb (is_role u "admin"));
    [discriminate|].
  destruct (negb (Approvisionnement.status_eqb (Approvisionnement.status a)
                    Approvisionnement.pending)); [discriminate|].
  unfold bind, Prisma.approvisionnements_update,
    Prisma.transaction_logs_create, Prisma.notifications_create.
  fold (by_id (Approvisionnement.approvisionnement_id a)).
  rewrite Hid, Hf.
  destruct (log_failure E); [discriminate|].
  destruct (notification_failure E); [discriminate|].
  intros [= _ _ _ <-]. cbn.
  rewrite (find_map_if _ _ _ (fun x => eq_refl : by_id _ (set_bd _ _ _ x) = by_id _ x) _ _ Hf).
  assert (Hb : (Approvisionnement.approvisionnement_id a
                =? approvisionnement_id (body req))%string = true)
    by (rewrite <- Hid; apply String.eqb_refl).
  rewrite Hb. repeat split.
Qed.

(** A successful receive_stock was run by an allowed caller on a validated
    approvisionnement, and left [received_store] besides the audit record
    and the notification. *)
Lemma receive_stock_success (E : env) (req : request WorkflowData) (d : db)
    (st : nat) (p : payload) (m : text) (d' : db) :
  action_of (body req) = receive_stock ->
  handler E req d = (Success st p m, d') ->
  exists u a,
    find (by_id (approvisionnement_id (body req))) (approvisionnements d) = Some a
    /\ approvisionnements d' = approvisionnements (received_store E u a d)
    /\ stocks d' = stocks (received_store E u a d)
    /\ payments d' = payments (received_store E u a d).
Proof.
  intros Ha H.
  destruct (handler_reaches _ _ _ _ _ _ _ H) as (Hm & Hs & u & a & Hu & Hf).
  exists u, a. split; [exact Hf|].
  assert (Hpre : (role u = "stock_manager" \/ role u = "admin")
                 /\ Approvisionnement.status a = Approvisionnement.validated_bd).
  { revert H. unfold handler, handler_try. rewrite Hm, Hu, Hs. simpl.
    unfold bind at 1. unfold Prisma.approvisionnements_findUnique.
    fold (by_id (approvisionnement_id (body req))). rewrite Hf. simpl.
    rewrite Ha. unfold handleStockReceival.
    destruct (negb (is_role u "stock_manager") && negb (is_role u "admin"))
      eqn:Hr; [discriminate|].
    destruct (Approvisionnement.status_eqb (Approvisionnement.status a)
                Approvisionnement.validated_bd) eqn:Hst; [|discriminate].
    intros _. split.
    - now apply role_check_passed.
    - now apply status_eqb_eq. }
  destruct Hpre as [Hr Hst].
  rewrite (receive_stock_run E req d u a Hm Hu Hs Ha Hf Hr Hst) in H.
  destruct (log_failure E); [discriminate|].
  destruct (notification_failure E); [discriminate|].
  injection H as _ _ _ <-. repeat split.
Qed.

(** A receive_stock request on an approvisionnement that is not in status
    validated_bd fails and writes nothing, whoever sends it. *)
Lemma receive_stock_refused (E : env) (req : request WorkflowData) (d : db)
    (a : Approvisionnement.t) :
  action_of (body req) = receive_stock ->
  find (by_id (approvisionnement_id (body req))) (approvisionnements d) = Some a ->
  Approvisionnement.status a <> Approvisionnement.validated_bd ->
  (exists st e c, handler E req d = (Failure st e c, d))
  /\ (method req = "POST" ->
      workflowActionSchema E (body req) = true ->
      forall u, x_user_data req = Some (UserObject u) ->
      role u = "stock_manager" \/ role u = "admin" ->
      handler E req d =
      (Failure 400
         "Approvisionnement must be validated by Business Developer before stock can be received"
         "INVALID_STATUS", d)).
Proof.
  intros Ha Hf Hst.
  assert (Hne : Approvisionnement.status_eqb (Approvisionnement.status a)
                  Approvisionnement.validated_bd = false).
  { destruct (Approvisionnement.status_eqb _ _) eqn:Hq; [|reflexivity].
    apply status_eqb_eq in Hq. contradiction. }
  split.
  - unfold handler, handler_try.
    destruct (method req =? "POST")%string; simpl; [|cbn; eauto].
    destruct (x_user_data req) as [[e|e|u]|]; [cbn; eauto| | |cbn; eauto];
      simpl;
      (destruct (workflowActionSchema E (body req)); simpl; [|cbn; eauto]);
      unfold bind at 1; unfold Prisma.approvisionnements_findUnique;
      fold (by_id (approvisionnement_id (body req))); rewrite Hf; simpl;
      [cbn; eauto|].
    rewrite Ha. unfold handleStockReceival. rewrite Hne.
    destruct (negb (is_role u "stock_manager") && negb (is_role u "admin"));
      cbn; eauto.
  - intros Hm Hs u Hu Hr.
    unfold handler, handler_try. rewrite Hm, Hu, Hs. simpl.
    unfold bind at 1. unfold Prisma.approvisionnements_findUnique.
    fold (by_id (approvisionnement_id (body req))). rewrite Hf. simpl.
    rewrite Ha. unfold handleStockReceival.
    rewrite (allowed_role _ _ _ Hr), Hne. reflexivity.
Qed.

(** C4. When validate_bd and then receive_stock have succeeded on an
    approvisionnement, a further receive_stock on it fails and leaves the
    store as it was; sent by a stock manager or an admin it is answered
    400 INVALID_STATUS. Over the whole sequence the ledger entry has been
    credited once with the approvisionnement's quantity and one payment has
    been recorded. *)
Theorem second_receive_is_refused (E1 E2 E3 : env)
    (req1 req2 req3 : request WorkflowData) (d0 d1 d2 : db)
    (st1 st2 : nat) (p1 p2 : payload) (m1 m2 : text) :
  action_of (body req1) = validate_bd ->
  handler E1 req1 d0 = (Success st1 p1 m1, d1) ->
  action_of (body req2) = receive_stock ->
  approvisionnement_id (body req2) = approvisionnement_id (body req1) ->
  handler E2 req2 d1 = (Success st2 p2 m2, d2) ->
  action_of (body req3) = receive_stock ->
  approvisionnement_id (body req3) = approvisionnement_id (body req1) ->
  (exists st e c, handler E3 req3 d2 = (Failure st e c, d2))
  /\ (method req3 = "POST" ->
      workflowActionSchema E3 (body req3) = true ->
      forall u, x_user_data req3 = Some (UserObject u) ->
      role u = "stock_manager" \/ role u = "admin" ->
      handler E3 req3 d2 =
      (Failure 400
         "Approvisionnement must be validated by Business Developer before stock can be received"
         "INVALID_STATUS", d2))
  /\ exists a,
       find (by_id (approvisionnement_id (body req1))) (approvisionnements d0)
       = Some a
       /\ (exists s',
             find (ledger_key a) (stocks d2) = Some s'
             /\ Stock.quantity s' =
                match find (ledger_key a) (stocks d0) with
                | Some s => Stock.quantity s + Approvisionnement.quantity a
                | None => Approvisionnement.quantity a
                end)
       /\ payments d2 = payments d0 ++ [supplier_payment a].
Proof.
  intros A1 H1 A2 I2 H2 A3 I3.
  destruct (validate_bd_success _ _ _ _ _ _ _ A1 H1)
    as (u1 & a & Hf0 & Hf1 & Hs1 & Hp1).
  destruct (receive_stock_success _ _ _ _ _ _ _ A2 H2)
    as (u2 & a1 & Hf1' & Ha2 & Hs2 & Hp2).
  rewrite I2, Hf1 in Hf1'. injection Hf1' as <-.
  set (a1 := set_bd Approvisionnement.validated_bd (id u1) (now E1) a) in *.
  assert (Hf2 : find (by_id (approvisionnement_id (body req3)))
                     (approvisionnements d2)
                = Some (set_sm Approvisionnement.received (id u2) (now E2) a1)).
  { rewrite I3, Ha2. now apply received_store_status. }
  assert (Hst : Approvisionnement.status
                  (set_sm Approvisionnement.received (id u2) (now E2) a1)
                <> Approvisionnement.validated_bd) by discriminate.
  destruct (receive_stock_refused E3 req3 d2 _ A3 Hf2 Hst) as [Hfail Hcode].
  split; [exact Hfail|]. split; [exact Hcode|].
  exists a. split; [exact Hf0|]. split.
  - destruct (received_store_ledger E2 u2 a1 d1) as (s' & Hs' & _ & Hq).
    exists s'. rewrite Hs2. split; [exact Hs'|].
    rewrite Hq, Hs1. reflexivity.
  - rewrite Hp2, received_store_payments, Hp1. reflexivity.
Qed.

Lemma second_receive_is_refused_witness :
  Workflow.handler Sample.calm Sample.receive_request Sample.after_receipt
  = (Failure 400
       "Approvisionnement must be validated by Business Developer before stock can be received"
       "INVALID_STATUS", Sample.after_receipt)
  /\ exists s',
       find (ledger_key (Sample.supply Approvisionnement.pending))
            (stocks Sample.after_receipt) = Some s'
       /\ Stock.quantity s' = 50.
Proof.
  destruct (second_receive_is_refused Sample.calm Sample.calm Sample.calm
              Sample.validate_request Sample.receive_request
              Sample.receive_request
              Sample.pending_store Sample.after_validation Sample.after_receipt
              _ _ _ _ _ _
              eq_refl eq_refl eq_refl eq_refl eq_refl eq_refl eq_refl)
    as (_ & Hcode & a & Ha & Hledger & _).
  split.
  - exact (Hcode eq_refl eq_refl Sample.manager eq_refl (or_introl eq_refl)).
  - injection Ha as <-. exact Hledger.
Defined.
End WorkflowFacts.


Module WorkflowSinks.
Import Workflow.

(** The transaction of a receipt does not consult the sinks. *)
Lemma receival_transaction_sinks (E : env) (audit notification : option string)
    (u : user) (a : Approvisionnement.t) :
  receival_transaction (with_sinks E audit notification) u a
  = receival_transaction E u a.
Proof. reflexivity. Qed.

Lemma handler_success (E : env) (req : request WorkflowData) (d : db)
    (st : nat) (p : payload) (m : text) (d0 : db) :
  handler E req d = (Success st p m, d0) ->
  handler_try E req d = (Ret (Success st p m), d0).
Proof.
  unfold handler. destruct (handler_try E req d) as [[r|e] d'].
  - now intros [= -> ->].
  - discriminate.
Qed.

Lemma bind_findUnique {B} (aid : string)
    (k : option (Approvisionnement.t * Product.t) -> M B) (d : db) :
  (found <- Prisma.approvisionnements_findUnique aid ;; k found) d
  = k (option_map (fun a => (a, products d (Approvisionnement.product_id a)))
                  (find (by_id aid) (approvisionnements d))) d.
Proof. reflexivity. Qed.

Ltac sink_cases audit notification Hne :=
  unfold surfaced;
  destruct audit, notification; cbn;
  try (destruct Hne as [Hne | Hne]; congruence);
  eexists; eexists; (split; [reflexivity|]); repeat split.

Ltac open_step :=
  unfold bind, Prisma.approvisionnements_update,
    Prisma.transaction_logs_create, Prisma.notifications_create;
  cbn [log_failure notification_failure with_sinks now].

Section SinkFailure.
Variables (E : env) (audit notification : option string).
Hypothesis Hne : audit <> None \/ notification <> None.
Variables (u : user) (a : Approvisionnement.t) (data : WorkflowData).
Variables (d d0 : db) (st : nat) (p : payload) (m : text).

Lemma validation_sink_failure (product : Product.t) :
  handleBusinessDeveloperValidation (with_sinks E None None) u a product data d
  = (Ret (Success st p m), d0) ->
  surfaced (handleBusinessDeveloperValidation
              (with_sinks E audit notification) u a product data d) d0.
Proof.
  unfold handleBusinessDeveloperValidation.
  destruct (negb (is_role u "business_developer") && negb (is_role u "admin"));
    [discriminate|].
  destruct (negb (Approvisionnement.status_eqb (Approvisionnement.status a)
                    Approvisionnement.pending)); [discriminate|].
  open_step.
  destruct (find _ (approvisionnements d)); [|discriminate].
  intros [= _ _ _ <-]. sink_cases audit notification Hne.
Qed.

Lemma bd_rejection_sink_failure :
  handleBusinessDeveloperRejection (with_sinks E None None) u a data d
  = (Ret (Success st p m), d0) ->
  surfaced (handleBusinessDeveloperRejection
              (with_sinks E audit notification) u a data d) d0.
Proof.
  unfold handleBusinessDeveloperRejection.
  destruct (negb (is_role u "business_developer") && negb (is_role u "admin"));
    [discriminate|].
  destruct (negb (Approvisionnement.status_eqb (Approvisionnement.status a)
                    Approvisionnement.pending)); [discriminate|].
  open_step.
  destruct (find _ (approvisionnements d)); [|discriminate].
  intros [= _ _ _ <-]. sink_cases audit notification Hne.
Qed.

Lemma stock_rejection_sink_failure :
  handleStockRejection (with_sinks E None None) u a data d
  = (Ret (Success st p m), d0) ->
  surfaced (handleStockRejection (with_sinks E audit notification) u a data d)
           d0.
Proof.
  unfold handleStockRejection.
  destruct (negb (is_role u "stock_manager") && negb (is_role u "admin"));
    [discriminate|].
  destruct (negb (Approvisionnement.status_eqb (Approvisionnement.status a)
                    Approvisionnement.validated_bd)); [discriminate|].
  open_step.
  destruct (find _ (approvisionnements d)); [|discriminate].
  intros [= _ _ _ <-]. sink_cases audit notification Hne.
Qed.

Lemma receival_sink_failure :
  handleStockReceival (with_sinks E None None) u a data d
  = (Ret (Success st p m), d0) ->
  surfaced (handleStockReceival (with_sinks E audit notification) u a data d)
           d0.
Proof.
  unfold handleStockReceival.
  destruct (negb (is_role u "stock_manager") && negb (is_role u "admin"));
    [discriminate|].
  destruct (negb (Approvisionnement.status_eqb (Approvisionnement.status a)
                    Approvisionnement.validated_bd)); [discriminate|].
  unfold bind at 1. unfold bind at 3.
  rewrite !receival_transaction_sinks.
  destruct (transaction (receival_transaction E u a) d) as [[r|e] d1];
    [|discriminate].
  open_step.
  intros [= _ _ _ <-]. sink_cases audit notification Hne.
Qed.
End SinkFailure.

(** When the two sinks are the only difference between two runs of the
    workflow endpoint and the run with working sinks succeeds, the run with
    a failing sink is answered 500 and leaves the same approvisionnements,
    ledger and payments. *)
Lemma workflow_sink_failure (E : env) (audit notification : option string)
    (req : request WorkflowData) (d d0 : db)
    (st : nat) (p : payload) (m : text) :
  audit <> None \/ notification <> None ->
  handler (with_sinks E None None) req d = (Success st p m, d0) ->
  exists d',
    handler (with_sinks E audit notification) req d = (internal_error, d')
    /\ approvisionnements d' = approvisionnements d0
    /\ stocks d' = stocks d0
    /\ payments d' = payments d0.
Proof.
  intros Hne H.
  destruct (WorkflowFacts.handler_reaches _ _ _ _ _ _ _ H)
    as (Hm & Hs & u & a & Hu & Hf).
  apply handler_success in H. revert H.
  unfold handler, handler_try.
  change (workflowActionSchema (with_sinks E None None) (body req))
    with (workflowActionSchema E (body req)) in *.
  change (workflowActionSchema (with_sinks E audit notification) (body req))
    with (workflowActionSchema E (body req)).
  rewrite Hm, Hu, Hs. simpl.
  rewrite !bind_findUnique, Hf. simpl.
  intros H.
  assert (Hsurf : surfaced
            (match action_of (body req) with
             | validate_bd =>
                 handleBusinessDeveloperValidation
                   (with_sinks E audit notification) u a
                   (products d (Approvisionnement.product_id a)) (body req)
             | reject_bd =>
                 handleBusinessDeveloperRejection
                   (with_sinks E audit notification) u a (body req)
             | receive_stock =>
                 handleStockReceival (with_sinks E audit notification) u a
                   (body req)
             | reject_stock =>
                 handleStockRejection (with_sinks E audit notification) u a
                   (body req)
             end d) d0).
  { destruct (action_of (body req)).
    - eapply validation_sink_failure; eassumption.
    - eapply bd_rejection_sink_failure; eassumption.
    - eapply receival_sink_failure; eassumption.
    - eapply stock_rejection_sink_failure; eassumption. }
  destruct Hsurf as (e & d' & -> & Hrest).
  exists d'. split; [reflexivity|exact Hrest].
Qed.
End WorkflowSinks.

(** ** Order processing *)

Module OrderFacts.
Import OrderProcess.

(** The validation pass only reads, and reports the first offending line. *)
Lemma validateStockAvailability_run (l : list item) (w : string) (d : db) :
  validateStockAvailability l w d = (Ret (verdict d w (find (offending d w) l)), d).
Proof.
  induction l as [|i l IH]; [reflexivity|].
  simpl. unfold bind, Prisma.stocks_findFirst_include, offending.
  destruct (find (where_stock (product_id i) w) (stocks d)) as [s|] eqn:Hs;
    simpl.
  - destruct (Stock.quantity s <? quantity i) eqn:Hq.
    + unfold ret, verdict. now rewrite Hs.
    + exact IH.
  - unfold ret, verdict. now rewrite Hs.
Qed.

Lemma verdict_invalid (d : db) (w : string) (i : item) :
  valid (verdict d w (Some i)) = false.
Proof.
  unfold verdict.
  now destruct (find (where_stock (product_id i) w) (stocks d)).
Qed.

(** An order with an offending line is refused from inside the transaction,
    which is rolled back. *)
Lemma refused_order_run (E : env) (req : request OrderData) (d : db)
    (u : user) (i : item) :
  method req = "POST" ->
  x_user_data req = Some (UserObject u) ->
  orderProcessingSchema E (body req) = true ->
  role u = "client" \/ role u = "admin" ->
  find (offending d (warehouse_id (body req))) (items (body req)) = Some i ->
  handler E req d =
  (Failure 500
     ("Insufficient stock for product: "
      ++ interpolate (productName (verdict d (warehouse_id (body req)) (Some i))))%string
     "INTERNAL_SERVER_ERROR", d).
Proof.
  intros Hm Hu Hs Hr Hi.
  unfold handler, handler_try. rewrite Hm, Hu, Hs. simpl.
  unfold is_role. 
  assert (Hrole : negb (role u =? "client")%string
                  && negb (role u =? "admin")%string = false).
  { destruct Hr as [-> | ->]; reflexivity. }
  rewrite Hrole.
  unfold bind at 1. unfold transaction, order_transaction.
  unfold bind at 1. rewrite validateStockAvailability_run, Hi.
  rewrite verdict_invalid. reflexivity.
Qed.

(** The first element of a list that satisfies a test. *)
Lemma find_first {A} (p : A -> bool) (pre post : list A) (x : A) :
  (forall y, In y pre -> p y = false) ->
  p x = true ->
  find p (pre ++ x :: post) = Some x.
Proof.
  intros Hpre Hx. induction pre as [|y pre IH]; simpl.
  - now rewrite Hx.
  - rewrite (Hpre y (or_introl eq_refl)). apply IH.
    intros z Hz. apply Hpre. now right.
Qed.

Lemma verdict_of_short (d : db) (w : string) (i : item) :
  verdict d w (Some i)
  = {| valid := false; productName := Some (name_of d w i);
       availableQuantity := Some (on_hand (stocks d) w i);
       requestedQuantity := Some (quantity i) |}.
Proof.
  unfold verdict, name_of, on_hand.
  change (entry_of (product_id i) w) with (where_stock (product_id i) w).
  now destruct (find (where_stock (product_id i) w) (stocks d)).
Qed.

(** X27. An order by a client or an admin that reaches the validation
    pass with a short line (no entry of its product in the warehouse, or
    less on hand than it requests) is refused with 500
    INTERNAL_SERVER_ERROR. The message names the product of the first
    short line, by its name in the catalogue or, when the warehouse has no
    entry of it, by its identifier; and the store is left as it was: no
    order, no order item, no ledger change, no payment. *)
Theorem first_short_line_refuses_order (E : env) (req : request OrderData)
    (d : db) (u : user) (pre post : list item) (i : item) :
  method req = "POST" ->
  x_user_data req = Some (UserObject u) ->
  orderProcessingSchema E (body req) = true ->
  role u = "client" \/ role u = "admin" ->
  items (body req) = pre ++ i :: post ->
  (forall j, In j pre -> short (stocks d) (warehouse_id (body req)) j = false) ->
  short (stocks d) (warehouse_id (body req)) i = true ->
  handler E req d
  = (Failure 500
       ("Insufficient stock for product: "
        ++ name_of d (warehouse_id (body req)) i)%string
       "INTERNAL_SERVER_ERROR", d).
Proof.
  intros Hm Hu Hs Hr Hitems Hpre Hi.
  assert (Hfirst : find (offending d (warehouse_id (body req)))
                     (items (body req)) = Some i).
  { rewrite Hitems. apply find_first.
    - intros j Hj. exact (Hpre j Hj).
    - exact Hi. }
  rewrite (refused_order_run E req d u i Hm Hu Hs Hr Hfirst).
  now rewrite verdict_of_short.
Qed.

Lemma first_short_line_refuses_order_witness :
  handler Sample.calm (Sample.two_lines 3) (Sample.two_products_among 2)
  = (Failure 500 "Insufficient stock for product: Bananas"
             "INTERNAL_SERVER_ERROR", Sample.two_products_among 2).
Proof.
  apply (first_short_line_refuses_order Sample.calm (Sample.two_lines 3)
           (Sample.two_products_among 2) Sample.client
           [Sample.line Ids.productA 5 10] [] (Sample.line Ids.productB 3 20)
           eq_refl eq_refl eq_refl (or_introl eq_refl) eq_refl).
  - intros j [<- | []]. reflexivity.
  - reflexivity.
Defined.

(** C2 fails on the code. W1 holds 5 units of productA and 2 of productB
    (W2 holds 100 of productB); an order for W1 of 5 units of productA and
    3 of productB is refused and leaves the store as it was. The
    validation pass reports productB with 2 available and 3 requested, but
    the message of the refusal names the product only; the second handler
    of the same file puts both figures in its message. With 1 available
    and 4 requested the first handler gives the very same answer, so the
    figures cannot be read off it. *)
Theorem refusal_omits_quantities :
  fst (validateStockAvailability (items (body (Sample.two_lines 3))) Ids.W1
         (Sample.two_products_among 2))
  = Ret {| valid := false; productName := Some "Bananas";
           availableQuantity := Some 2; requestedQuantity := Some 3 |}
  /\ handler Sample.calm (Sample.two_lines 3) (Sample.two_products_among 2)
     = (Failure 500 "Insufficient stock for product: Bananas"
                "INTERNAL_SERVER_ERROR", Sample.two_products_among 2)
  /\ OrderProcessV2.handler Sample.calm Sample.tally (Sample.two_lines 3)
       (Sample.two_products_among 2)
     = (OrderProcessV2.Refused 500
          "Insufficient stock for Bananas. Available: 2, Requested: 3"
          "INTERNAL_SERVER_ERROR", Sample.two_products_among 2)
  /\ fst (handler Sample.calm (Sample.two_lines 4)
            (Sample.two_products_among 1))
     = fst (handler Sample.calm (Sample.two_lines 3)
              (Sample.two_products_among 2)).
Proof. repeat split. Qed.

(** C1 fails on the code. Against a ledger of 5 units of productA, an order
    naming productA on two lines of 3 units passes the validation pass (each
    line is compared with the 5 on hand), is answered 201, and leaves the
    ledger entry at -1. *)
Theorem repeated_product_oversells :
  (exists p m,
      fst (handler Sample.calm Sample.same_product_twice Sample.one_product)
      = Success 201 p m)
  /\ map Stock.quantity (stocks Sample.one_product) = [5]
  /\ map Stock.quantity
       (stocks (snd (handler Sample.calm Sample.same_product_twice
                       Sample.one_product)))
     = [-1].
Proof. split; [eexists; eexists; reflexivity|split; reflexivity]. Qed.

Lemma order_reaches (E : env) (req : request OrderData) (d : db)
    (st : nat) (p : payload) (m : text) (d' : db) :
  handler E req d = (Success st p m, d') ->
  method req = "POST"
  /\ orderProcessingSchema E (body req) = true
  /\ exists u,
       x_user_data req = Some (UserObject u) /\ (role u = "client" \/ role u = "admin").
Proof.
  unfold handler, handler_try. intros H.
  destruct (method req =? "POST")%string eqn:Hm; simpl in H; [|discriminate].
  apply String.eqb_eq in Hm.
  destruct (x_user_data req) as [[e|e|u]|]; simpl in H;
    [discriminate| | |discriminate].
  { destruct (orderProcessingSchema E (body req)); simpl in H; discriminate. }
  destruct (orderProcessingSchema E (body req)); simpl in H; [|discriminate].
  destruct (negb (is_role u "client") && negb (is_role u "admin")) eqn:Hr;
    [discriminate|].
  repeat split; auto. exists u. split; [reflexivity|].
  unfold is_role in Hr.
  destruct (role u =? "client")%string eqn:H1.
  - left. now apply String.eqb_eq.
  - destruct (role u =? "admin")%string eqn:H2; [|discriminate].
    right. now apply String.eqb_eq.
Qed.

(** The order endpoint, for a request that passes the checks made before
    the transaction. *)
Lemma order_run (E : env) (req : request OrderData) (d : db) (u : user) :
  method req = "POST" ->
  x_user_data req = Some (UserObject u) ->
  orderProcessingSchema E (body req) = true ->
  role u = "client" \/ role u = "admin" ->
  handler E req d =
  match transaction (order_transaction E (body req)) d with
  | (Ret result, d1) => after_order_commit E u (body req) result d1
  | (Throw e, d1) => (Failure 500 e "INTERNAL_SERVER_ERROR", d1)
  end.
Proof.
  intros Hm Hu Hs Hr.
  unfold handler, handler_try. rewrite Hm, Hu, Hs. simpl.
  assert (Hrole : negb (is_role u "client") && negb (is_role u "admin") = false).
  { unfold is_role. destruct Hr as [-> | ->]; reflexivity. }
  rewrite Hrole.
  unfold bind at 1.
  destruct (transaction (order_transaction E (body req)) d)
    as [[[[[o its] dl] pay]|e] d1]; [|reflexivity].
  unfold after_order_commit, bind, Prisma.transaction_logs_create,
    Prisma.notifications_create.
  destruct (log_failure E); [reflexivity|].
  destruct (notification_failure E); [reflexivity|].
  cbn. now rewrite <- app_assoc.
Qed.

(** Order lines are written without touching the audit table. *)
Lemma create_items_logs (E : env) (oid w : string) (l : list item) :
  forall d, transaction_logs (snd (create_items E oid w l d)) = transaction_logs d.
Proof.
  induction l as [|i l IH]; intros d; [reflexivity|].
  simpl. unfold bind at 1. unfold Prisma.order_items_create at 1.
  unfold bind at 1. unfold Prisma.stocks_findFirst at 1.
  cbn [stocks set_order_items].
  destruct (find (where_stock (product_id i) w) (stocks d)) as [s|].
  - unfold bind at 1. unfold bind at 1. unfold Prisma.stocks_update at 1.
    cbn [stocks set_order_items].
    destruct (find (fun s0 => (Stock.stock_id s0 =? Stock.stock_id s)%string)
                   (stocks d)); [|reflexivity].
    unfold ret at 1. unfold bind at 1.
    match goal with
    | |- context [create_items E oid w l ?d1] =>
        specialize (IH d1); destruct (create_items E oid w l d1) as [[r|e] d2]
    end; simpl in *; exact IH.
  - unfold bind at 1. unfold ret at 1. unfold bind at 1.
    match goal with
    | |- context [create_items E oid w l ?d1] =>
        specialize (IH d1); destruct (create_items E oid w l d1) as [[r|e] d2]
    end; simpl in *; exact IH.
Qed.

(** The transaction of an order leaves the audit table as it found it. *)
Lemma order_transaction_logs (E : env) (data : OrderData) (d : db) :
  transaction_logs (snd (transaction (order_transaction E data) d))
  = transaction_logs d.
Proof.
  unfold transaction.
  destruct (order_transaction E data d) as [[r|e] d1] eqn:Hrun; [|reflexivity].
  cbn [snd]. revert Hrun. unfold order_transaction.
  unfold bind at 1. rewrite validateStockAvailability_run.
  destruct (valid _); cbn [negb]; [|discriminate].
  unfold bind at 1. unfold Prisma.orders_create at 1.
  unfold bind at 1. cbn [Order.order_id].
  match goal with
  | |- context [create_items E ?oid ?w ?l ?d1] =>
      pose proof (create_items_logs E oid w l d1) as Hlogs;
      destruct (create_items E oid w l d1) as [[its|e] d2]
  end; [|discriminate].
  cbn [snd transaction_logs set_orders] in Hlogs.
  unfold bind at 1.
  destruct (delivery_option data).
  - unfold bind at 1. unfold Prisma.deliveries_create at 1. unfold ret at 1.
    unfold bind at 1. unfold Prisma.payments_create at 1.
    unfold bind at 1. unfold Prisma.orders_update at 1.
    cbn [orders set_payments set_deliveries].
    destruct (find _ (orders d2)); [|discriminate].
    intros [= _ <-]. exact Hlogs.
  - unfold ret at 1.
    unfold bind at 1. unfold Prisma.payments_create at 1.
    unfold bind at 1. unfold Prisma.orders_update at 1.
    cbn [orders set_payments].
    destruct (find _ (orders d2)); [|discriminate].
    intros [= _ <-]. exact Hlogs.
Qed.

(** The transaction of an order does not consult the sinks. *)
Lemma order_transaction_sinks (E : env) (audit notification : option string)
    (data : OrderData) :
  order_transaction (with_sinks E audit notification) data
  = order_transaction E data.
Proof. reflexivity. Qed.

(** When the two sinks are the only difference between two runs of the order
    endpoint and the run with working sinks succeeds, the run with a failing
    sink is answered 500 with the sink's error and leaves the same orders,
    order items, ledger, deliveries and payments. *)
Lemma order_sink_failure (E : env) (audit notification : option string)
    (req : request OrderData) (d d0 : db)
    (st : nat) (p : payload) (m : text) :
  audit <> None \/ notification <> None ->
  handler (with_sinks E None None) req d = (Success st p m, d0) ->
  exists e d',
    handler (with_sinks E audit notification) req d
    = (Failure 500 e "INTERNAL_SERVER_ERROR", d')
    /\ (audit = Some e \/ notification = Some e)
    /\ orders d' = orders d0
    /\ order_items d' = order_items d0
    /\ stocks d' = stocks d0
    /\ deliveries d' = deliveries d0
    /\ payments d' = payments d0.
Proof.
  intros Hne H.
  destruct (order_reaches _ _ _ _ _ _ _ H) as (Hm & Hs & u & Hu & Hr).
  rewrite (order_run (with_sinks E None None) req d u Hm Hu Hs Hr) in H.
  rewrite (order_run (with_sinks E audit notification) req d u Hm Hu Hs Hr).
  rewrite !order_transaction_sinks in *.
  destruct (transaction (order_transaction E (body req)) d)
    as [[[[[o its] dl] pay]|e] d1]; [|discriminate].
  revert H. unfold after_order_commit.
  cbn [log_failure notification_failure with_sinks].
  intros [= _ _ _ <-].
  destruct audit as [e1|], notification as [e2|]; cbn;
    try (destruct Hne as [Hne | Hne]; congruence).
  - exists e1. eexists. split; [reflexivity|]. repeat split. now left.
  - exists e1. eexists. split; [reflexivity|]. repeat split. now left.
  - exists e2. eexists. split; [reflexivity|]. repeat split. now right.
Qed.
End OrderFacts.

(** ** Failures after the commit *)

(** C6, as the code has it. In the workflow endpoint (validate_bd,
    reject_bd, receive_stock, reject_stock) and in the order endpoint, the
    audit record and the notifications are written after the primary
    mutation without any handler around them: when a sink refuses a write,
    a request that would otherwise succeed is answered 500, while the
    mutation it made stays in the store. *)
Theorem sink_failure_is_surfaced (E : env) (audit notification : option string) :
  audit <> None \/ notification <> None ->
  (forall req d d0 st p m,
      Workflow.handler (with_sinks E None None) req d = (Success st p m, d0) ->
      exists d',
        Workflow.handler (with_sinks E audit notification) req d
        = (Failure 500 "Internal server error" "INTERNAL_SERVER_ERROR", d')
        /\ approvisionnements d' = approvisionnements d0
        /\ stocks d' = stocks d0
        /\ payments d' = payments d0)
  /\ (forall req d d0 st p m,
        OrderProcess.handler (with_sinks E None None) req d
        = (Success st p m, d0) ->
        exists e d',
          OrderProcess.handler (with_sinks E audit notification) req d
          = (Failure 500 e "INTERNAL_SERVER_ERROR", d')
          /\ (audit = Some e \/ notification = Some e)
          /\ orders d' = orders d0
          /\ order_items d' = order_items d0
          /\ stocks d' = stocks d0
          /\ deliveries d' = deliveries d0
          /\ payments d' = payments d0).
Proof.
  intros Hne. split.
  - intros. eapply WorkflowSinks.workflow_sink_failure; eassumption.
  - intros. eapply OrderFacts.order_sink_failure; eassumption.
Qed.

Lemma sink_failure_is_surfaced_witness :
  exists d',
    Workflow.handler Sample.mail_down Sample.receive_request Sample.receipt_store
    = (Failure 500 "Internal server error" "INTERNAL_SERVER_ERROR", d')
    /\ approvisionnements d' = approvisionnements Sample.receipt_done
    /\ stocks d' = stocks Sample.receipt_done
    /\ payments d' = payments Sample.receipt_done.
Proof.
  assert (Hne : @None string <> None
                \/ Some "notification store unavailable" <> None)
    by (right; discriminate).
  exact (proj1 (sink_failure_is_surfaced Sample.calm None
                  (Some "notification store unavailable") Hne)
           Sample.receive_request Sample.receipt_store Sample.receipt_done
           _ _ _ eq_refl).
Defined.

(** C6, as stated, fails: the audit sink refuses the record of an order of
    3 units of productA. The order, its payment and the decrement of the
    ledger from 5 to 2 are committed, and the caller is answered 500; with
    a working sink the same request is answered 201. *)
Lemma committed_order_answered_500 :
  fst (OrderProcess.handler Sample.audit_down Sample.single_line
         Sample.one_product)
  = Failure 500 "audit store unavailable" "INTERNAL_SERVER_ERROR"
  /\ map Stock.quantity (stocks Sample.after_unlogged_order) = [2]
  /\ List.length (orders Sample.after_unlogged_order) = 1%nat
  /\ List.length (payments Sample.after_unlogged_order) = 1%nat
  /\ exists p m,
       fst (OrderProcess.handler Sample.calm Sample.single_line
              Sample.one_product)
       = Success 201 p m.
Proof.
  repeat split. eexists. eexists. reflexivity.
Qed.

(** ** Stock management *)

Module StockFacts.
Import StockManagement.

Lemma present_string (x : string) : x <> "" -> missing_string (Some x) = false.
Proof. intros H. simpl. now apply String.eqb_neq. Qed.

Lemma set_quantity_keeps_key (p w : string) (q t : Z) (x : Stock.t) :
  where_stock p w (set_quantity q t x) = where_stock p w x.
Proof. reflexivity. Qed.

Lemma bind_findFirst_include {B} (where_ : Stock.t -> bool)
    (k : option (Stock.t * Product.t) -> M B) (d : db) :
  (found <- Prisma.stocks_findFirst_include where_ ;; k found) d
  = k (option_map (fun s => (s, products d (Stock.product_id s)))
                  (find where_ (stocks d))) d.
Proof. reflexivity. Qed.

(** C8, as the code has it. An adjustment of the entry of a product in
    a warehouse by a signed [delta]: with no entry for the pair it is
    answered 500 STOCK_ADJUSTMENT_FAILED with the message of the missing
    record; when the quantity of the entry plus [delta] is negative it is
    answered 500 STOCK_ADJUSTMENT_FAILED with the message of the negative
    quantity; in both cases the store is left as it was. Otherwise, the
    audit table accepting the write, the entry receives its quantity plus
    [delta] and the time of the write, and exactly one audit record is
    added, carrying the previous quantity, the adjustment, the new
    quantity and the reason. *)
Theorem adjust_spec (E : env) (u : user) (data : StockData) (d : db)
    (p w : string) (delta : Z) :
  product_id data = Some p -> p <> "" ->
  warehouse_id data = Some w -> w <> "" ->
  quantity data = Some delta ->
  (find (entry_of p w) (stocks d) = None ->
   handleStockAdjustment E u data d
   = (Failure 500 "Stock record not found for this product and warehouse"
              "STOCK_ADJUSTMENT_FAILED", d))
  /\ (forall current,
        find (entry_of p w) (stocks d) = Some current ->
        Stock.quantity current + delta < 0 ->
        handleStockAdjustment E u data d
        = (Failure 500 "Stock adjustment would result in negative quantity"
                   "STOCK_ADJUSTMENT_FAILED", d))
  /\ (forall current,
        find (entry_of p w) (stocks d) = Some current ->
        0 <= Stock.quantity current + delta ->
        log_failure E = None ->
        exists result message d' s',
          handleStockAdjustment E u data d = (Success 200 result message, d')
          /\ find (entry_of p w) (stocks d') = Some s'
          /\ Stock.stock_id s' = Stock.stock_id current
          /\ Stock.quantity s' = Stock.quantity current + delta
          /\ Stock.last_updated s' = now E
          /\ transaction_logs d' =
             transaction_logs d ++
               [{| Log.entity_type := "stocks";
                   Log.entity_id := Stock.stock_id current;
                   Log.action := "UPDATE";
                   Log.user_id := id u;
                   Log.details :=
                     StockAdjustmentDetails p w (Stock.quantity current) delta
                       (Stock.quantity current + delta)
                       (or_default (reason data) "Manual adjustment") |}]).
Proof.
  intros Hp Hpn Hw Hwn Hq.
  change (entry_of p w) with (where_stock p w).
  assert (Hguard : missing_string (product_id data)
                   || missing_string (warehouse_id data)
                   || is_undefined (quantity data) = false).
  { rewrite Hp, Hw, Hq, !present_string by assumption. reflexivity. }
  unfold handleStockAdjustment. rewrite Hguard.
  unfold transaction, adjustment_transaction.
  rewrite bind_findFirst_include, Hp, Hw, Hq. cbn [str num].
  split; [|split].
  - intros ->. reflexivity.
  - intros current -> Hneg. cbn [option_map].
    apply Z.ltb_lt in Hneg. rewrite Hneg. reflexivity.
  - intros current Hf Hpos Hlog. rewrite Hf. cbn [option_map].
    apply Z.ltb_ge in Hpos. rewrite Hpos.
    unfold bind, Prisma.stocks_update, Prisma.transaction_logs_create.
    destruct (find_by_key _ Stock.stock_id _ _ Hf) as [x Hx].
    rewrite Hx, Hlog.
    do 3 eexists.
    exists (set_quantity (Stock.quantity current + delta) (now E) current).
    split; [reflexivity|]. cbn.
    rewrite (find_map_if _ _ _ (set_quantity_keeps_key p w _ _) _ _ Hf).
    rewrite String.eqb_refl. repeat split.
Qed.

Lemma adjust_spec_witness :
  handleStockAdjustment Sample.calm Sample.manager
    (Sample.adjustment Ids.productA Ids.absent 5) Sample.assorted
  = (Failure 500 "Stock record not found for this product and warehouse"
             "STOCK_ADJUSTMENT_FAILED", Sample.assorted)
  /\ handleStockAdjustment Sample.calm Sample.manager
       (Sample.adjustment Ids.productA Ids.W1 (-15)) Sample.assorted
     = (Failure 500 "Stock adjustment would result in negative quantity"
                "STOCK_ADJUSTMENT_FAILED", Sample.assorted)
  /\ exists result message d' s',
       handleStockAdjustment Sample.calm Sample.manager
         (Sample.adjustment Ids.productA Ids.W1 (-4)) Sample.assorted
       = (Success 200 result message, d')
       /\ find (entry_of Ids.productA Ids.W1) (stocks d') = Some s'
       /\ Stock.stock_id s' = "s2"
       /\ Stock.quantity s' = 10 + -4
       /\ Stock.last_updated s' = 100
       /\ transaction_logs d' =
          [{| Log.entity_type := "stocks"; Log.entity_id := "s2";
              Log.action := "UPDATE"; Log.user_id := "sm1";
              Log.details :=
                StockAdjustmentDetails Ids.productA Ids.W1 10 (-4) (10 + -4)
                  "count correction" |}].
Proof.
  assert (Hne : forall x y : string, (x =? y)%string = false -> x <> y)
    by (intros x y H; now apply String.eqb_neq).
  split; [|split].
  - exact (proj1
      (adjust_spec Sample.calm Sample.manager
         (Sample.adjustment Ids.productA Ids.absent 5) Sample.assorted
         Ids.productA Ids.absent 5
         eq_refl (Hne Ids.productA "" eq_refl)
         eq_refl (Hne Ids.absent "" eq_refl) eq_refl)
      eq_refl).
  - exact (proj1 (proj2
      (adjust_spec Sample.calm Sample.manager
         (Sample.adjustment Ids.productA Ids.W1 (-15)) Sample.assorted
         Ids.productA Ids.W1 (-15)
         eq_refl (Hne Ids.productA "" eq_refl)
         eq_refl (Hne Ids.W1 "" eq_refl) eq_refl))
      (Sample.stock "s2" Ids.productA Ids.W1 10 5) eq_refl eq_refl).
  - assert (Hpos : 0 <= 10 + -4) by discriminate.
    exact (proj2 (proj2
      (adjust_spec Sample.calm Sample.manager
         (Sample.adjustment Ids.productA Ids.W1 (-4)) Sample.assorted
         Ids.productA Ids.W1 (-4)
         eq_refl (Hne Ids.productA "" eq_refl)
         eq_refl (Hne Ids.W1 "" eq_refl) eq_refl))
      (Sample.stock "s2" Ids.productA Ids.W1 10 5) eq_refl Hpos eq_refl).
Defined.

(** C8, as stated, fails: an adjustment that finds no entry for the pair is
    not answered with a NOT_FOUND error. On a ledger without an entry of
    productA at the warehouse named, the answer has status 500 and the
    code STOCK_ADJUSTMENT_FAILED; an adjustment of -15 on an entry of 10
    units is answered with the same status and code, and the two failures
    differ by their message only. *)
Lemma adjustment_failures_share_their_code :
  fst (handleStockAdjustment Sample.calm Sample.manager
         (Sample.adjustment Ids.productA Ids.absent 5) Sample.assorted)
  = Failure 500 "Stock record not found for this product and warehouse"
            "STOCK_ADJUSTMENT_FAILED"
  /\ error_code
       (fst (handleStockAdjustment Sample.calm Sample.manager
               (Sample.adjustment Ids.productA Ids.absent 5) Sample.assorted))
     <> Some "NOT_FOUND"
  /\ find (entry_of Ids.productA Ids.absent) (stocks Sample.assorted) = None
  /\ error_code
       (fst (handleStockAdjustment Sample.calm Sample.manager
               (Sample.adjustment Ids.productA Ids.W1 (-15)) Sample.assorted))
     = error_code
         (fst (handleStockAdjustment Sample.calm Sample.manager
                 (Sample.adjustment Ids.productA Ids.absent 5)
                 Sample.assorted)).
Proof. repeat split. discriminate. Qed.

Lemma distinct_fresh (x : string) (l : list string) :
  distinct (x :: l) = true -> ~ In x l.
Proof.
  simpl. intros H Hin. apply andb_prop in H. destruct H as [H _].
  apply negb_true_iff in H.
  assert (Hex : existsb (String.eqb x) l = true).
  { apply existsb_exists. exists x. split; [exact Hin|apply String.eqb_refl]. }
  congruence.
Qed.

Lemma distinct_keys (l : list Stock.t) (a b : Stock.t) :
  distinct (map Stock.stock_id l) = true ->
  In a l -> In b l -> Stock.stock_id a = Stock.stock_id b -> a = b.
Proof.
  induction l as [|x l IH]; simpl; [contradiction|].
  intros H Ha Hb Hk. apply andb_prop in H. destruct H as [Hx Hl].
  assert (Hfresh : forall y, In y l -> Stock.stock_id x <> Stock.stock_id y).
  { intros y Hy Heq. apply negb_true_iff in Hx.
    assert (Hex : existsb (String.eqb (Stock.stock_id x)) (map Stock.stock_id l)
                  = true).
    { apply existsb_exists. exists (Stock.stock_id y). split.
      - now apply in_map.
      - rewrite Heq. apply String.eqb_refl. }
    congruence. }
  destruct Ha as [<- | Ha], Hb as [<- | Hb]; auto.
  - exfalso. now apply (Hfresh b Hb).
  - exfalso. now apply (Hfresh a Ha).
Qed.

Lemma present_number (q : Z) : q <> 0 -> missing_number (Some q) = false.
Proof. intros H. simpl. now apply Z.eqb_neq. Qed.

(** The transaction of a transfer that finds its source well stocked
    commits, provided the audit sink accepts the record. *)
Lemma transfer_commits (E : env) (u : user) (data : StockData) (d : db)
    (p from to : string) (q : Z) (source : Stock.t) :
  product_id data = Some p ->
  from_warehouse_id data = Some from ->
  to_warehouse_id data = Some to ->
  quantity data = Some q ->
  find (where_stock p from) (stocks d) = Some source ->
  q <= Stock.quantity source ->
  log_failure E = None ->
  exists result,
    transaction (transfer_transaction E u data) d
    = (Ret result,
       set_transaction_logs
         (transaction_logs d ++ [transfer_log u data source p from to q])
         (set_stocks
            (transferred E source (find (where_stock p to) (stocks d))
               p to q (stocks d)) d)).
Proof.
  intros Hp Hfrom Hto Hq Hsrc Hle Hlog.
  unfold transaction, transfer_transaction.
  rewrite bind_findFirst_include, Hp, Hfrom, Hto, Hq. cbn [str num].
  rewrite Hsrc. cbn [option_map].
  apply Z.ltb_ge in Hle. rewrite Hle.
  unfold bind at 1. unfold Prisma.stocks_findFirst at 1.
  unfold transferred.
  destruct (find (where_stock p to) (stocks d)) as [destination|] eqn:Hdst.
  - destruct (find_by_key _ Stock.stock_id _ _ Hdst) as [x Hx].
    unfold bind at 1. unfold Prisma.stocks_update at 1. rewrite Hx.
    set (l1 := map _ (stocks d)).
    assert (Hs1 : exists s1, find (where_stock p from) l1 = Some s1
                             /\ Stock.stock_id s1 = Stock.stock_id source).
    { subst l1.
      rewrite (find_map_if _ _ _ (set_quantity_keeps_key p from _ _) _ _ Hsrc).
      eexists. split; [reflexivity|].
      now destruct (Stock.stock_id source =? Stock.stock_id destination)%string. }
    destruct Hs1 as (s1 & Hs1 & Hk1).
    destruct (find_by_key _ Stock.stock_id _ _ Hs1) as [y Hy].
    rewrite Hk1 in Hy.
    unfold bind at 1. unfold Prisma.stocks_update at 1.
    cbn [stocks set_stocks]. rewrite Hy.
    unfold bind, Prisma.transaction_logs_create. rewrite Hlog.
    eexists. reflexivity.
  - unfold bind at 1. unfold Prisma.stocks_create at 1.
    set (new := {| Stock.stock_id := new_stock_id E |}).
    assert (Hs1 : find (where_stock p from) (stocks d ++ [new]) = Some source)
      by now apply find_app_old.
    destruct (find_by_key _ Stock.stock_id _ _ Hs1) as [y Hy].
    unfold bind at 1. unfold Prisma.stocks_update at 1.
    cbn [stocks set_stocks]. rewrite Hy.
    unfold bind, Prisma.transaction_logs_create. rewrite Hlog.
    eexists. reflexivity.
Qed.

(** After a transfer the source entry holds its former quantity less [q]. *)
Lemma transferred_source (E : env) (source : Stock.t) (found : option Stock.t)
    (p from to : string) (q : Z) (l : list Stock.t) :
  find (where_stock p from) l = Some source ->
  exists s',
    find (where_stock p from) (transferred E source found p to q l) = Some s'
    /\ Stock.quantity s' = Stock.quantity source - q.
Proof.
  intros Hsrc. unfold transferred.
  assert (Hs1 : exists s1,
             find (where_stock p from)
                  match found with
                  | Some destination =>
                      map (fun x => if stock_key (Stock.stock_id destination) x
                                    then set_quantity
                                           (Stock.quantity destination + q)
                                           (now E) x
                                    else x) l
                  | None =>
                      l ++ [{| Stock.stock_id := new_stock_id E;
                               Stock.product_id := p;
                               Stock.warehouse_id := to;
                               Stock.quantity := q;
                               Stock.unit_price := Stock.unit_price source;
                               Stock.last_updated := now E;
                               Stock.approvisionnement_id := None |}]
                  end = Some s1
             /\ Stock.stock_id s1 = Stock.stock_id source).
  { destruct found as [destination|].
    - rewrite (find_map_if _ _ _ (set_quantity_keeps_key p from _ _) _ _ Hsrc).
      eexists. split; [reflexivity|].
      now destruct (stock_key (Stock.stock_id destination) source).
    - rewrite (find_app_old _ _ _ _ Hsrc). eauto. }
  destruct Hs1 as (s1 & Hs1 & Hk).
  rewrite (find_map_if _ _ _ (set_quantity_keeps_key p from _ _) _ _ Hs1).
  unfold stock_key. rewrite Hk, String.eqb_refl.
  eexists. split; reflexivity.
Qed.

(** After a transfer between two different warehouses, with sound primary
    keys, the destination entry holds its former quantity plus [q], or is
    a new entry with quantity [q] at the source's unit price. *)
Lemma transferred_destination (E : env) (source : Stock.t)
    (p from to : string) (q : Z) (l : list Stock.t) :
  from <> to ->
  find (where_stock p from) l = Some source ->
  distinct (new_stock_id E :: map Stock.stock_id l) = true ->
  exists t',
    find (where_stock p to)
         (transferred E source (find (where_stock p to) l) p to q l) = Some t'
    /\ match find (where_stock p to) l with
       | Some destination =>
           Stock.quantity t' = Stock.quantity destination + q
       | None =>
           Stock.quantity t' = q
           /\ Stock.unit_price t' = Stock.unit_price source
       end.
Proof.
  intros Hft Hsrc Hkeys. unfold transferred.
  destruct (find_some _ _ Hsrc) as [Hin_src Hw_src].
  destruct (find (where_stock p to) l) as [destination|] eqn:Hdst.
  - destruct (find_some _ _ Hdst) as [Hin_dst Hw_dst].
    assert (Hdiff : stock_key (Stock.stock_id source) destination = false).
    { unfold stock_key. apply String.eqb_neq. intros Hk.
      assert (Heq : destination = source).
      { apply (distinct_keys l); auto.
        simpl in Hkeys. apply andb_prop in Hkeys. tauto. }
      subst destination. unfold where_stock in Hw_src, Hw_dst.
      apply andb_prop in Hw_src, Hw_dst.
      destruct Hw_src as [_ H1], Hw_dst as [_ H2].
      apply String.eqb_eq in H1, H2. congruence. }
    pose proof (find_map_if (where_stock p to)
                  (stock_key (Stock.stock_id destination))
                  (set_quantity (Stock.quantity destination + q) (now E))
                  (set_quantity_keeps_key p to _ _) _ _ Hdst) as H1.
    assert (Hself : stock_key (Stock.stock_id destination) destination = true)
      by apply String.eqb_refl.
    rewrite Hself in H1.
    rewrite (find_map_if _ _ _ (set_quantity_keeps_key p to _ _) _ _ H1).
    change (stock_key (Stock.stock_id source)
              (set_quantity (Stock.quantity destination + q) (now E) destination))
      with (stock_key (Stock.stock_id source) destination).
    rewrite Hdiff. eexists. split; reflexivity.
  - set (new := {| Stock.stock_id := new_stock_id E |}).
    assert (Hnew : find (where_stock p to) (l ++ [new]) = Some new).
    { apply find_app_new; [exact Hdst|].
      unfold where_stock. cbn. now rewrite !String.eqb_refl. }
    rewrite (find_map_if _ _ _ (set_quantity_keeps_key p to _ _) _ _ Hnew).
    assert (Hdiff : stock_key (Stock.stock_id source) new = false).
    { unfold stock_key. cbn. apply String.eqb_neq. intros Hk.
      apply (distinct_fresh _ _ Hkeys). rewrite Hk.
      now apply in_map. }
    rewrite Hdiff. eexists. split; [reflexivity|]. split; reflexivity.
Qed.

(** X26. A transfer of a non-zero quantity [q] of a product between the
    warehouses [from] and [to]: it is answered 400 INVALID_TRANSFER when
    the two are the same warehouse; with no entry of the product at the
    source it is answered 500 STOCK_TRANSFER_FAILED with the message of the
    missing source; with less than [q] at the source it is answered 500
    STOCK_TRANSFER_FAILED with the message of the insufficient stock; in
    all three cases the store is left as it was. Otherwise, the audit
    table accepting the write and [stock_id] being a sound key, the source
    entry loses [q], the destination entry gains [q] or is created with
    [q] at the source's unit price, and exactly one audit record is added,
    naming both warehouses and the quantity. *)
Theorem transfer_spec (E : env) (u : user) (data : StockData) (d : db)
    (p from to : string) (q : Z) :
  product_id data = Some p -> p <> "" ->
  from_warehouse_id data = Some from -> from <> "" ->
  to_warehouse_id data = Some to -> to <> "" ->
  quantity data = Some q -> q <> 0 ->
  (from = to ->
   handleStockTransfer E u data d
   = (Failure 400 "Source and destination warehouses must be different"
              "INVALID_TRANSFER", d))
  /\ (from <> to ->
      find (entry_of p from) (stocks d) = None ->
      handleStockTransfer E u data d
      = (Failure 500 "Source stock not found" "STOCK_TRANSFER_FAILED", d))
  /\ (from <> to ->
      forall source,
        find (entry_of p from) (stocks d) = Some source ->
        Stock.quantity source < q ->
        handleStockTransfer E u data d
        = (Failure 500 "Insufficient stock in source warehouse"
                   "STOCK_TRANSFER_FAILED", d))
  /\ (from <> to ->
      forall source,
        find (entry_of p from) (stocks d) = Some source ->
        q <= Stock.quantity source ->
        log_failure E = None ->
        stock_keys_unique E d = true ->
        exists result message d' s' t',
          handleStockTransfer E u data d = (Success 200 result message, d')
          /\ find (entry_of p from) (stocks d') = Some s'
          /\ Stock.quantity s' = Stock.quantity source - q
          /\ find (entry_of p to) (stocks d') = Some t'
          /\ match find (entry_of p to) (stocks d) with
             | Some destination =>
                 Stock.quantity t' = Stock.quantity destination + q
             | None =>
                 Stock.quantity t' = q
                 /\ Stock.unit_price t' = Stock.unit_price source
             end
          /\ transaction_logs d' =
             transaction_logs d ++
               [{| Log.entity_type := "stocks";
                   Log.entity_id := Stock.stock_id source;
                   Log.action := "UPDATE";
                   Log.user_id := id u;
                   Log.details :=
                     StockTransferDetails p from to q
                       (or_default (reason data) "Manual transfer") |}]).
Proof.
  intros Hp Hpn Hfrom Hfn Hto Htn Hq Hqn.
  change (entry_of p from) with (where_stock p from).
  change (entry_of p to) with (where_stock p to).
  assert (Hguard : missing_string (product_id data)
                   || missing_string (from_warehouse_id data)
                   || missing_string (to_warehouse_id data)
                   || missing_number (quantity data) = false).
  { rewrite Hp, Hfrom, Hto, Hq, !present_string, present_number by assumption.
    reflexivity. }
  unfold handleStockTransfer. rewrite Hguard, Hfrom, Hto. cbn [str].
  split; [|split; [|split]].
  - intros ->. now rewrite String.eqb_refl.
  - intros Hft Hsrc. apply String.eqb_neq in Hft. rewrite Hft.
    unfold transaction, transfer_transaction.
    rewrite bind_findFirst_include, Hp, Hfrom. cbn [str]. now rewrite Hsrc.
  - intros Hft source Hsrc Hlt. apply String.eqb_neq in Hft. rewrite Hft.
    unfold transaction, transfer_transaction.
    rewrite bind_findFirst_include, Hp, Hfrom, Hq. cbn [str num].
    rewrite Hsrc. cbn [option_map]. apply Z.ltb_lt in Hlt. now rewrite Hlt.
  - intros Hft source Hsrc Hle Hlog Hkeys.
    pose proof Hft as Hft'. apply String.eqb_neq in Hft'. rewrite Hft'.
    destruct (transfer_commits E u data d p from to q source
                Hp Hfrom Hto Hq Hsrc Hle Hlog) as [result ->].
    destruct (transferred_source E source (find (where_stock p to) (stocks d))
                p from to q (stocks d) Hsrc) as (s' & Hs' & Hqs).
    destruct (transferred_destination E source p from to q (stocks d)
                Hft Hsrc Hkeys) as (t' & Ht' & Hqt).
    do 3 eexists. exists s', t'.
    split; [reflexivity|]. cbn [stocks set_transaction_logs set_stocks
                                  transaction_logs].
    repeat split; assumption.
Qed.

Lemma transfer_spec_witness :
  (exists result message d' s' t',
      handleStockTransfer Sample.calm Sample.manager
        (Sample.move Ids.productA Ids.W1 Ids.W2 3) Sample.assorted
      = (Success 200 result message, d')
      /\ find (entry_of Ids.productA Ids.W1) (stocks d') = Some s'
      /\ Stock.quantity s' = 10 - 3
      /\ find (entry_of Ids.productA Ids.W2) (stocks d') = Some t'
      /\ Stock.quantity t' = 4 + 3
      /\ transaction_logs d' =
         [{| Log.entity_type := "stocks"; Log.entity_id := "s2";
             Log.action := "UPDATE"; Log.user_id := "sm1";
             Log.details :=
               StockTransferDetails Ids.productA Ids.W1 Ids.W2 3
                 "Manual transfer" |}])
  /\ (exists result message d' s' t',
        handleStockTransfer Sample.calm Sample.manager
          (Sample.move Ids.productA Ids.W1 Ids.absent 10) Sample.assorted
        = (Success 200 result message, d')
        /\ find (entry_of Ids.productA Ids.W1) (stocks d') = Some s'
        /\ Stock.quantity s' = 10 - 10
        /\ find (entry_of Ids.productA Ids.absent) (stocks d') = Some t'
        /\ (Stock.quantity t' = 10 /\ Stock.unit_price t' = 5)
        /\ transaction_logs d' =
           [{| Log.entity_type := "stocks"; Log.entity_id := "s2";
               Log.action := "UPDATE"; Log.user_id := "sm1";
               Log.details :=
                 StockTransferDetails Ids.productA Ids.W1 Ids.absent 10
                   "Manual transfer" |}]).
Proof.
  assert (Hs : forall x y : string, (x =? y)%string = false -> x <> y)
    by (intros x y H; now apply String.eqb_neq).
  split.
  - assert (Hz : (3 : Z) <> 0) by discriminate.
    assert (Hle : 3 <= 10) by discriminate.
    exact (proj2 (proj2 (proj2
      (transfer_spec Sample.calm Sample.manager
         (Sample.move Ids.productA Ids.W1 Ids.W2 3) Sample.assorted
         Ids.productA Ids.W1 Ids.W2 3
         eq_refl (Hs Ids.productA "" eq_refl) eq_refl (Hs Ids.W1 "" eq_refl)
         eq_refl (Hs Ids.W2 "" eq_refl) eq_refl Hz)))
      (Hs Ids.W1 Ids.W2 eq_refl)
      (Sample.stock "s2" Ids.productA Ids.W1 10 5) eq_refl Hle eq_refl
      eq_refl).
  - assert (Hz : (10 : Z) <> 0) by discriminate.
    assert (Hle : 10 <= 10) by (apply Z.le_refl).
    exact (proj2 (proj2 (proj2
      (transfer_spec Sample.calm Sample.manager
         (Sample.move Ids.productA Ids.W1 Ids.absent 10) Sample.assorted
         Ids.productA Ids.W1 Ids.absent 10
         eq_refl (Hs Ids.productA "" eq_refl) eq_refl (Hs Ids.W1 "" eq_refl)
         eq_refl (Hs Ids.absent "" eq_refl) eq_refl Hz)))
      (Hs Ids.W1 Ids.absent eq_refl)
      (Sample.stock "s2" Ids.productA Ids.W1 10 5) eq_refl Hle eq_refl
      eq_refl).
Defined.


(** C9. An alert on a product with a positive threshold reads the first
    ledger row of the product, whatever its warehouse. When that row's
    quantity is at most the threshold, the answer says is_low_stock = true,
    one notification addressed to the caller is added and one audit record
    of the alert is added. When the quantity exceeds the threshold, the
    answer says is_low_stock = false and the store is left as it was. *)
Theorem alert_spec (E : env) (u : user) (data : StockData) (d : db)
    (p : string) (t : Z) (current : Stock.t) :
  product_id data = Some p -> p <> "" ->
  threshold data = Some t -> 0 < t ->
  find (row_of_product p) (stocks d) = Some current ->
  (Stock.quantity current <= t ->
   notification_failure E = None ->
   log_failure E = None ->
   exists message n d',
     handleStockAlert E u data d
     = (Success 200
          (AlertData (products d (Stock.product_id current))
             (Stock.quantity current) t true true) message, d')
     /\ notifications d' = notifications d ++ [n]
     /\ Notification.user_id n = id u
     /\ transaction_logs d' =
        transaction_logs d ++
          [{| Log.entity_type := "stocks";
              Log.entity_id := Stock.stock_id current;
              Log.action := "CREATE";
              Log.user_id := id u;
              Log.details :=
                LowStockAlertDetails p (Stock.quantity current) t true |}]
     /\ stocks d' = stocks d)
  /\ (t < Stock.quantity current ->
      exists message,
        handleStockAlert E u data d
        = (Success 200
             (AlertData (products d (Stock.product_id current))
                (Stock.quantity current) t false false) message, d)).
Proof.
  intros Hp Hpn Ht Htpos Hcur.
  change (row_of_product p) with (where_product p) in Hcur.
  assert (Hguard : missing_string (product_id data)
                   || missing_number (threshold data) = false).
  { rewrite Hp, Ht, present_string, present_number by (assumption || lia).
    reflexivity. }
  unfold handleStockAlert. rewrite Hguard. unfold alert_try.
  rewrite bind_findFirst_include, Hp, Ht. cbn [str num].
  rewrite Hcur. cbn [option_map].
  split.
  - intros Hlow Hn Hl. apply Z.leb_le in Hlow. rewrite Hlow.
    unfold bind, Prisma.notifications_create, Prisma.transaction_logs_create.
    rewrite Hn, Hl. cbn.
    do 3 eexists. split; [reflexivity|]. repeat split.
  - intros Hhigh. apply Z.leb_gt in Hhigh. rewrite Hhigh.
    eexists. reflexivity.
Qed.

Lemma alert_spec_witness :
  (exists message n d',
      handleStockAlert Sample.calm Sample.manager (Sample.watch Ids.productA 10)
        (Sample.watched_among 8)
      = (Success 200
           (AlertData (Sample.catalogue Ids.productA) 8 10 true true) message, d')
      /\ notifications d' = [n]
      /\ Notification.user_id n = "sm1"
      /\ transaction_logs d' =
         [{| Log.entity_type := "stocks"; Log.entity_id := "s1";
             Log.action := "CREATE"; Log.user_id := "sm1";
             Log.details := LowStockAlertDetails Ids.productA 8 10 true |}]
      /\ stocks d' = stocks (Sample.watched_among 8))
  /\ exists message,
       handleStockAlert Sample.calm Sample.manager (Sample.watch Ids.productA 10)
         (Sample.watched_among 12)
       = (Success 200
            (AlertData (Sample.catalogue Ids.productA) 12 10 false false) message,
          Sample.watched_among 12).
Proof.
  assert (Hs : forall x y : string, (x =? y)%string = false -> x <> y)
    by (intros x y H; now apply String.eqb_neq).
  assert (Hpos : 0 < 10) by reflexivity.
  split.
  - assert (Hlow : 8 <= 10) by discriminate.
    exact (proj1
      (alert_spec Sample.calm Sample.manager (Sample.watch Ids.productA 10)
         (Sample.watched_among 8) Ids.productA 10
         (Sample.stock "s1" Ids.productA Ids.W2 8 5)
         eq_refl (Hs Ids.productA "" eq_refl) eq_refl Hpos eq_refl)
      Hlow eq_refl eq_refl).
  - assert (Hhigh : 10 < 12) by reflexivity.
    exact (proj2
      (alert_spec Sample.calm Sample.manager (Sample.watch Ids.productA 10)
         (Sample.watched_among 12) Ids.productA 10
         (Sample.stock "s1" Ids.productA Ids.W2 12 5)
         eq_refl (Hs Ids.productA "" eq_refl) eq_refl Hpos eq_refl)
      Hhigh).
Defined.

(** An adjustment commits its ledger write together with its audit record,
    or nothing. *)
Lemma adjustment_atomic (E : env) (u : user) (data : StockData) (d : db) :
  logged_or_untouched (handleStockAdjustment E u data d) d.
Proof.
  unfold logged_or_untouched, handleStockAdjustment.
  destruct (missing_string (product_id data)
            || missing_string (warehouse_id data)
            || is_undefined (quantity data)); [reflexivity|].
  unfold transaction.
  destruct (adjustment_transaction E u data d) as [[r|e] d1] eqn:Hrun;
    [|reflexivity].
  revert Hrun. unfold adjustment_transaction.
  rewrite bind_findFirst_include.
  destruct (find _ (stocks d)) as [current|]; cbn [option_map];
    [|discriminate].
  destruct (_ <? 0); [discriminate|].
  unfold bind, Prisma.stocks_update, Prisma.transaction_logs_create.
  destruct (find _ (stocks d)); [|discriminate].
  destruct (log_failure E); [discriminate|].
  intros [= _ <-]. eexists. reflexivity.
Qed.

(** A transfer commits its two ledger writes together with its audit
    record, or nothing. *)
Lemma transfer_atomic (E : env) (u : user) (data : StockData) (d : db) :
  logged_or_untouched (handleStockTransfer E u data d) d.
Proof.
  unfold logged_or_untouched, handleStockTransfer.
  destruct (missing_string (product_id data)
            || missing_string (from_warehouse_id data)
            || missing_string (to_warehouse_id data)
            || missing_number (quantity data)); [reflexivity|].
  destruct (str (from_warehouse_id data) =? str (to_warehouse_id data))%string;
    [reflexivity|].
  unfold transaction.
  destruct (transfer_transaction E u data d) as [[r|e] d1] eqn:Hrun;
    [|reflexivity].
  revert Hrun. unfold transfer_transaction.
  rewrite bind_findFirst_include.
  destruct (find _ (stocks d)) as [source|]; cbn [option_map];
    [|discriminate].
  destruct (_ <? _); [discriminate|].
  unfold bind at 1. unfold Prisma.stocks_findFirst at 1.
  destruct (find _ (stocks d)) as [destination|].
  - unfold bind at 1. unfold Prisma.stocks_update at 1.
    destruct (find _ (stocks d)); [|discriminate].
    unfold bind at 1. unfold Prisma.stocks_update at 1.
    cbn [stocks set_stocks].
    destruct (find _ _); [|discriminate].
    unfold bind, Prisma.transaction_logs_create.
    destruct (log_failure E); [discriminate|].
    intros [= _ <-]. eexists. reflexivity.
  - unfold bind at 1. unfold Prisma.stocks_create at 1.
    unfold bind at 1. unfold Prisma.stocks_update at 1.
    cbn [stocks set_stocks].
    destruct (find _ _); [|discriminate].
    unfold bind, Prisma.transaction_logs_create.
    destruct (log_failure E); [discriminate|].
    intros [= _ <-]. eexists. reflexivity.
Qed.
End StockFacts.

(** ** Audit records and the atomic unit *)

(** C5, as the code has it. An adjustment and a transfer write their audit
    record inside the transaction that mutates the ledger: either the
    mutation and exactly one audit record are committed, or the store is
    left as it was. A receipt and an order write their audit record after
    their transaction has committed: when the audit sink refuses the write,
    the caller is answered 500, the transaction's ledger mutation stays
    committed, and the audit table is as it was before the request. *)
Theorem audit_record_and_ledger_mutation :
  (forall E u data d,
      logged_or_untouched (StockManagement.handleStockAdjustment E u data d) d)
  /\ (forall E u data d,
        logged_or_untouched (StockManagement.handleStockTransfer E u data d) d)
  /\ (forall E req d u a e,
        method req = "POST" ->
        x_user_data req = Some (UserObject u) ->
        Workflow.workflowActionSchema E (body req) = true ->
        Workflow.action_of (body req) = Workflow.receive_stock ->
        find (by_id (Workflow.approvisionnement_id (body req)))
             (approvisionnements d) = Some a ->
        role u = "stock_manager" \/ role u = "admin" ->
        Approvisionnement.status a = Approvisionnement.validated_bd ->
        log_failure E = Some e ->
        exists d' s',
          Workflow.handler E req d
          = (Failure 500 "Internal server error" "INTERNAL_SERVER_ERROR", d')
          /\ find (ledger_key a) (stocks d') = Some s'
          /\ Stock.quantity s' =
             match find (ledger_key a) (stocks d) with
             | Some s => Stock.quantity s + Approvisionnement.quantity a
             | None => Approvisionnement.quantity a
             end
          /\ transaction_logs d' = transaction_logs d)
  /\ (forall E req d u result d1 e,
        method req = "POST" ->
        x_user_data req = Some (UserObject u) ->
        OrderProcess.orderProcessingSchema E (body req) = true ->
        role u = "client" \/ role u = "admin" ->
        transaction (OrderProcess.order_transaction E (body req)) d
        = (Ret result, d1) ->
        log_failure E = Some e ->
        OrderProcess.handler E req d
        = (Failure 500 e "INTERNAL_SERVER_ERROR", d1)
        /\ transaction_logs d1 = transaction_logs d).
Proof.
  split; [|split; [|split]].
  - apply StockFacts.adjustment_atomic.
  - apply StockFacts.transfer_atomic.
  - intros E req d u a e Hm Hu Hs Ha Hf Hr Hst Hlog.
    rewrite (WorkflowFacts.receive_stock_run E req d u a Hm Hu Hs Ha Hf Hr Hst).
    rewrite Hlog.
    destruct (WorkflowFacts.received_store_ledger E u a d) as (s' & Hs' & _ & Hq).
    exists (received_store E u a d), s'.
    split; [reflexivity|]. split; [exact Hs'|]. split; [exact Hq|].
    apply WorkflowFacts.received_store_sinks.
  - intros E req d u result d1 e Hm Hu Hs Hr Hrun Hlog.
    rewrite (OrderFacts.order_run E req d u Hm Hu Hs Hr), Hrun.
    split.
    + unfold after_order_commit. destruct result as [[[o its] dl] pay].
      now rewrite Hlog.
    + pose proof (OrderFacts.order_transaction_logs E (body req) d) as H.
      now rewrite Hrun in H.
Qed.

Lemma audit_record_and_ledger_mutation_witness :
  exists d' s',
    Workflow.handler Sample.audit_down Sample.receive_request Sample.receipt_store
    = (Failure 500 "Internal server error" "INTERNAL_SERVER_ERROR", d')
    /\ find (ledger_key Sample.validated_supply) (stocks d') = Some s'
    /\ Stock.quantity s' = 10 + 40
    /\ transaction_logs d' = [].
Proof.
  exact (proj1 (proj2 (proj2 audit_record_and_ledger_mutation))
           Sample.audit_down Sample.receive_request Sample.receipt_store
           Sample.manager Sample.validated_supply "audit store unavailable"
           eq_refl eq_refl eq_refl eq_refl eq_refl (or_introl eq_refl)
           eq_refl eq_refl).
Defined.

(** C5, as stated, fails: the audit sink refuses the record of a receipt of
    40 units. The ledger entry goes from 10 to 50 and stays there, the
    approvisionnement is received, the payment is recorded, and the audit
    table holds no record of it; likewise the order of 3 units whose audit
    record is refused leaves the ledger at 2 and no audit record. *)
Lemma ledger_mutation_without_audit_record :
  map Stock.quantity (stocks Sample.receipt_store) = [10]
  /\ map Stock.quantity (stocks Sample.unlogged_receipt) = [50]
  /\ map Approvisionnement.status (approvisionnements Sample.unlogged_receipt)
     = [Approvisionnement.received]
  /\ List.length (payments Sample.unlogged_receipt) = 1%nat
  /\ transaction_logs Sample.unlogged_receipt = []
  /\ map Stock.quantity (stocks Sample.one_product) = [5]
  /\ map Stock.quantity (stocks Sample.after_unlogged_order) = [2]
  /\ transaction_logs Sample.after_unlogged_order = [].
Proof. repeat split. Qed.

(** * Further properties *)

(** ** The workflow endpoint as a whole *)

Module WorkflowWhole.
Import Workflow.

Lemma primary_store_sinks (E : env) (u : user) (a : Approvisionnement.t)
    (act : action) (d : db) :
  transaction_logs (primary_store E u a act d) = transaction_logs d
  /\ notifications (primary_store E u a act d) = notifications d.
Proof.
  destruct act; try (split; reflexivity).
  apply WorkflowFacts.received_store_sinks.
Qed.

Lemma found_by_own_id (aid : string) (a : Approvisionnement.t)
    (l : list Approvisionnement.t) :
  find (by_id aid) l = Some a ->
  Approvisionnement.approvisionnement_id a = aid.
Proof.
  intros H. apply find_some in H. destruct H as [_ H].
  now apply String.eqb_eq.
Qed.

(** A request that is not admissible is refused before anything is
    written, and with a status other than 500 unless reading the caller
    from the header raised an exception. *)
Lemma handler_refuses (E : env) (req : request WorkflowData) (d : db) :
  admissible E req d = None ->
  exists st e c,
    handler E req d = (Failure st e c, d)
    /\ (header_read req -> st <> 500%nat).
Proof.
  intros Hadm.
  destruct (x_user_data req) as [[e|e|u]|] eqn:Hu.
  1, 2: destruct (HeaderFacts.workflow_unread E req d e)
          as (st & er & c & Hr); [auto|];
        exists st, er, c; split; [exact Hr|];
        unfold header_read; rewrite Hu; contradiction.
  all: revert Hadm; unfold admissible, handler, handler_try; rewrite Hu.
  2: { destruct (method req =? "POST")%string; simpl;
         intros _; do 3 eexists; split;
         try reflexivity; intros _; discriminate. }
  destruct (method req =? "POST")%string; simpl;
    [|intros _; do 3 eexists; split; [reflexivity|intros _; discriminate]].
  destruct (workflowActionSchema E (body req)); simpl;
    [|intros _; do 3 eexists; split; [reflexivity|intros _; discriminate]].
  rewrite WorkflowSinks.bind_findUnique.
  destruct (find (by_id (approvisionnement_id (body req))) (approvisionnements d))
    as [a|]; cbn [option_map];
    [|intros _; do 3 eexists; split; [reflexivity|intros _; discriminate]].
  destruct (action_of (body req)); cbn [actor_role required_status];
    [ unfold handleBusinessDeveloperValidation
    | unfold handleBusinessDeveloperRejection
    | unfold handleStockReceival
    | unfold handleStockRejection ];
    (destruct (is_role u _); cbn [negb andb orb];
     [|destruct (is_role u "admin"); cbn [negb andb orb]]);
    try (intros _; do 3 eexists; split; [reflexivity|intros _; discriminate]);
    (destruct (Approvisionnement.status_eqb _ _); cbn [negb];
     [discriminate
     |intros _; do 3 eexists; split; [reflexivity|intros _; discriminate]]).
Qed.

(** An admissible request makes its primary writes, then turns to the two
    sinks. *)
Lemma handler_commits (E : env) (req : request WorkflowData) (d : db)
    (u : user) (a : Approvisionnement.t) :
  admissible E req d = Some (u, a) ->
  handler E req d = workflow_outcome E u a (body req) d.
Proof.
  unfold admissible.
  destruct (method req =? "POST")%string eqn:Hm; simpl; [|discriminate].
  apply String.eqb_eq in Hm.
  destruct (x_user_data req) as [[e|e|u0]|] eqn:Hu; try discriminate.
  destruct (workflowActionSchema E (body req)) eqn:Hs; simpl; [|discriminate].
  destruct (find (by_id (approvisionnement_id (body req))) (approvisionnements d))
    as [a0|] eqn:Hf; [|discriminate].
  destruct (_ && _) eqn:Hok; [|discriminate].
  intros [= -> ->].
  apply andb_prop in Hok. destruct Hok as [Hrole Hst].
  apply WorkflowFacts.status_eqb_eq in Hst.
  assert (Hr : role u = actor_role (action_of (body req)) \/ role u = "admin").
  { apply orb_prop in Hrole. unfold is_role in Hrole.
    destruct Hrole as [H|H]; apply String.eqb_eq in H; auto. }
  pose proof (found_by_own_id _ _ _ Hf) as Hid.
  destruct (action_of (body req)) eqn:Ha; cbn [actor_role required_status] in *.
  3:{ rewrite (WorkflowFacts.receive_stock_run E req d u a Hm Hu Hs Ha Hf Hr Hst).
      unfold workflow_outcome, action_log, action_notice. rewrite Ha.
      destruct (log_failure E), (notification_failure E); reflexivity. }
  all: unfold handler, handler_try; rewrite Hm, Hu, Hs; simpl;
    rewrite WorkflowSinks.bind_findUnique, Hf; cbn [option_map]; rewrite Ha;
    try unfold handleBusinessDeveloperValidation;
    try unfold handleBusinessDeveloperRejection;
    try unfold handleStockRejection;
    rewrite (WorkflowFacts.allowed_role _ _ _ Hr), Hst; cbn [negb
      Approvisionnement.status_eqb];
    unfold bind, Prisma.approvisionnements_update,
      Prisma.transaction_logs_create, Prisma.notifications_create;
    unfold workflow_outcome, action_log, action_notice, primary_store;
    rewrite Ha; unfold by_id in Hf |- *;
    rewrite Hid, Hf;
    destruct (log_failure E), (notification_failure E); reflexivity.
Qed.

Lemma admissible_intro (E : env) (req : request WorkflowData) (d : db)
    (u : user) (a : Approvisionnement.t) :
  method req = "POST" ->
  x_user_data req = Some (UserObject u) ->
  workflowActionSchema E (body req) = true ->
  find (by_id (approvisionnement_id (body req))) (approvisionnements d) = Some a ->
  role u = actor_role (action_of (body req)) \/ role u = "admin" ->
  Approvisionnement.status a = required_status (action_of (body req)) ->
  admissible E req d = Some (u, a).
Proof.
  intros Hm Hu Hs Hf Hr Hst. unfold admissible.
  rewrite Hm, Hu, Hs, Hf. simpl.
  assert (Hrole : is_role u (actor_role (action_of (body req)))
                  || is_role u "admin" = true).
  { unfold is_role. destruct Hr as [-> | ->]; rewrite String.eqb_refl;
      [reflexivity|apply orb_true_r]. }
  rewrite Hrole, Hst.
  now destruct (required_status (action_of (body req))).
Qed.

Lemma primary_store_approvisionnements (E : env) (u : user)
    (a : Approvisionnement.t) (act : action) (d : db) :
  approvisionnements (primary_store E u a act d)
  = map (fun x => if by_id (Approvisionnement.approvisionnement_id a) x
                  then decided E u act x else x)
        (approvisionnements d).
Proof.
  destruct act; try reflexivity.
  unfold primary_store, received_store.
  now destruct (find (ledger_key a) (stocks d)).
Qed.

Lemma primary_store_orders (E : env) (u : user) (a : Approvisionnement.t)
    (act : action) (d : db) :
  orders (primary_store E u a act d) = orders d
  /\ order_items (primary_store E u a act d) = order_items d
  /\ deliveries (primary_store E u a act d) = deliveries d.
Proof.
  destruct act; try (repeat split; reflexivity).
  unfold primary_store, received_store.
  destruct (find (ledger_key a) (stocks d)); repeat split.
Qed.

Lemma primary_store_ledger (E : env) (u : user) (a : Approvisionnement.t)
    (act : action) (d : db) :
  act <> receive_stock ->
  stocks (primary_store E u a act d) = stocks d
  /\ payments (primary_store E u a act d) = payments d.
Proof. destruct act; intros H; try (split; reflexivity). congruence. Qed.

(** The tables of the store the endpoint leaves, read off
    [workflow_outcome]. *)
Lemma outcome_tables (E : env) (u : user) (a : Approvisionnement.t)
    (data : WorkflowData) (d : db) :
  let d' := snd (workflow_outcome E u a data d) in
  let d1 := primary_store E u a (action_of data) d in
  approvisionnements d' = approvisionnements d1
  /\ stocks d' = stocks d1
  /\ payments d' = payments d1
  /\ orders d' = orders d1
  /\ order_items d' = order_items d1
  /\ deliveries d' = deliveries d1.
Proof.
  unfold workflow_outcome.
  destruct (log_failure E), (notification_failure E); repeat split.
Qed.

(** X1. A validate_bd request by a business developer or an admin on a
    pending approvisionnement, with working sinks, is answered 200; the row
    becomes validated_bd with the caller as business developer; the ledger
    and the payments are untouched; one audit record of the transition and
    one notification are added, the notification going to the row's stock
    manager or, when it has none, to the placeholder stock-manager-id. *)
Theorem validate_bd_effect (E : env) (req : request WorkflowData) (d : db)
    (u : user) (a : Approvisionnement.t) :
  method req = "POST" ->
  x_user_data req = Some (UserObject u) ->
  workflowActionSchema E (body req) = true ->
  action_of (body req) = validate_bd ->
  find (by_id (approvisionnement_id (body req))) (approvisionnements d) = Some a ->
  role u = "business_developer" \/ role u = "admin" ->
  Approvisionnement.status a = Approvisionnement.pending ->
  log_failure E = None ->
  notification_failure E = None ->
  exists a' n d',
    handler E req d
    = (Success 200 (ApprovisionnementData a')
         [Str "Approvisionnement validated successfully by Business Developer"],
       d')
    /\ find (by_id (approvisionnement_id (body req))) (approvisionnements d')
       = Some a'
    /\ Approvisionnement.status a' = Approvisionnement.validated_bd
    /\ Approvisionnement.business_developer_id a' = Some (id u)
    /\ Approvisionnement.stock_manager_id a' = Approvisionnement.stock_manager_id a
    /\ Approvisionnement.quantity a' = Approvisionnement.quantity a
    /\ stocks d' = stocks d
    /\ payments d' = payments d
    /\ transaction_logs d' =
       transaction_logs d ++
         [{| Log.entity_type := "approvisionnements";
             Log.entity_id := Approvisionnement.approvisionnement_id a;
             Log.action := "UPDATE";
             Log.user_id := id u;
             Log.details :=
               WorkflowDetails "validate_bd" Approvisionnement.pending
                 Approvisionnement.validated_bd None (notes (body req)) |}]
    /\ notifications d' = notifications d ++ [n]
    /\ Notification.user_id n
       = or_default (Approvisionnement.stock_manager_id a) "stock-manager-id".
Proof.
  intros Hm Hu Hs Ha Hf Hr Hst Hl Hn.
  assert (Hadm : admissible E req d = Some (u, a)).
  { apply admissible_intro; auto; rewrite Ha; assumption. }
  rewrite (handler_commits E req d u a Hadm).
  unfold workflow_outcome, action_log, action_notice. rewrite Hl, Hn, Ha.
  do 3 eexists. split; [reflexivity|].
  cbn [approvisionnements stocks payments transaction_logs notifications
       set_notifications set_transaction_logs set_approvisionnements
       primary_store].
  rewrite (find_map_if _ _ _ (fun x => eq_refl
             : by_id _ (decided E u validate_bd x) = by_id _ x) _ _ Hf).
  unfold by_id at 1. rewrite String.eqb_refl.
  unfold workflow_log. rewrite Hst. repeat split.
Qed.

Lemma validate_bd_effect_witness :
  exists a' n d',
    handler Sample.calm Sample.validate_request Sample.pending_store
    = (Success 200 (ApprovisionnementData a')
         [Str "Approvisionnement validated successfully by Business Developer"],
       d')
    /\ Approvisionnement.status a' = Approvisionnement.validated_bd
    /\ Approvisionnement.business_developer_id a' = Some "bd1"
    /\ stocks d' = stocks Sample.pending_store
    /\ notifications d' = [n]
    /\ Notification.user_id n = "stock-manager-id".
Proof.
  destruct (validate_bd_effect Sample.calm Sample.validate_request
              Sample.pending_store Sample.developer
              (Sample.supply Approvisionnement.pending)
              eq_refl eq_refl eq_refl eq_refl eq_refl (or_introl eq_refl)
              eq_refl eq_refl eq_refl)
    as (a' & n & d' & H1 & _ & H3 & H4 & _ & _ & H7 & _ & _ & H10 & H11).
  exists a', n, d'. repeat split; assumption.
Defined.

(** X2. A rejection (reject_bd on a pending row by a business developer,
    reject_stock on a validated row by a stock manager, or either by an
    admin), with working sinks, is answered 200; the row becomes rejected
    and records the caller in the column of its role; the ledger and the
    payments are untouched; the supplier is sent the text of the request's
    [notes] field, or "No reason provided" when it is absent or empty: the
    request's [reason] field is not used. *)
Theorem rejection_effect (E : env) (req : request WorkflowData) (d : db)
    (u : user) (a : Approvisionnement.t) :
  method req = "POST" ->
  x_user_data req = Some (UserObject u) ->
  workflowActionSchema E (body req) = true ->
  action_of (body req) = reject_bd \/ action_of (body req) = reject_stock ->
  find (by_id (approvisionnement_id (body req))) (approvisionnements d) = Some a ->
  role u = actor_role (action_of (body req)) \/ role u = "admin" ->
  Approvisionnement.status a = required_status (action_of (body req)) ->
  log_failure E = None ->
  notification_failure E = None ->
  exists a' message intro d',
    handler E req d = (Success 200 (ApprovisionnementData a') message, d')
    /\ find (by_id (approvisionnement_id (body req))) (approvisionnements d')
       = Some a'
    /\ Approvisionnement.status a' = Approvisionnement.rejected
    /\ match action_of (body req) with
       | reject_bd =>
           Approvisionnement.business_developer_id a' = Some (id u)
           /\ Approvisionnement.stock_manager_id a'
              = Approvisionnement.stock_manager_id a
       | _ =>
           Approvisionnement.stock_manager_id a' = Some (id u)
           /\ Approvisionnement.business_developer_id a'
              = Approvisionnement.business_developer_id a
       end
    /\ stocks d' = stocks d
    /\ payments d' = payments d
    /\ notifications d' =
       notifications d ++
         [{| Notification.user_id := Approvisionnement.supplier_id a;
             Notification.type := "email";
             Notification.message :=
               [Str intro;
                Str (or_default (notes (body req)) "No reason provided")];
             Notification.status := "sent" |}].
Proof.
  intros Hm Hu Hs Ha Hf Hr Hst Hl Hn.
  assert (Hadm : admissible E req d = Some (u, a))
    by (apply admissible_intro; auto).
  rewrite (handler_commits E req d u a Hadm).
  unfold workflow_outcome, action_log, action_notice. rewrite Hl, Hn.
  destruct Ha as [Ha | Ha]; rewrite Ha;
    do 4 eexists; (split; [reflexivity|]);
    cbn [approvisionnements stocks payments transaction_logs notifications
         set_notifications set_transaction_logs set_approvisionnements
         primary_store];
    [ rewrite (find_map_if _ _ _ (fun x => eq_refl
                 : by_id _ (decided E u reject_bd x) = by_id _ x) _ _ Hf)
    | rewrite (find_map_if _ _ _ (fun x => eq_refl
                 : by_id _ (decided E u reject_stock x) = by_id _ x) _ _ Hf) ];
    unfold by_id at 1; rewrite String.eqb_refl; repeat split.
Qed.

Lemma rejection_effect_witness :
  exists a' message intro d',
    handler Sample.calm
      (Sample.reject_request Sample.manager reject_stock) Sample.receipt_store
    = (Success 200 (ApprovisionnementData a') message, d')
    /\ Approvisionnement.status a' = Approvisionnement.rejected
    /\ stocks d' = stocks Sample.receipt_store
    /\ notifications d' =
       [{| Notification.user_id := "supplier1";
           Notification.type := "email";
           Notification.message := [Str intro; Str "bruised fruit"];
           Notification.status := "sent" |}].
Proof.
  destruct (rejection_effect Sample.calm
              (Sample.reject_request Sample.manager reject_stock)
              Sample.receipt_store Sample.manager Sample.validated_supply
              eq_refl eq_refl eq_refl (or_intror eq_refl) eq_refl
              (or_introl eq_refl) eq_refl eq_refl eq_refl)
    as (a' & message & intro & d' & H1 & _ & H3 & _ & H5 & _ & H7).
  exists a', message, intro, d'. repeat split; assumption.
Defined.

(** X3. Rejected and received are terminal: a request of any action, by any
    caller, on an approvisionnement in one of these two states is refused
    and leaves the store as it was. The status is other than 500 when the
    header is absent or holds a user object; it is 500 when the request is
    a POST with a well-formed body whose header cannot be read as a caller
    (a text that is not JSON, or the text null). *)
Theorem terminal_states (E : env) (req : request WorkflowData) (d : db)
    (a : Approvisionnement.t) :
  find (by_id (approvisionnement_id (body req))) (approvisionnements d) = Some a ->
  Approvisionnement.status a = Approvisionnement.rejected
  \/ Approvisionnement.status a = Approvisionnement.received ->
  exists st e c,
    handler E req d = (Failure st e c, d)
    /\ (header_read req -> st <> 500%nat)
    /\ (~ header_read req ->
        method req = "POST" ->
        workflowActionSchema E (body req) = true ->
        st = 500%nat).
Proof.
  intros Hf Hst.
  assert (Hadm : admissible E req d = None).
  { unfold admissible. rewrite Hf.
    destruct (negb (method req =? "POST")%string); [reflexivity|].
    destruct (x_user_data req) as [[m|m|u]|]; try reflexivity.
    destruct (negb (workflowActionSchema E (body req))); [reflexivity|].
    destruct Hst as [-> | ->]; destruct (action_of (body req)); cbn;
      now rewrite andb_false_r. }
  destruct (handler_refuses E req d Hadm) as (st & e & c & Hrun & Hread).
  exists st, e, c. split; [exact Hrun|]. split; [exact Hread|].
  intros Hnr Hm Hs.
  assert (H500 : handler E req d = (internal_error, d)).
  { unfold header_read in Hnr.
    destruct (x_user_data req) as [[m|m|u]|] eqn:Hu;
      try (exfalso; apply Hnr; exact I).
    - apply (HeaderFacts.workflow_unread_found E req d m a); auto.
    - apply (HeaderFacts.workflow_unread_found E req d m a); auto. }
  rewrite H500 in Hrun. now injection Hrun as <-.
Qed.

Lemma terminal_states_witness :
  (exists st e c,
      handler Sample.calm (Sample.reject_request Sample.admin reject_stock)
        Sample.received_store_sample
      = (Failure st e c, Sample.received_store_sample) /\ st <> 500%nat)
  /\ (exists e c,
        handler Sample.calm
          (Sample.null_post (Sample.workflow reject_stock Ids.appro1))
          Sample.received_store_sample
        = (Failure 500 e c, Sample.received_store_sample)).
Proof.
  split.
  - destruct (terminal_states Sample.calm
                (Sample.reject_request Sample.admin reject_stock)
                Sample.received_store_sample
                (Sample.supply Approvisionnement.received)
                eq_refl (or_intror eq_refl))
      as (st & e & c & Hrun & Hread & _).
    exists st, e, c. split; [exact Hrun|exact (Hread I)].
  - destruct (terminal_states Sample.calm
                (Sample.null_post (Sample.workflow reject_stock Ids.appro1))
                Sample.received_store_sample
                (Sample.supply Approvisionnement.received)
                eq_refl (or_intror eq_refl))
      as (st & e & c & Hrun & _ & H500).
    exists e, c.
    rewrite <- (H500 (fun H : False => H) eq_refl eq_refl). exact Hrun.
Defined.

(** X4. Whatever the request and however it ends, every row of the
    approvisionnement table is still there under its key afterwards, with
    the same supplier, product, warehouse, quantity and price; it is either
    unchanged or has made one of the four steps pending to validated_bd,
    pending to rejected, validated_bd to received, validated_bd to rejected;
    and a row other than the one the request names is unchanged. *)
Theorem status_steps (E : env) (req : request WorkflowData) (d : db)
    (aid : string) (a : Approvisionnement.t) :
  find (by_id aid) (approvisionnements d) = Some a ->
  exists a',
    find (by_id aid) (approvisionnements (snd (handler E req d))) = Some a'
    /\ (a' = a
        \/ (aid = approvisionnement_id (body req)
            /\ legal_step (Approvisionnement.status a)
                 (Approvisionnement.status a') = true))
    /\ Approvisionnement.supplier_id a' = Approvisionnement.supplier_id a
    /\ Approvisionnement.product_id a' = Approvisionnement.product_id a
    /\ Approvisionnement.warehouse_id a' = Approvisionnement.warehouse_id a
    /\ Approvisionnement.quantity a' = Approvisionnement.quantity a
    /\ Approvisionnement.proposed_price a'
       = Approvisionnement.proposed_price a.
Proof.
  intros Hf.
  destruct (admissible E req d) as [[u a0]|] eqn:Hadm.
  - rewrite (handler_commits E req d u a0 Hadm).
    destruct (outcome_tables E u a0 (body req) d) as (-> & _).
    rewrite primary_store_approvisionnements.
    rewrite (find_map_if _ _ _
               (fun x => match action_of (body req) as act
                           return by_id aid (decided E u act x) = by_id aid x
                         with
                         | validate_bd | reject_bd | receive_stock
                         | reject_stock => eq_refl
                         end) _ _ Hf).
    destruct (by_id (Approvisionnement.approvisionnement_id a0) a) eqn:Hsame.
    + revert Hadm. unfold admissible.
      destruct (negb (method req =? "POST")%string); [discriminate|].
      destruct (x_user_data req) as [[?|?|?]|]; try discriminate.
      destruct (negb (workflowActionSchema E (body req))); [discriminate|].
      destruct (find (by_id (approvisionnement_id (body req)))
                     (approvisionnements d)) as [a1|] eqn:Hf1; [|discriminate].
      destruct (_ && _) eqn:Hok; [|discriminate].
      intros [= _ ->].
      apply andb_prop in Hok. destruct Hok as [_ Hst].
      apply WorkflowFacts.status_eqb_eq in Hst.
      pose proof (found_by_own_id _ _ _ Hf1) as Hid0.
      pose proof (found_by_own_id _ _ _ Hf) as Hid.
      apply String.eqb_eq in Hsame.
      assert (Haid : aid = approvisionnement_id (body req)) by congruence.
      rewrite Haid in Hf. rewrite Hf in Hf1. injection Hf1 as <-.
      eexists. split; [reflexivity|]. split.
      * right. split; [exact Haid|]. rewrite Hst.
        now destruct (action_of (body req)).
      * destruct (action_of (body req)); repeat split.
    + exists a. repeat split. now left.
  - destruct (handler_refuses E req d Hadm) as (st & e & c & -> & _).
    exists a. repeat split; auto.
Qed.

Lemma status_steps_witness :
  exists a',
    find (by_id Ids.appro1)
         (approvisionnements
            (snd (handler Sample.audit_down Sample.receive_request
                    Sample.receipt_store))) = Some a'
    /\ (a' = Sample.validated_supply
        \/ (Ids.appro1 = approvisionnement_id (body Sample.receive_request)
            /\ legal_step (Approvisionnement.status Sample.validated_supply)
                 (Approvisionnement.status a') = true)).
Proof.
  destruct (status_steps Sample.audit_down Sample.receive_request
              Sample.receipt_store Ids.appro1 Sample.validated_supply eq_refl)
    as (a' & H1 & H2 & _).
  exists a'. split; assumption.
Defined.

(** X5. The role gate: a caller who is neither an admin nor of the role the
    action is reserved to (business_developer for validate_bd and
    reject_bd, stock_manager for receive_stock and reject_stock) is answered
    403 INSUFFICIENT_PERMISSIONS on any existing approvisionnement, whatever
    its status, and the store is left as it was. *)
Theorem role_gate (E : env) (req : request WorkflowData) (d : db)
    (u : user) (a : Approvisionnement.t) :
  method req = "POST" ->
  x_user_data req = Some (UserObject u) ->
  workflowActionSchema E (body req) = true ->
  find (by_id (approvisionnement_id (body req))) (approvisionnements d) = Some a ->
  role u <> actor_role (action_of (body req)) ->
  role u <> "admin" ->
  exists e, handler E req d = (Failure 403 e "INSUFFICIENT_PERMISSIONS", d).
Proof.
  intros Hm Hu Hs Hf Hr Ha.
  unfold handler, handler_try. rewrite Hm, Hu, Hs. simpl.
  rewrite WorkflowSinks.bind_findUnique, Hf. cbn [option_map].
  apply String.eqb_neq in Hr, Ha.
  destruct (action_of (body req)); cbn [actor_role] in Hr;
    [ unfold handleBusinessDeveloperValidation
    | unfold handleBusinessDeveloperRejection
    | unfold handleStockReceival
    | unfold handleStockRejection ];
    unfold is_role; rewrite Hr, Ha; cbn; eexists; reflexivity.
Qed.

Lemma role_gate_witness :
  exists e,
    handler Sample.calm
      (Sample.post Sample.developer (Sample.workflow receive_stock Ids.appro1))
      Sample.receipt_store
    = (Failure 403 e "INSUFFICIENT_PERMISSIONS", Sample.receipt_store).
Proof.
  assert (Hs : forall x y : string, (x =? y)%string = false -> x <> y)
    by (intros x y H; now apply String.eqb_neq).
  exact (role_gate Sample.calm
           (Sample.post Sample.developer (Sample.workflow receive_stock Ids.appro1))
           Sample.receipt_store Sample.developer Sample.validated_supply
           eq_refl eq_refl eq_refl eq_refl
           (Hs "business_developer" "stock_manager" eq_refl)
           (Hs "business_developer" "admin" eq_refl)).
Defined.

(** X6. The workflow endpoint answers 500 only when the caller cannot be
    read from the header or a sink refuses a write: when the header is
    absent or holds a user object and both sinks work, no request is
    answered 500. A request whose header is not JSON, or is the text null,
    is refused with the store left as it was. And whatever the header and
    the sinks, a request refused with a status other than 500 leaves the
    store as it was. *)
Theorem causes_of_500 (E : env) (req : request WorkflowData) (d : db) :
  (header_read req ->
   log_failure E = None ->
   notification_failure E = None ->
   forall e c, fst (handler E req d) <> Failure 500 e c)
  /\ (~ header_read req ->
      exists st e c, handler E req d = (Failure st e c, d))
  /\ (forall st e c d',
        handler E req d = (Failure st e c, d') -> st <> 500%nat -> d' = d).
Proof.
  assert (Hunread : ~ header_read req ->
                    exists st e c, handler E req d = (Failure st e c, d)).
  { intros Hnr. unfold header_read in Hnr.
    destruct (x_user_data req) as [[m|m|u]|] eqn:Hu;
      try (exfalso; apply Hnr; exact I);
      apply (HeaderFacts.workflow_unread E req d m); auto. }
  destruct (admissible E req d) as [[u a]|] eqn:Hadm.
  - rewrite (handler_commits E req d u a Hadm) in *.
    unfold workflow_outcome in *.
    split; [|split; [exact Hunread|]].
    + intros _ -> ->. discriminate.
    + intros st e c d'.
      destruct (log_failure E), (notification_failure E);
        intros [= <- _ _ _]; congruence.
  - destruct (handler_refuses E req d Hadm) as (st0 & e0 & c0 & Hrun & Hst).
    rewrite Hrun in *.
    split; [|split; [exact Hunread|]].
    + intros Hread _ _ e c. cbn. specialize (Hst Hread). congruence.
    + now intros st e c d' [= _ _ _ <-].
Qed.

Lemma causes_of_500_witness :
  (forall e c,
      fst (handler Sample.calm Sample.receive_request Sample.receipt_store)
      <> Failure 500 e c)
  /\ (exists st e c,
        handler Sample.calm
          (Sample.garbled_post (Sample.workflow receive_stock Ids.appro1))
          Sample.receipt_store
        = (Failure st e c, Sample.receipt_store)).
Proof.
  split.
  - exact (proj1 (causes_of_500 Sample.calm Sample.receive_request
                    Sample.receipt_store) I eq_refl eq_refl).
  - exact (proj1 (proj2 (causes_of_500 Sample.calm
                           (Sample.garbled_post
                              (Sample.workflow receive_stock Ids.appro1))
                           Sample.receipt_store))
             (fun H : False => H)).
Defined.

(** X7. No workflow request writes to the order, order item or delivery
    tables, and only receive_stock writes to the ledger or to the payments:
    after any other action, however it ends, both are as they were. *)
Theorem ledger_written_by_receipt_only (E : env) (req : request WorkflowData)
    (d : db) :
  let d' := snd (handler E req d) in
  orders d' = orders d
  /\ order_items d' = order_items d
  /\ deliveries d' = deliveries d
  /\ (action_of (body req) <> receive_stock ->
      stocks d' = stocks d /\ payments d' = payments d).
Proof.
  destruct (admissible E req d) as [[u a]|] eqn:Hadm.
  - rewrite (handler_commits E req d u a Hadm).
    destruct (outcome_tables E u a (body req) d)
      as (_ & Hs & Hp & Ho & Hi & Hd).
    destruct (primary_store_orders E u a (action_of (body req)) d)
      as (Ho' & Hi' & Hd').
    cbv zeta. rewrite Hs, Hp, Ho, Hi, Hd, Ho', Hi', Hd'.
    repeat split; now apply primary_store_ledger.
  - destruct (handler_refuses E req d Hadm) as (st & e & c & -> & _).
    repeat split.
Qed.

Lemma ledger_written_by_receipt_only_witness :
  stocks (snd (handler Sample.calm Sample.validate_request Sample.pending_store))
  = stocks Sample.pending_store
  /\ payments (snd (handler Sample.calm Sample.validate_request
                      Sample.pending_store))
     = payments Sample.pending_store.
Proof.
  assert (Hne : action_of (body Sample.validate_request) <> receive_stock)
    by discriminate.
  exact (proj2 (proj2 (proj2
    (ledger_written_by_receipt_only Sample.calm Sample.validate_request
       Sample.pending_store))) Hne).
Defined.

Lemma credit_ledger_ok (E : env) (u : user) (a : Approvisionnement.t) (d : db) :
  0 <= Approvisionnement.quantity a ->
  ledger_ok (stocks d) ->
  ledger_ok (stocks (received_store E u a d)).
Proof.
  intros Hq Hok. unfold received_store, ledger_ok in *.
  destruct (find (ledger_key a) (stocks d)) as [s|] eqn:Hf; cbn.
  - apply find_some in Hf. destruct Hf as [Hin _].
    rewrite Forall_forall in Hok. pose proof (Hok s Hin) as Hs.
    apply Forall_forall. intros x Hx. apply in_map_iff in Hx.
    destruct Hx as (y & <- & Hy).
    destruct (stock_key (Stock.stock_id s) y); cbn; [lia|auto].
  - apply Forall_app. split; [assumption|].
    constructor; [assumption|constructor].
Qed.

(** X8. The workflow endpoint keeps the ledger non-negative: when no
    approvisionnement carries a negative quantity and no ledger quantity is
    negative, none is negative after any request, however it ends. *)
Theorem workflow_keeps_ledger_ok (E : env) (req : request WorkflowData)
    (d : db) :
  Forall (fun a => 0 <= Approvisionnement.quantity a) (approvisionnements d) ->
  ledger_ok (stocks d) ->
  ledger_ok (stocks (snd (handler E req d))).
Proof.
  intros Hq Hok.
  destruct (admissible E req d) as [[u a]|] eqn:Hadm.
  - rewrite (handler_commits E req d u a Hadm).
    destruct (outcome_tables E u a (body req) d) as (_ & -> & _).
    destruct (action_of (body req)); try exact Hok.
    apply credit_ledger_ok; [|exact Hok].
    revert Hadm. unfold admissible.
    destruct (negb (method req =? "POST")%string); [discriminate|].
    destruct (x_user_data req) as [[?|?|?]|]; try discriminate.
    destruct (negb (workflowActionSchema E (body req))); [discriminate|].
    destruct (find _ (approvisionnements d)) as [a1|] eqn:Hf; [|discriminate].
    destruct (_ && _); [|discriminate].
    intros [= _ ->]. apply find_some in Hf. destruct Hf as [Hin _].
    rewrite Forall_forall in Hq. now apply Hq.
  - destruct (handler_refuses E req d Hadm) as (st & e & c & -> & _).
    exact Hok.
Qed.

Lemma workflow_keeps_ledger_ok_witness :
  ledger_ok (stocks (snd (handler Sample.mail_down Sample.receive_request
                            Sample.receipt_store))).
Proof.
  apply (workflow_keeps_ledger_ok Sample.mail_down Sample.receive_request
           Sample.receipt_store).
  - repeat constructor; discriminate.
  - repeat constructor; discriminate.
Defined.
End WorkflowWhole.

(** ** The order endpoint as a whole *)

Module OrderWhole.
Import OrderProcess.

Lemma find_map_miss {A} (p q : A -> bool) (f : A -> A) (l : list A) :
  (forall x, p (f x) = p x) ->
  find p l = None ->
  find p (map (fun x => if q x then f x else x) l) = None.
Proof.
  intros Hf. induction l as [|x l IH]; simpl; [reflexivity|].
  destruct (p x) eqn:Hx; [discriminate|].
  intros H. destruct (q x); [rewrite Hf|]; rewrite Hx; auto.
Qed.

Lemma decrement_keeps_key (p w : string) (q t : Z) (x : Stock.t) :
  where_stock p w (decrement q t x) = where_stock p w x.
Proof. reflexivity. Qed.

(** The lines of an order are always written: one order item per line, in
    order, and the decrements of [ledger_after_lines]. *)
Lemma create_items_run (E : env) (oid w : string) (lines : list item) :
  forall d,
    create_items E oid w lines d
    = (Ret (map (to_order_item oid) lines),
       set_stocks (ledger_after_lines (now E) w lines (stocks d))
         (set_order_items (order_items d ++ map (to_order_item oid) lines) d)).
Proof.
  induction lines as [|i lines IH]; intros d.
  - simpl. rewrite app_nil_r. now destruct d.
  - simpl. unfold bind at 1. unfold Prisma.order_items_create at 1.
    unfold bind at 1. unfold Prisma.stocks_findFirst at 1.
    cbn [stocks set_order_items].
    destruct (find (where_stock (product_id i) w) (stocks d)) as [s|] eqn:Hs.
    + unfold bind at 1. unfold bind at 1. unfold Prisma.stocks_update at 1.
      cbn [stocks set_order_items].
      destruct (find_by_key _ Stock.stock_id _ _ Hs) as [x Hx]. rewrite Hx.
      unfold ret at 1. unfold bind at 1. rewrite IH.
      cbn [stocks order_items set_stocks set_order_items]. unfold ret.
      rewrite <- app_assoc. reflexivity.
    + unfold bind at 1. unfold ret at 1. unfold bind at 1. rewrite IH.
      cbn [stocks order_items set_stocks set_order_items]. unfold ret.
      rewrite <- app_assoc. reflexivity.
Qed.

(** The transaction of an order none of whose lines is offending commits,
    and leaves [ordered_store]. *)
Lemma order_transaction_commits (E : env) (data : OrderData) (d : db) :
  find (offending d (warehouse_id data)) (items data) = None ->
  exists x,
    find (fun o => (Order.order_id o =? new_order_id E)%string)
         (orders d ++ [new_order E data]) = Some x
    /\ transaction (order_transaction E data) d
       = (Ret (set_status (settled_status (payment_method_of data)) x,
               map (to_order_item (new_order_id E)) (items data),
               match order_delivery E data with
               | [] => None
               | x :: _ => Some x
               end,
               order_payment E data),
          ordered_store E data d).
Proof.
  intros Hval.
  assert (Hx : exists x,
             find (fun o => (Order.order_id o =? new_order_id E)%string)
                  (orders d ++ [new_order E data]) = Some x).
  { destruct (find (fun o => (Order.order_id o =? new_order_id E)%string)
                   (orders d)) as [x|] eqn:Hold.
    - exists x. now apply find_app_old.
    - exists (new_order E data). apply find_app_new; [exact Hold|].
      cbn. apply String.eqb_refl. }
  destruct Hx as [x Hx]. exists x. split; [exact Hx|].
  remember (new_order E data) as o0 eqn:Ho0.
  unfold transaction, order_transaction.
  unfold bind at 1. rewrite OrderFacts.validateStockAvailability_run, Hval.
  cbn [verdict valid negb].
  unfold bind at 1. unfold Prisma.orders_create at 1.
  unfold bind at 1. cbn [Order.order_id]. rewrite create_items_run.
  cbn [stocks order_items set_orders].
  fold (new_order E data). rewrite <- Ho0.
  unfold ordered_store, order_delivery. rewrite <- Ho0.
  destruct (delivery_option data).
  - unfold bind at 1. unfold bind at 1. unfold Prisma.deliveries_create at 1.
    unfold ret at 1.
    unfold bind at 1. unfold Prisma.payments_create at 1.
    unfold bind at 1. unfold Prisma.orders_update at 1.
    cbn [orders set_payments set_deliveries set_stocks set_order_items
         set_orders].
    rewrite Hx. reflexivity.
  - unfold bind at 1. unfold ret at 1.
    unfold bind at 1. unfold Prisma.payments_create at 1.
    unfold bind at 1. unfold Prisma.orders_update at 1.
    cbn [orders set_payments set_deliveries set_stocks set_order_items
         set_orders].
    rewrite Hx. rewrite app_nil_r. reflexivity.
Qed.

Lemma fresh_order_key (E : env) (data : OrderData) (d : db) :
  ~ In (new_order_id E) (map Order.order_id (orders d)) ->
  find (fun o => (Order.order_id o =? new_order_id E)%string)
       (orders d ++ [new_order E data]) = Some (new_order E data)
  /\ orders (ordered_store E data d)
     = orders d
       ++ [set_status (settled_status (payment_method_of data))
             (new_order E data)].
Proof.
  intros Hfresh.
  assert (Hmiss : forall o, In o (orders d) ->
                    (Order.order_id o =? new_order_id E)%string = false).
  { intros o Ho. apply String.eqb_neq. intros Heq. apply Hfresh.
    rewrite <- Heq. now apply in_map. }
  split.
  - apply find_app_new; [|cbn; apply String.eqb_refl].
    destruct (find _ (orders d)) as [o|] eqn:Hf; [|reflexivity].
    apply find_some in Hf. destruct Hf as [Hin Hk].
    now rewrite (Hmiss o Hin) in Hk.
  - unfold ordered_store. cbn [orders]. rewrite map_app. f_equal.
    + rewrite <- (map_id (orders d)) at 2. apply map_ext_in.
      intros o Ho. now rewrite (Hmiss o Ho).
    + cbn. now rewrite String.eqb_refl.
Qed.

Lemma totalAmount_from (l : list item) (acc : Z) :
  fold_left (fun sum i => sum + quantity i * unit_price i) l acc
  = acc + lines_value l.
Proof.
  revert acc. induction l as [|i l IH]; intros acc; simpl; [lia|].
  rewrite IH. lia.
Qed.

Lemma totalAmount_value (l : list item) : totalAmount l = lines_value l.
Proof. unfold totalAmount. now rewrite totalAmount_from. Qed.

(** X9. An order by a client or an admin, every line of which finds on the
    ledger at least the quantity it requests, is accepted when the sinks
    work and the new order key is unused: the answer is 201; one order is
    added, with total the sum of quantity times unit price over the lines
    as the client supplied them, and status paid for a direct payment,
    pending for a credit one; one order item per line, in order; one
    payment of that total, completed for a direct payment, pending
    otherwise; one delivery in status assigned exactly when delivery was
    asked for; one audit record; a notification to the client and one to
    the placeholder warehouse-staff-id. *)
Theorem accepted_order_effect (E : env) (req : request OrderData) (d : db)
    (u : user) :
  method req = "POST" ->
  x_user_data req = Some (UserObject u) ->
  orderProcessingSchema E (body req) = true ->
  role u = "client" \/ role u = "admin" ->
  existsb (offending d (warehouse_id (body req))) (items (body req)) = false ->
  ~ In (new_order_id E) (map Order.order_id (orders d)) ->
  log_failure E = None ->
  notification_failure E = None ->
  exists o its delivery pay message d' n1 n2,
    handler E req d = (Success 201 (OrderResult o its delivery pay) message, d')
    /\ orders d' = orders d ++ [o]
    /\ Order.total_amount o = lines_value (items (body req))
    /\ Order.status o = settled_status (payment_method_of (body req))
    /\ Order.client_id o = client_id (body req)
    /\ order_items d' = order_items d ++ its
    /\ its = map (to_order_item (Order.order_id o)) (items (body req))
    /\ payments d' = payments d ++ [pay]
    /\ Payment.amount pay = lines_value (items (body req))
    /\ Payment.order_id pay = Some (Order.order_id o)
    /\ Payment.status pay =
       match payment_method_of (body req) with
       | direct => Payment.completed
       | credit => Payment.pending
       end
    /\ deliveries d' =
       deliveries d ++
         (if delivery_option (body req)
          then [{| Delivery.order_id := Order.order_id o;
                   Delivery.status := "assigned" |}]
          else [])
    /\ transaction_logs d' =
       transaction_logs d ++ [order_log u (body req) o its]
    /\ notifications d' = notifications d ++ [n1; n2]
    /\ Notification.user_id n1 = client_id (body req)
    /\ Notification.user_id n2 = "warehouse-staff-id".
Proof.
  intros Hm Hu Hs Hr Hval Hfresh Hl Hn.
  assert (Hnone : find (offending d (warehouse_id (body req))) (items (body req))
                  = None).
  { destruct (find _ (items (body req))) as [i|] eqn:Hi; [|reflexivity].
    apply find_some in Hi. destruct Hi as [Hin Hoff].
    assert (Hex : existsb (offending d (warehouse_id (body req)))
                    (items (body req)) = true)
      by (apply existsb_exists; eauto).
    congruence. }
  destruct (order_transaction_commits E (body req) d Hnone) as (x & Hx & Hrun).
  destruct (fresh_order_key E (body req) d Hfresh) as [Hkey Horders].
  rewrite Hkey in Hx. injection Hx as <-.
  rewrite (OrderFacts.order_run E req d u Hm Hu Hs Hr), Hrun.
  unfold after_order_commit. rewrite Hl, Hn.
  do 8 eexists. split; [reflexivity|].
  cbn [orders order_items payments deliveries transaction_logs notifications
       set_notifications set_transaction_logs].
  rewrite Horders. cbn. rewrite totalAmount_value.
  unfold order_delivery. repeat split.
Qed.

Lemma accepted_order_effect_witness :
  exists o its delivery pay message d' n1 n2,
    handler Sample.calm Sample.two_products_order Sample.three_rows
    = (Success 201 (OrderResult o its delivery pay) message, d')
    /\ orders d' = [o]
    /\ Order.total_amount o = 5 * 10 + (3 * 20 + 0)
    /\ Order.status o = Order.paid
    /\ payments d' = [pay]
    /\ Payment.amount pay = 5 * 10 + (3 * 20 + 0)
    /\ deliveries d' = []
    /\ notifications d' = [n1; n2].
Proof.
  assert (Hfresh : ~ In (new_order_id Sample.calm)
                        (map Order.order_id (orders Sample.three_rows)))
    by (intros []).
  destruct (accepted_order_effect Sample.calm Sample.two_products_order
              Sample.three_rows Sample.client
              eq_refl eq_refl eq_refl (or_introl eq_refl) eq_refl Hfresh
              eq_refl eq_refl)
    as (o & its & delivery & pay & message & d' & n1 & n2 & H1 & H2 & H3 & H4
        & _ & _ & _ & H8 & H9 & _ & _ & H12 & _ & H14 & _).
  exists o, its, delivery, pay, message, d', n1, n2.
  repeat split; assumption.
Defined.

(** Every run of the order endpoint either refuses the request and leaves
    the store as it was, or commits [ordered_store] and turns to the
    sinks. *)
Lemma order_handler_cases (E : env) (req : request OrderData) (d : db) :
  (exists st e c, handler E req d = (Failure st e c, d))
  \/ (exists u result,
        method req = "POST"
        /\ x_user_data req = Some (UserObject u)
        /\ orderProcessingSchema E (body req) = true
        /\ (role u = "client" \/ role u = "admin")
        /\ find (offending d (warehouse_id (body req))) (items (body req)) = None
        /\ handler E req d
           = after_order_commit E u (body req) result
               (ordered_store E (body req) d)).
Proof.
  destruct (method req =? "POST")%string eqn:Hm.
  2:{ left. unfold handler, handler_try. rewrite Hm. cbn. eauto. }
  apply String.eqb_eq in Hm.
  destruct (x_user_data req) as [[e|e|u]|] eqn:Hu.
  1, 2: left; apply (HeaderFacts.order_unread E req d e); auto.
  2:{ left. unfold handler, handler_try. rewrite Hm, Hu. cbn. eauto. }
  destruct (orderProcessingSchema E (body req)) eqn:Hs.
  2:{ left. unfold handler, handler_try. rewrite Hm, Hu, Hs. cbn. eauto. }
  destruct (negb (is_role u "client") && negb (is_role u "admin")) eqn:Hrole.
  { left. unfold handler, handler_try. rewrite Hm, Hu, Hs. simpl.
    rewrite Hrole. cbn. eauto. }
  assert (Hr : role u = "client" \/ role u = "admin")
    by now apply WorkflowFacts.role_check_passed.
  destruct (find (offending d (warehouse_id (body req))) (items (body req)))
    as [i|] eqn:Hi.
  - left. rewrite (OrderFacts.refused_order_run E req d u i Hm Hu Hs Hr Hi).
    eauto.
  - right. destruct (order_transaction_commits E (body req) d Hi)
      as (x & _ & Hrun).
    exists u. eexists. repeat split; try assumption.
    now rewrite (OrderFacts.order_run E req d u Hm Hu Hs Hr), Hrun.
Qed.

Lemma after_commit_tables (E : env) (u : user) (data : OrderData)
    (result : Order.t * list OrderItem.t * option Delivery.t * Payment.t)
    (d1 : db) :
  let d' := snd (after_order_commit E u data result d1) in
  approvisionnements d' = approvisionnements d1 /\ stocks d' = stocks d1.
Proof.
  unfold after_order_commit. destruct result as [[[o its] dl] pay].
  destruct (log_failure E), (notification_failure E); split; reflexivity.
Qed.

Lemma distinct_tail (x : string) (l : list string) :
  distinct (x :: l) = true -> distinct l = true.
Proof. simpl. intros H. apply andb_prop in H. tauto. Qed.

Section LedgerSteps.
Variables (t : Z) (w : string).

Lemma step_ids (sid : string) (q : Z) (l : list Stock.t) :
  map Stock.stock_id
      (map (fun x => if stock_key sid x then decrement q t x else x) l)
  = map Stock.stock_id l.
Proof.
  rewrite map_map. apply map_ext. intros x. now destruct (stock_key sid x).
Qed.

(** With sound keys, the decrement of one line leaves the lookup of every
    other product as it was. *)
Lemma step_other (p p' : string) (q : Z) (s : Stock.t) (l : list Stock.t) :
  distinct (map Stock.stock_id l) = true ->
  find (where_stock p w) l = Some s ->
  p' <> p ->
  find (where_stock p' w)
       (map (fun x => if stock_key (Stock.stock_id s) x
                      then decrement q t x else x) l)
  = find (where_stock p' w) l.
Proof.
  intros Hk Hs Hne.
  destruct (find (where_stock p' w) l) as [x|] eqn:Hx.
  - rewrite (find_map_if _ _ _ (decrement_keeps_key p' w q t) _ _ Hx).
    destruct (stock_key (Stock.stock_id s) x) eqn:Hkey; [|reflexivity].
    exfalso. apply String.eqb_eq in Hkey.
    destruct (find_some _ _ Hs) as [Hin_s Hw_s].
    destruct (find_some _ _ Hx) as [Hin_x Hw_x].
    assert (Heq : x = s) by (apply (StockFacts.distinct_keys l); auto).
    subst x. unfold where_stock in Hw_s, Hw_x.
    apply andb_prop in Hw_s, Hw_x.
    destruct Hw_s as [H1 _], Hw_x as [H2 _].
    apply String.eqb_eq in H1, H2. congruence.
  - now apply find_map_miss.
Qed.

(** With sound keys, lines that do not name a product leave its lookup as
    it was. *)
Lemma lines_untouched (p : string) (lines : list item) :
  forall l,
    distinct (map Stock.stock_id l) = true ->
    ~ In p (map product_id lines) ->
    find (where_stock p w) (ledger_after_lines t w lines l)
    = find (where_stock p w) l.
Proof.
  induction lines as [|j lines IH]; intros l Hk Hp; [reflexivity|].
  simpl in Hp |- *.
  destruct (find (where_stock (product_id j) w) l) as [sj|] eqn:Hj.
  - rewrite IH.
    + apply (step_other (product_id j)); auto.
    + now rewrite step_ids.
    + tauto.
  - apply IH; tauto.
Qed.

(** With sound keys and no product named twice, each line takes its
    quantity off the row its product had on the ledger at the start. *)
Lemma lines_decrement (lines : list item) :
  forall l,
    distinct (map Stock.stock_id l) = true ->
    distinct (map product_id lines) = true ->
    forall i s,
      In i lines ->
      find (where_stock (product_id i) w) l = Some s ->
      find (where_stock (product_id i) w) (ledger_after_lines t w lines l)
      = Some (decrement (quantity i) t s).
Proof.
  induction lines as [|j lines IH]; intros l Hk Hd i s Hin Hs; [contradiction|].
  pose proof (StockFacts.distinct_fresh _ _ Hd) as Hfresh.
  pose proof (distinct_tail _ _ Hd) as Hd'.
  cbn [map] in Hfresh. cbn [ledger_after_lines].
  destruct Hin as [<- | Hin].
  - rewrite Hs. rewrite lines_untouched.
    + rewrite (find_map_if _ _ _ (decrement_keeps_key _ w _ t) _ _ Hs).
      unfold stock_key. now rewrite String.eqb_refl.
    + now rewrite step_ids.
    + exact Hfresh.
  - assert (Hne : product_id i <> product_id j).
    { intros Heq. apply Hfresh. rewrite <- Heq. now apply in_map. }
    destruct (find (where_stock (product_id j) w) l) as [sj|] eqn:Hj.
    + apply IH; auto.
      * now rewrite step_ids.
      * rewrite (step_other (product_id j)); auto.
    + apply IH; auto.
Qed.

(** With sound keys and no product named twice, lines that each find at
    least what they request keep the ledger non-negative. *)
Lemma lines_keep_ledger_ok (lines : list item) :
  forall l,
    distinct (map Stock.stock_id l) = true ->
    distinct (map product_id lines) = true ->
    (forall i, In i lines ->
       exists s, find (where_stock (product_id i) w) l = Some s
                 /\ quantity i <= Stock.quantity s) ->
    ledger_ok l ->
    ledger_ok (ledger_after_lines t w lines l).
Proof.
  induction lines as [|j lines IH]; intros l Hk Hd Hserve Hok; [exact Hok|].
  pose proof (StockFacts.distinct_fresh _ _ Hd) as Hfresh.
  pose proof (distinct_tail _ _ Hd) as Hd'.
  cbn [map] in Hfresh. cbn [ledger_after_lines].
  destruct (Hserve j (or_introl eq_refl)) as (sj & Hj & Hq). rewrite Hj.
  apply IH; auto.
  - now rewrite step_ids.
  - intros i Hi. destruct (Hserve i (or_intror Hi)) as (s & Hs & Hqs).
    exists s. split; [|exact Hqs].
    rewrite (step_other (product_id j)); auto.
    intros Heq. apply Hfresh. rewrite <- Heq. now apply in_map.
  - unfold ledger_ok in *. rewrite Forall_forall in Hok.
    apply Forall_forall. intros y Hy. apply in_map_iff in Hy.
    destruct Hy as (x & <- & Hx).
    destruct (stock_key (Stock.stock_id sj) x) eqn:Hkey; [|auto].
    apply String.eqb_eq in Hkey.
    assert (Heq : x = sj).
    { apply (StockFacts.distinct_keys l); auto.
      now destruct (find_some _ _ Hj). }
    subst x. cbn. lia.
Qed.

(** With sound keys, the lines of an order for warehouse [w] leave the rows
    of every other warehouse as they were. *)
Lemma lines_elsewhere (lines : list item) :
  forall l,
    distinct (map Stock.stock_id l) = true ->
    elsewhere w (ledger_after_lines t w lines l) = elsewhere w l.
Proof.
  induction lines as [|j lines IH]; intros l Hk; [reflexivity|].
  cbn [ledger_after_lines].
  destruct (find (where_stock (product_id j) w) l) as [sj|] eqn:Hj; [|auto].
  rewrite IH by now rewrite step_ids.
  destruct (find_some _ _ Hj) as [Hin Hw].
  assert (Hhere : forall x, In x l ->
            stock_key (Stock.stock_id sj) x = true ->
            (Stock.warehouse_id x =? w)%string = true).
  { intros x Hx Hkey. apply String.eqb_eq in Hkey.
    assert (Heq : x = sj) by (apply (StockFacts.distinct_keys l); auto).
    subst x. unfold where_stock in Hw. apply andb_prop in Hw. tauto. }
  clear Hj Hin Hw Hk IH. unfold elsewhere.
  induction l as [|x l IHl]; [reflexivity|].
  cbn [map filter].
  destruct (stock_key (Stock.stock_id sj) x) eqn:Hkey.
  - cbn [decrement Stock.warehouse_id].
    rewrite (Hhere x (or_introl eq_refl) Hkey). cbn [negb].
    apply IHl. intros y Hy. apply Hhere. now right.
  - destruct (negb (Stock.warehouse_id x =? w)%string);
      [f_equal|]; apply IHl; intros y Hy; apply Hhere; now right.
Qed.
End LedgerSteps.

(** X10. When no product is named on two lines of an order and stock_id is
    a sound key of the ledger, an order every line of which finds at least
    the quantity it requests leaves, for each line, the ledger row of its
    product at its former quantity less the quantity of the line, which is
    not negative; and a ledger without negative quantities stays so. This
    holds on the store the endpoint leaves whatever the sinks answer. *)
Theorem distinct_products_never_oversell (E : env) (req : request OrderData)
    (d : db) (u : user) :
  method req = "POST" ->
  x_user_data req = Some (UserObject u) ->
  orderProcessingSchema E (body req) = true ->
  role u = "client" \/ role u = "admin" ->
  existsb (offending d (warehouse_id (body req))) (items (body req)) = false ->
  distinct (map Stock.stock_id (stocks d)) = true ->
  distinct (map product_id (items (body req))) = true ->
  let d' := snd (handler E req d) in
  (forall i, In i (items (body req)) ->
     exists s s',
       find (where_stock (product_id i) (warehouse_id (body req))) (stocks d)
       = Some s
       /\ find (where_stock (product_id i) (warehouse_id (body req)))
               (stocks d') = Some s'
       /\ Stock.quantity s' = Stock.quantity s - quantity i
       /\ 0 <= Stock.quantity s')
  /\ (ledger_ok (stocks d) -> ledger_ok (stocks d')).
Proof.
  intros Hm Hu Hs Hr Hval Hk Hd d'.
  assert (Hserve : forall i, In i (items (body req)) ->
            exists s,
              find (where_stock (product_id i) (warehouse_id (body req)))
                   (stocks d) = Some s
              /\ quantity i <= Stock.quantity s).
  { intros i Hi.
    assert (Hoff : offending d (warehouse_id (body req)) i = false).
    { destruct (offending d (warehouse_id (body req)) i) eqn:Ho; [|reflexivity].
      assert (Hex : existsb (offending d (warehouse_id (body req)))
                      (items (body req)) = true)
        by (apply existsb_exists; eauto).
      congruence. }
    unfold offending in Hoff.
    destruct (find _ (stocks d)) as [s|]; [|discriminate].
    exists s. split; [reflexivity|]. now apply Z.ltb_ge. }
  assert (Hstocks : stocks d'
                    = ledger_after_lines (now E) (warehouse_id (body req))
                        (items (body req)) (stocks d)).
  { subst d'.
    destruct (order_handler_cases E req d)
      as [(st & e & c & Hrun) | (u0 & result & _ & _ & _ & _ & _ & ->)].
    - exfalso.
      assert (Hnone : find (offending d (warehouse_id (body req)))
                        (items (body req)) = None).
      { destruct (find _ (items (body req))) as [i|] eqn:Hi; [|reflexivity].
        destruct (find_some _ _ Hi) as [Hin Hoff].
        assert (Hex : existsb (offending d (warehouse_id (body req)))
                        (items (body req)) = true)
          by (apply existsb_exists; eauto).
        congruence. }
      destruct (order_transaction_commits E (body req) d Hnone)
        as (x & _ & Hcommit).
      rewrite (OrderFacts.order_run E req d u Hm Hu Hs Hr), Hcommit in Hrun.
      unfold after_order_commit in Hrun.
      destruct (log_failure E), (notification_failure E);
        pose proof (f_equal (fun r => List.length (payments (snd r))) Hrun)
          as Hlen;
        cbn in Hlen; rewrite length_app in Hlen; cbn in Hlen; lia.
    - now destruct (after_commit_tables E u0 (body req) result
                      (ordered_store E (body req) d)) as [_ ->]. }
  rewrite Hstocks. split.
  - intros i Hi. destruct (Hserve i Hi) as (s & Hfs & Hq).
    exists s, (decrement (quantity i) (now E) s).
    split; [exact Hfs|]. split.
    + now apply lines_decrement.
    + cbn. split; lia.
  - now apply lines_keep_ledger_ok.
Qed.

Lemma distinct_products_never_oversell_witness :
  distinct (map product_id (items (body Sample.two_products_order))) = true
  /\ forall i, In i (items (body Sample.two_products_order)) ->
       exists s s',
         find (where_stock (product_id i) Ids.W1) (stocks Sample.three_rows)
         = Some s
         /\ find (where_stock (product_id i) Ids.W1)
                 (stocks (snd (handler Sample.audit_down
                                 Sample.two_products_order
                                 Sample.three_rows))) = Some s'
         /\ Stock.quantity s' = Stock.quantity s - quantity i
         /\ 0 <= Stock.quantity s'.
Proof.
  split; [reflexivity|].
  exact (proj1
    (distinct_products_never_oversell Sample.audit_down
       Sample.two_products_order Sample.three_rows Sample.client
       eq_refl eq_refl eq_refl (or_introl eq_refl) eq_refl eq_refl eq_refl)).
Defined.

(** X11. With stock_id a sound key of the ledger, an order for one
    warehouse leaves the ledger rows of every other warehouse as they were,
    however the request ends. *)
Theorem order_leaves_other_warehouses (E : env) (req : request OrderData)
    (d : db) :
  distinct (map Stock.stock_id (stocks d)) = true ->
  elsewhere (warehouse_id (body req)) (stocks (snd (handler E req d)))
  = elsewhere (warehouse_id (body req)) (stocks d).
Proof.
  intros Hk.
  destruct (order_handler_cases E req d)
    as [(st & e & c & ->) | (u & result & _ & _ & _ & _ & _ & ->)];
    [reflexivity|].
  destruct (after_commit_tables E u (body req) result
              (ordered_store E (body req) d)) as [_ ->].
  now apply lines_elsewhere.
Qed.

Lemma order_leaves_other_warehouses_witness :
  elsewhere Ids.W1
    (stocks (snd (handler Sample.calm Sample.two_products_order
                    Sample.three_rows)))
  = [Sample.stock "s3" Ids.productA Ids.W2 4 10].
Proof.
  exact (order_leaves_other_warehouses Sample.calm Sample.two_products_order
           Sample.three_rows eq_refl).
Defined.

(** X12. The order endpoint never writes to the approvisionnement table;
    and with both sinks working it is all or nothing: a request that is not
    answered with a success leaves the whole store as it was. *)
Theorem order_all_or_nothing (E : env) (req : request OrderData) (d : db) :
  approvisionnements (snd (handler E req d)) = approvisionnements d
  /\ (log_failure E = None ->
      notification_failure E = None ->
      forall st e c d',
        handler E req d = (Failure st e c, d') -> d' = d).
Proof.
  destruct (order_handler_cases E req d)
    as [(st0 & e0 & c0 & ->) | (u & result & _ & _ & _ & _ & _ & ->)].
  - split; [reflexivity|]. now intros _ _ st e c d' [= _ _ _ <-].
  - split.
    + now destruct (after_commit_tables E u (body req) result
                      (ordered_store E (body req) d)) as [-> _].
    + intros Hl Hn st e c d'. unfold after_order_commit.
      destruct result as [[[o its] dl] pay]. rewrite Hl, Hn. discriminate.
Qed.

Lemma order_all_or_nothing_witness :
  log_failure Sample.calm = None
  /\ notification_failure Sample.calm = None
  /\ forall st e c d',
       handler Sample.calm (Sample.two_lines 3) (Sample.two_products 2)
       = (Failure st e c, d') -> d' = Sample.two_products 2.
Proof.
  split; [reflexivity|]. split; [reflexivity|].
  exact (proj2 (order_all_or_nothing Sample.calm (Sample.two_lines 3)
                  (Sample.two_products 2)) eq_refl eq_refl).
Defined.
End OrderWhole.

(** ** The stock management endpoint as a whole *)

Module StockWhole.
Import StockManagement.

(** Every run of an adjustment either leaves the store as it was, or
    rewrites the found row to a non-negative quantity and adds the audit
    record. *)
Lemma adjustment_cases (E : env) (u : user) (data : StockData) (d : db) :
  snd (handleStockAdjustment E u data d) = d
  \/ exists current l,
       find (where_stock (str (product_id data)) (str (warehouse_id data)))
            (stocks d) = Some current
       /\ 0 <= Stock.quantity current + num (quantity data)
       /\ log_failure E = None
       /\ snd (handleStockAdjustment E u data d)
          = set_transaction_logs (transaction_logs d ++ [l])
              (set_stocks
                 (adjusted E current
                    (Stock.quantity current + num (quantity data)) (stocks d))
                 d)
       /\ Log.details l
          = StockAdjustmentDetails (str (product_id data))
              (str (warehouse_id data)) (Stock.quantity current)
              (num (quantity data))
              (Stock.quantity current + num (quantity data))
              (or_default (reason data) "Manual adjustment").
Proof.
  unfold handleStockAdjustment.
  destruct (missing_string (product_id data)
            || missing_string (warehouse_id data)
            || is_undefined (quantity data)); [now left|].
  unfold transaction, adjustment_transaction.
  rewrite StockFacts.bind_findFirst_include.
  destruct (find _ (stocks d)) as [current|] eqn:Hf; cbn [option_map];
    [|now left].
  destruct (_ <? 0) eqn:Hneg; [now left|].
  apply Z.ltb_ge in Hneg.
  unfold bind, Prisma.stocks_update, Prisma.transaction_logs_create.
  destruct (find_by_key _ Stock.stock_id _ _ Hf) as [x Hx]. rewrite Hx.
  destruct (log_failure E); [now left|].
  right. exists current. eexists. repeat split; auto.
Qed.

Lemma transfer_needs_audit (E : env) (u : user) (data : StockData) (d : db)
    (e : string) :
  log_failure E = Some e ->
  forall r d1, transfer_transaction E u data d <> (Ret r, d1).
Proof.
  intros Hlog r d1. unfold transfer_transaction.
  rewrite StockFacts.bind_findFirst_include.
  destruct (find _ (stocks d)) as [source|]; cbn [option_map];
    [|discriminate].
  destruct (_ <? _); [discriminate|].
  unfold bind at 1. unfold Prisma.stocks_findFirst at 1.
  destruct (find _ (stocks d)) as [destination|].
  - unfold bind at 1. unfold Prisma.stocks_update at 1.
    destruct (find _ (stocks d)); [|discriminate].
    unfold bind at 1. unfold Prisma.stocks_update at 1.
    cbn [stocks set_stocks].
    destruct (find _ _); [|discriminate].
    unfold bind, Prisma.transaction_logs_create. rewrite Hlog. discriminate.
  - unfold bind at 1. unfold Prisma.stocks_create at 1.
    unfold bind at 1. unfold Prisma.stocks_update at 1.
    cbn [stocks set_stocks].
    destruct (find _ _); [|discriminate].
    unfold bind, Prisma.transaction_logs_create. rewrite Hlog. discriminate.
Qed.

(** Every run of a transfer either leaves the store as it was, or moves the
    quantity between two different warehouses and adds the audit record. *)
Lemma transfer_cases (E : env) (u : user) (data : StockData) (d : db) :
  snd (handleStockTransfer E u data d) = d
  \/ exists source,
       str (from_warehouse_id data) <> str (to_warehouse_id data)
       /\ find (where_stock (str (product_id data))
                  (str (from_warehouse_id data))) (stocks d) = Some source
       /\ num (quantity data) <= Stock.quantity source
       /\ snd (handleStockTransfer E u data d)
          = set_transaction_logs
              (transaction_logs d
               ++ [transfer_log u data source (str (product_id data))
                     (str (from_warehouse_id data))
                     (str (to_warehouse_id data)) (num (quantity data))])
              (set_stocks
                 (transferred E source
                    (find (where_stock (str (product_id data))
                             (str (to_warehouse_id data))) (stocks d))
                    (str (product_id data)) (str (to_warehouse_id data))
                    (num (quantity data)) (stocks d)) d).
Proof.
  unfold handleStockTransfer.
  destruct (missing_string (product_id data)
            || missing_string (from_warehouse_id data)
            || missing_string (to_warehouse_id data)
            || missing_number (quantity data)) eqn:Hguard; [now left|].
  destruct (str (from_warehouse_id data) =? str (to_warehouse_id data))%string
    eqn:Hft; [now left|].
  apply String.eqb_neq in Hft.
  apply orb_false_elim in Hguard. destruct Hguard as [Hguard Hq].
  apply orb_false_elim in Hguard. destruct Hguard as [Hguard Hto].
  apply orb_false_elim in Hguard. destruct Hguard as [Hp Hfrom].
  destruct (product_id data) as [p|] eqn:Ep; [|discriminate].
  destruct (from_warehouse_id data) as [from|] eqn:Efrom; [|discriminate].
  destruct (to_warehouse_id data) as [to|] eqn:Eto; [|discriminate].
  destruct (quantity data) as [q|] eqn:Eq; [|discriminate].
  cbn [str num] in *.
  destruct (find (where_stock p from) (stocks d)) as [source|] eqn:Hsrc.
  2:{ left. unfold transaction, transfer_transaction.
      rewrite StockFacts.bind_findFirst_include, Ep, Efrom. cbn [str].
      now rewrite Hsrc. }
  destruct (Stock.quantity source <? q) eqn:Hlt.
  { left. unfold transaction, transfer_transaction.
    rewrite StockFacts.bind_findFirst_include, Ep, Efrom, Eq. cbn [str num].
    rewrite Hsrc. cbn [option_map]. now rewrite Hlt. }
  apply Z.ltb_ge in Hlt.
  destruct (log_failure E) as [e|] eqn:Hlog.
  - left. unfold transaction.
    destruct (transfer_transaction E u data d) as [[r|x] d1] eqn:Hrun;
      [|reflexivity].
    exfalso. exact (transfer_needs_audit E u data d e Hlog r d1 Hrun).
  - right. exists source. repeat split; auto.
    destruct (StockFacts.transfer_commits E u data d p from to q source
                Ep Efrom Eto Eq Hsrc Hlt Hlog) as [result ->].
    reflexivity.
Qed.

Lemma alert_tables (E : env) (u : user) (data : StockData) (d : db) :
  stocks (snd (handleStockAlert E u data d)) = stocks d
  /\ same_business d (snd (handleStockAlert E u data d)).
Proof.
  unfold handleStockAlert, same_business.
  destruct (missing_string (product_id data) || missing_number (threshold data));
    [repeat split|].
  unfold alert_try. rewrite StockFacts.bind_findFirst_include.
  destruct (find _ (stocks d)) as [current|]; cbn [option_map];
    [|repeat split].
  destruct (_ <=? _).
  - unfold bind, Prisma.notifications_create, Prisma.transaction_logs_create.
    destruct (notification_failure E); [repeat split|].
    cbn. destruct (log_failure E); repeat split.
  - repeat split.
Qed.

Lemma transferred_ledger_ok (E : env) (source : Stock.t)
    (found : option Stock.t) (p to : string) (q : Z) (l : list Stock.t) :
  0 <= q ->
  q <= Stock.quantity source ->
  match found with Some destination => In destination l | None => True end ->
  ledger_ok l ->
  ledger_ok (transferred E source found p to q l).
Proof.
  intros Hq Hle Hin Hok. unfold transferred, ledger_ok in *.
  apply Forall_forall. intros y Hy. apply in_map_iff in Hy.
  destruct Hy as (x & <- & Hx).
  destruct (stock_key (Stock.stock_id source) x); [cbn; lia|].
  rewrite Forall_forall in Hok.
  destruct found as [destination|].
  - apply in_map_iff in Hx. destruct Hx as (z & <- & Hz).
    pose proof (Hok destination Hin). pose proof (Hok z Hz).
    destruct (stock_key (Stock.stock_id destination) z); cbn; lia.
  - apply in_app_or in Hx. destruct Hx as [Hx | [<- | []]]; [auto|cbn; lia].
Qed.

(** X13. The stock management endpoint keeps the ledger non-negative: an
    adjustment, a report and an alert never leave a negative quantity on a
    ledger that had none, however they end, and neither does a transfer of
    a quantity that is not negative. *)
Theorem stock_management_keeps_ledger_ok (E : env) (req : request StockData)
    (d : db) :
  (action_of (body req) = transfer -> 0 <= num (quantity (body req))) ->
  ledger_ok (stocks d) ->
  ledger_ok (stocks (snd (handler E req d))).
Proof.
  intros Hq Hok. unfold handler.
  destruct (negb (method req =? "POST")%string); [exact Hok|].
  destruct (x_user_data req) as [[e|e|u]|]; cbn [JSON_parse property_of];
    [exact Hok| | |exact Hok].
  { destruct (negb (stockManagementSchema E (body req))); exact Hok. }
  destruct (negb (stockManagementSchema E (body req))); [exact Hok|].
  destruct (negb (is_role u "stock_manager") && negb (is_role u "admin"));
    [exact Hok|].
  destruct (action_of (body req)).
  - destruct (adjustment_cases E u (body req) d)
      as [-> | (current & l & Hf & Hpos & _ & -> & _)]; [exact Hok|].
    cbn [stocks set_transaction_logs set_stocks].
    unfold adjusted, ledger_ok in *. rewrite Forall_forall in Hok.
    apply Forall_forall. intros y Hy. apply in_map_iff in Hy.
    destruct Hy as (x & <- & Hx).
    destruct (stock_key (Stock.stock_id current) x); [cbn; lia|auto].
  - destruct (transfer_cases E u (body req) d)
      as [-> | (source & _ & Hsrc & Hle & ->)]; [exact Hok|].
    cbn [stocks set_transaction_logs set_stocks].
    apply transferred_ledger_ok; auto.
    destruct (find (where_stock (str (product_id (body req)))
                      (str (to_warehouse_id (body req)))) (stocks d))
      as [destination|] eqn:Hd; [|exact I].
    now destruct (find_some _ _ Hd).
  - exact Hok.
  - now destruct (alert_tables E u (body req) d) as [-> _].
Qed.

Lemma stock_management_keeps_ledger_ok_witness :
  ledger_ok
    (stocks (snd (handler Sample.calm
                    (Sample.stock_request (Sample.move Ids.productA Ids.W1 Ids.W2 7))
                    Sample.two_warehouses))).
Proof.
  apply (stock_management_keeps_ledger_ok Sample.calm
           (Sample.stock_request (Sample.move Ids.productA Ids.W1 Ids.W2 7))
           Sample.two_warehouses).
  - intros _. discriminate.
  - repeat constructor; discriminate.
Defined.

Lemma untouched_rows (sid : string) (f : Stock.t -> Stock.t) (l : list Stock.t) :
  ~ In sid (map Stock.stock_id l) ->
  map (fun x => if stock_key sid x then f x else x) l = l.
Proof.
  intros Hfresh. rewrite <- (map_id l) at 2. apply map_ext_in.
  intros x Hx. unfold stock_key.
  destruct (Stock.stock_id x =? sid)%string eqn:Hk; [|reflexivity].
  exfalso. apply Hfresh. apply String.eqb_eq in Hk. rewrite <- Hk.
  now apply in_map.
Qed.

(** With sound keys, rewriting the quantity of one row changes the total of
    its product by the difference, and no other total. *)
Lemma update_total (p : string) (s : Stock.t) (q t : Z) (l : list Stock.t) :
  distinct (map Stock.stock_id l) = true ->
  In s l ->
  product_total p
    (map (fun x => if stock_key (Stock.stock_id s) x
                   then set_quantity q t x else x) l)
  = product_total p l
    + (if (Stock.product_id s =? p)%string then q - Stock.quantity s else 0).
Proof.
  induction l as [|x l IH]; intros Hk Hin; [contradiction|].
  cbn [map] in Hk.
  pose proof (StockFacts.distinct_fresh _ _ Hk) as Hfresh.
  pose proof (OrderWhole.distinct_tail _ _ Hk) as Hk'.
  cbn [map product_total].
  destruct (stock_key (Stock.stock_id s) x) eqn:Hkey.
  - apply String.eqb_eq in Hkey.
    assert (Heq : x = s).
    { apply (StockFacts.distinct_keys (x :: l)); auto. now left. }
    subst x. rewrite untouched_rows by exact Hfresh.
    cbn [set_quantity Stock.product_id Stock.quantity].
    destruct (Stock.product_id s =? p)%string; lia.
  - destruct Hin as [-> | Hin].
    + unfold stock_key in Hkey. now rewrite String.eqb_refl in Hkey.
    + rewrite IH by assumption. lia.
Qed.

Lemma product_total_app (p : string) (l1 l2 : list Stock.t) :
  product_total p (l1 ++ l2) = product_total p l1 + product_total p l2.
Proof. induction l1 as [|x l1 IH]; cbn; [reflexivity|]. rewrite IH. lia. Qed.

Lemma set_quantity_ids (sid : string) (q t : Z) (l : list Stock.t) :
  map Stock.stock_id
      (map (fun x => if stock_key sid x then set_quantity q t x else x) l)
  = map Stock.stock_id l.
Proof.
  rewrite map_map. apply map_ext. intros x. now destruct (stock_key sid x).
Qed.

(** With sound keys, a transfer between two different warehouses leaves the
    total of every product as it was. *)
Lemma transferred_total (E : env) (source : Stock.t) (p from to p' : string)
    (q : Z) (l : list Stock.t) :
  from <> to ->
  find (where_stock p from) l = Some source ->
  distinct (new_stock_id E :: map Stock.stock_id l) = true ->
  product_total p'
    (transferred E source (find (where_stock p to) l) p to q l)
  = product_total p' l.
Proof.
  intros Hft Hsrc Hkeys. unfold transferred.
  pose proof (OrderWhole.distinct_tail _ _ Hkeys) as Hk.
  pose proof (StockFacts.distinct_fresh _ _ Hkeys) as Hfresh.
  destruct (find_some _ _ Hsrc) as [Hin_src Hw_src].
  assert (Hp_src : Stock.product_id source = p).
  { unfold where_stock in Hw_src. apply andb_prop in Hw_src.
    destruct Hw_src as [H _]. now apply String.eqb_eq. }
  destruct (find (where_stock p to) l) as [destination|] eqn:Hdst.
  - destruct (find_some _ _ Hdst) as [Hin_dst Hw_dst].
    assert (Hp_dst : Stock.product_id destination = p).
    { unfold where_stock in Hw_dst. apply andb_prop in Hw_dst.
      destruct Hw_dst as [H _]. now apply String.eqb_eq. }
    assert (Hdiff : stock_key (Stock.stock_id destination) source = false).
    { unfold stock_key. apply String.eqb_neq. intros Hkq.
      assert (Heq : source = destination)
        by (apply (StockFacts.distinct_keys l); auto).
      subst destination. unfold where_stock in Hw_src, Hw_dst.
      apply andb_prop in Hw_src, Hw_dst.
      destruct Hw_src as [_ H1], Hw_dst as [_ H2].
      apply String.eqb_eq in H1, H2. congruence. }
    rewrite update_total.
    + rewrite update_total by assumption.
      rewrite Hp_src, Hp_dst. destruct (p =? p')%string; lia.
    + now rewrite set_quantity_ids.
    + apply in_map_iff. exists source. now rewrite Hdiff.
  - rewrite update_total.
    + rewrite product_total_app. cbn. rewrite Hp_src.
      destruct (p =? p')%string; lia.
    + rewrite map_app. cbn.
      clear - Hkeys. revert Hkeys. generalize (new_stock_id E) as n.
      generalize (map Stock.stock_id l) as ids. clear.
      induction ids as [|x ids IH]; intros n H; [reflexivity|].
      cbn in H |- *. apply andb_prop in H. destruct H as [H1 H2].
      apply andb_prop in H2. destruct H2 as [H2 H3].
      apply negb_true_iff in H1, H2. apply orb_false_elim in H1.
      destruct H1 as [H1a H1b].
      rewrite existsb_app. cbn. rewrite H2, orb_false_r.
      rewrite String.eqb_sym, H1a. cbn.
      apply IH. cbn. now rewrite H1b, H3.
    + apply in_or_app. now left.
Qed.

(** X14. With stock_id a sound key of the ledger, a transfer, a report and
    an alert leave the quantity on hand of every product, summed over the
    warehouses, as it was, however they end: of the four actions only an
    adjustment changes what is on hand. *)
Theorem totals_conserved (E : env) (req : request StockData) (d : db)
    (p : string) :
  stock_keys_unique E d = true ->
  action_of (body req) <> adjust ->
  product_total p (stocks (snd (handler E req d))) = product_total p (stocks d).
Proof.
  intros Hkeys Hact. unfold handler.
  destruct (negb (method req =? "POST")%string); [reflexivity|].
  destruct (x_user_data req) as [[e|e|u]|]; cbn [JSON_parse property_of];
    [reflexivity| | |reflexivity].
  { destruct (negb (stockManagementSchema E (body req))); reflexivity. }
  destruct (negb (stockManagementSchema E (body req))); [reflexivity|].
  destruct (negb (is_role u "stock_manager") && negb (is_role u "admin"));
    [reflexivity|].
  destruct (action_of (body req)).
  - congruence.
  - destruct (transfer_cases E u (body req) d)
      as [-> | (source & Hft & Hsrc & _ & ->)]; [reflexivity|].
    cbn [stocks set_transaction_logs set_stocks].
    now apply (transferred_total E source _ (str (from_warehouse_id (body req)))).
  - reflexivity.
  - now destruct (alert_tables E u (body req) d) as [-> _].
Qed.

Lemma totals_conserved_witness :
  product_total Ids.productA
    (stocks (snd (handler Sample.calm
                    (Sample.stock_request (Sample.move Ids.productA Ids.W1 Ids.W2 7))
                    Sample.two_warehouses)))
  = 14.
Proof.
  assert (Hact : action_of (body (Sample.stock_request
                                    (Sample.move Ids.productA Ids.W1 Ids.W2 7)))
                 <> adjust) by discriminate.
  exact (totals_conserved Sample.calm
           (Sample.stock_request (Sample.move Ids.productA Ids.W1 Ids.W2 7))
           Sample.two_warehouses Ids.productA eq_refl Hact).
Defined.

(** X15. With stock_id a sound key of the ledger, an adjustment that
    succeeds changes the quantity on hand of its product, summed over the
    warehouses, by exactly the signed quantity of the request, and the
    quantity on hand of no other product; an adjustment that fails leaves
    the store as it was. *)
Theorem adjustment_shifts_total (E : env) (u : user) (data : StockData)
    (d : db) (p' : string) :
  distinct (map Stock.stock_id (stocks d)) = true ->
  match handleStockAdjustment E u data d with
  | (Success _ _ _, d') =>
      product_total p' (stocks d')
      = product_total p' (stocks d)
        + (if (str (product_id data) =? p')%string
           then num (quantity data) else 0)
  | (Failure _ _ _, d') => d' = d
  end.
Proof.
  intros Hk. unfold handleStockAdjustment.
  destruct (missing_string (product_id data)
            || missing_string (warehouse_id data)
            || is_undefined (quantity data)); [reflexivity|].
  unfold transaction, adjustment_transaction.
  rewrite StockFacts.bind_findFirst_include.
  destruct (find _ (stocks d)) as [current|] eqn:Hf; cbn [option_map];
    [|reflexivity].
  destruct (_ <? 0); [reflexivity|].
  unfold bind, Prisma.stocks_update, Prisma.transaction_logs_create.
  destruct (find_by_key _ Stock.stock_id _ _ Hf) as [x Hx]. rewrite Hx.
  destruct (log_failure E); [reflexivity|].
  unfold ret. cbn [stocks set_transaction_logs set_stocks].
  destruct (find_some _ _ Hf) as [Hin Hw].
  pose proof (update_total p' current
                (Stock.quantity current + num (quantity data)) (now E)
                (stocks d) Hk Hin) as Htot.
  unfold stock_key in Htot. rewrite Htot.
  unfold where_stock in Hw. apply andb_prop in Hw. destruct Hw as [Hp _].
  apply String.eqb_eq in Hp. rewrite Hp.
  destruct (str (product_id data) =? p')%string; lia.
Qed.

Lemma adjustment_shifts_total_witness :
  match handleStockAdjustment Sample.calm Sample.manager
          (Sample.adjustment Ids.productA Ids.W2 (-3)) Sample.two_warehouses with
  | (Success _ _ _, d') =>
      product_total Ids.productA (stocks d')
      = product_total Ids.productA (stocks Sample.two_warehouses) + (-3)
  | (Failure _ _ _, d') => d' = Sample.two_warehouses
  end.
Proof.
  exact (adjustment_shifts_total Sample.calm Sample.manager
           (Sample.adjustment Ids.productA Ids.W2 (-3)) Sample.two_warehouses
           Ids.productA eq_refl).
Defined.

(** X16. An alert is not one unit: when the first row of the product is at
    or under the threshold, the notification is written before the audit
    record; if the audit sink then refuses the record, the caller is
    answered 500 ALERT_PROCESSING_FAILED and the notification stays, with
    no audit record of it. If the notification sink refuses, nothing is
    written at all. *)
Theorem alert_is_not_atomic (E : env) (u : user) (data : StockData) (d : db)
    (p : string) (t : Z) (current : Stock.t) :
  product_id data = Some p -> p <> "" ->
  threshold data = Some t -> 0 < t ->
  find (where_product p) (stocks d) = Some current ->
  Stock.quantity current <= t ->
  (notification_failure E = None ->
   log_failure E <> None ->
   exists n d',
     handleStockAlert E u data d
     = (Failure 500 "Failed to process stock alert" "ALERT_PROCESSING_FAILED",
        d')
     /\ notifications d' = notifications d ++ [n]
     /\ Notification.user_id n = id u
     /\ transaction_logs d' = transaction_logs d)
  /\ (notification_failure E <> None ->
      handleStockAlert E u data d
      = (Failure 500 "Failed to process stock alert" "ALERT_PROCESSING_FAILED",
         d)).
Proof.
  intros Hp Hpn Ht Htpos Hcur Hlow.
  assert (Hguard : missing_string (product_id data)
                   || missing_number (threshold data) = false).
  { rewrite Hp, Ht, StockFacts.present_string, StockFacts.present_number
      by (assumption || lia).
    reflexivity. }
  unfold handleStockAlert. rewrite Hguard. unfold alert_try.
  rewrite StockFacts.bind_findFirst_include, Hp, Ht. cbn [str num].
  rewrite Hcur. cbn [option_map].
  apply Z.leb_le in Hlow. rewrite Hlow.
  unfold bind, Prisma.notifications_create, Prisma.transaction_logs_create.
  split.
  - intros -> Hl. cbn. destruct (log_failure E); [|congruence].
    do 2 eexists. split; [reflexivity|]. repeat split.
  - intros Hn. destruct (notification_failure E); [reflexivity|congruence].
Qed.

Lemma alert_is_not_atomic_witness :
  exists n d',
    handleStockAlert Sample.audit_down Sample.manager
      (Sample.watch Ids.productA 10) (Sample.watched 8)
    = (Failure 500 "Failed to process stock alert" "ALERT_PROCESSING_FAILED",
       d')
    /\ notifications d' = [n]
    /\ Notification.user_id n = "sm1"
    /\ transaction_logs d' = [].
Proof.
  assert (Hs : forall x y : string, (x =? y)%string = false -> x <> y)
    by (intros x y H; now apply String.eqb_neq).
  assert (Hpos : 0 < 10) by reflexivity.
  assert (Hlow : 8 <= 10) by discriminate.
  assert (Hl : log_failure Sample.audit_down <> None) by discriminate.
  exact (proj1
    (alert_is_not_atomic Sample.audit_down Sample.manager
       (Sample.watch Ids.productA 10) (Sample.watched 8) Ids.productA 10
       (Sample.stock "s1" Ids.productA Ids.W1 8 5)
       eq_refl (Hs Ids.productA "" eq_refl) eq_refl Hpos eq_refl Hlow)
    eq_refl Hl).
Defined.

(** X17. The stock management endpoint writes only to the ledger, the audit
    table and the notifications: after any request the approvisionnements,
    orders, order items, deliveries and payments are as they were; a report
    and an alert leave the ledger as it was too; and a caller who is
    neither a stock manager nor an admin is answered 403 with the store
    untouched, also for the read-only report. *)
Theorem stock_management_frame (E : env) (req : request StockData) (d : db) :
  same_business d (snd (handler E req d))
  /\ (action_of (body req) = report \/ action_of (body req) = alert ->
      stocks (snd (handler E req d)) = stocks d)
  /\ (forall u,
        method req = "POST" ->
        x_user_data req = Some (UserObject u) ->
        stockManagementSchema E (body req) = true ->
        role u <> "stock_manager" ->
        role u <> "admin" ->
        handler E req d
        = (Failure 403 "Only Stock Managers can manage inventory"
                   "INSUFFICIENT_PERMISSIONS", d)).
Proof.
  split; [|split].
  - unfold handler.
    destruct (negb (method req =? "POST")%string); [repeat split|].
    destruct (x_user_data req) as [[e|e|u]|]; cbn [JSON_parse property_of];
      [repeat split| | |repeat split].
    { destruct (negb (stockManagementSchema E (body req))); repeat split. }
    destruct (negb (stockManagementSchema E (body req))); [repeat split|].
    destruct (negb (is_role u "stock_manager") && negb (is_role u "admin"));
      [repeat split|].
    destruct (action_of (body req)).
    + destruct (adjustment_cases E u (body req) d)
        as [-> | (current & l & _ & _ & _ & -> & _)]; repeat split.
    + destruct (transfer_cases E u (body req) d)
        as [-> | (source & _ & _ & _ & ->)]; repeat split.
    + repeat split.
    + apply alert_tables.
  - intros Hact. unfold handler.
    destruct (negb (method req =? "POST")%string); [reflexivity|].
    destruct (x_user_data req) as [[e|e|u]|]; cbn [JSON_parse property_of];
      [reflexivity| | |reflexivity].
    { destruct (negb (stockManagementSchema E (body req))); reflexivity. }
    destruct (negb (stockManagementSchema E (body req))); [reflexivity|].
    destruct (negb (is_role u "stock_manager") && negb (is_role u "admin"));
      [reflexivity|].
    destruct Hact as [-> | ->]; [reflexivity|].
    now destruct (alert_tables E u (body req) d) as [-> _].
  - intros u Hm Hu Hs Hr Ha. unfold handler. rewrite Hm, Hu, Hs. simpl.
    apply String.eqb_neq in Hr, Ha. unfold is_role. now rewrite Hr, Ha.
Qed.

Lemma stock_management_frame_witness :
  handler Sample.calm
    (Sample.post Sample.client
       {| action_of := report; product_id := None; warehouse_id := None;
          quantity := None; from_warehouse_id := None;
          to_warehouse_id := None; reason := None; threshold := None |})
    Sample.two_warehouses
  = (Failure 403 "Only Stock Managers can manage inventory"
             "INSUFFICIENT_PERMISSIONS", Sample.two_warehouses).
Proof.
  assert (Hs : forall x y : string, (x =? y)%string = false -> x <> y)
    by (intros x y H; now apply String.eqb_neq).
  exact (proj2 (proj2
    (stock_management_frame Sample.calm
       (Sample.post Sample.client
          {| action_of := report; product_id := None; warehouse_id := None;
             quantity := None; from_warehouse_id := None;
             to_warehouse_id := None; reason := None; threshold := None |})
       Sample.two_warehouses))
    Sample.client eq_refl eq_refl eq_refl
    (Hs "client" "stock_manager" eq_refl) (Hs "client" "admin" eq_refl)).
Defined.
End StockWhole.

(** ** The second version of the order endpoint *)

Module OrderV2Facts.
Import OrderProcessV2.

Lemma decrement_zero (s : Stock.t) : decrement 0 s = s.
Proof. destruct s. unfold decrement. cbn. now rewrite Z.sub_0_r. Qed.

Lemma decrement_twice (a b : Z) (s : Stock.t) :
  decrement b (decrement a s) = decrement (a + b) s.
Proof. unfold decrement. cbn. f_equal. lia. Qed.

Lemma create_order_items_run (oid : string) (lines : list OrderProcess.item) :
  forall d,
    create_order_items oid lines d
    = (Ret (map (to_order_item oid) lines),
       set_order_items (order_items d ++ map (to_order_item oid) lines) d).
Proof.
  induction lines as [|i lines IH]; intros d.
  - cbn. rewrite app_nil_r. now destruct d.
  - cbn [create_order_items]. unfold bind at 1.
    unfold Prisma.order_items_create at 1. unfold bind at 1. rewrite IH.
    cbn [order_items set_order_items]. unfold ret.
    rewrite <- app_assoc. reflexivity.
Qed.

(** The [updateMany] calls of an order take, from every row of the
    warehouse, the summed quantity of the lines that name its product. *)
Lemma update_stocks_run (w : string) (lines : list OrderProcess.item) :
  forall d,
    update_stocks w lines d
    = (Ret tt, set_stocks (ledger_after_updates w lines (stocks d)) d).
Proof.
  induction lines as [|i lines IH]; intros d.
  - cbn. unfold ret, ledger_after_updates. f_equal.
    replace (map _ (stocks d)) with (stocks d); [now destruct d|].
    rewrite <- (map_id (stocks d)) at 1. apply map_ext. intros s.
    cbn. rewrite decrement_zero. now destruct (_ =? _)%string.
  - cbn [update_stocks]. unfold bind at 1. unfold stocks_updateMany at 1.
    rewrite IH. unfold set_stocks.
    cbn [stocks products approvisionnements orders order_items deliveries
         payments transaction_logs notifications].
    do 2 f_equal.
    unfold ledger_after_updates. rewrite map_map.
    apply map_ext. intros s.
    unfold OrderProcess.where_stock. cbn [requested].
    rewrite (String.eqb_sym (OrderProcess.product_id i) (Stock.product_id s)).
    destruct (Stock.product_id s =? OrderProcess.product_id i)%string;
      destruct (Stock.warehouse_id s =? w)%string eqn:Hw; cbn;
      rewrite ?Hw; try reflexivity.
    apply decrement_twice.
Qed.

Section Runs.
Variables (E : env) (show : Z -> string).

Lemma v2_transaction_commits (data : OrderProcess.OrderData) (d : db) :
  find (offending d (OrderProcess.warehouse_id data)) (OrderProcess.items data)
  = None ->
  transaction (order_transaction E show data) d
  = (Ret (new_order E data,
          map (to_order_item (new_order_id E)) (OrderProcess.items data),
          assigned_delivery E),
     ordered_store_v2 E data d).
Proof.
  intros Hval. unfold transaction, order_transaction.
  unfold bind at 1. rewrite OrderFacts.validateStockAvailability_run, Hval.
  cbn [verdict OrderProcess.valid negb].
  unfold bind at 1. unfold Prisma.orders_create at 1.
  unfold bind at 1. cbn [Order.order_id]. rewrite create_order_items_run.
  unfold bind at 1. rewrite update_stocks_run.
  unfold bind, Prisma.deliveries_create, ret. reflexivity.
Qed.

Lemma refused_run (req : request OrderProcess.OrderData) (d : db) (u : user)
    (i : OrderProcess.item) :
  method req = "POST" ->
  x_user_data req = Some (UserObject u) ->
  orderProcessingSchema E (body req) = true ->
  find (offending d (OrderProcess.warehouse_id (body req)))
       (OrderProcess.items (body req)) = Some i ->
  handler E show req d =
  let v := verdict d (OrderProcess.warehouse_id (body req)) (Some i) in
  (Refused 500
     ("Insufficient stock for "
      ++ OrderProcess.interpolate (OrderProcess.productName v)
      ++ ". Available: "
      ++ show_option show (OrderProcess.availableQuantity v)
      ++ ", Requested: "
      ++ show_option show (OrderProcess.requestedQuantity v))%string
     "INTERNAL_SERVER_ERROR", d).
Proof.
  intros Hm Hu Hs Hi.
  unfold handler, handler_try. rewrite Hm, Hu, Hs. simpl.
  unfold bind at 1. unfold transaction, order_transaction.
  unfold bind at 1. rewrite OrderFacts.validateStockAvailability_run, Hi.
  rewrite OrderFacts.verdict_invalid. reflexivity.
Qed.

(** X18. In the second version of the order endpoint, an order that
    reaches the validation pass with a short line is refused with 500
    INTERNAL_SERVER_ERROR and a message that names the product of the
    first short line (by its name in the catalogue, or by its identifier
    when the warehouse has no entry of it), the quantity on hand (0 when
    there is no entry) and the quantity the line requests; the store is
    left as it was. *)
Theorem v2_refusal_names_quantities (req : request OrderProcess.OrderData)
    (d : db) (u : user) (pre post : list OrderProcess.item)
    (i : OrderProcess.item) :
  method req = "POST" ->
  x_user_data req = Some (UserObject u) ->
  orderProcessingSchema E (body req) = true ->
  OrderProcess.items (body req) = pre ++ i :: post ->
  (forall j, In j pre ->
     short (stocks d) (OrderProcess.warehouse_id (body req)) j = false) ->
  short (stocks d) (OrderProcess.warehouse_id (body req)) i = true ->
  handler E show req d
  = (Refused 500
       ("Insufficient stock for "
        ++ name_of d (OrderProcess.warehouse_id (body req)) i
        ++ ". Available: "
        ++ show (on_hand (stocks d) (OrderProcess.warehouse_id (body req)) i)
        ++ ", Requested: " ++ show (OrderProcess.quantity i))%string
       "INTERNAL_SERVER_ERROR", d).
Proof.
  intros Hm Hu Hs Hitems Hpre Hi.
  assert (Hfirst : find (offending d (OrderProcess.warehouse_id (body req)))
                     (OrderProcess.items (body req)) = Some i).
  { rewrite Hitems. apply OrderFacts.find_first.
    - intros j Hj. exact (Hpre j Hj).
    - exact Hi. }
  rewrite (refused_run req d u i Hm Hu Hs Hfirst).
  cbv zeta. now rewrite OrderFacts.verdict_of_short.
Qed.

(** X19. The second version checks no role and settles no payment: an
    order by any authenticated caller, every line of which finds at least
    what it requests, is accepted when the sinks work. The order is
    created and stays pending whatever the payment method; one order item
    is written per line; a delivery in status assigned is created whether
    or not delivery was asked for; no payment is recorded. An empty list
    of items is accepted too, as an order of total 0. *)
Theorem v2_accepts_any_caller (req : request OrderProcess.OrderData)
    (d : db) (u : user) :
  method req = "POST" ->
  x_user_data req = Some (UserObject u) ->
  orderProcessingSchema E (body req) = true ->
  existsb (offending d (OrderProcess.warehouse_id (body req)))
          (OrderProcess.items (body req)) = false ->
  log_failure E = None ->
  notification_failure E = None ->
  exists o its message d',
    handler E show req d = (Created o its (assigned_delivery E) message, d')
    /\ orders d' = orders d ++ [o]
    /\ Order.status o = Order.pending
    /\ Order.total_amount o = lines_value (OrderProcess.items (body req))
    /\ order_items d' = order_items d ++ its
    /\ its = map (to_order_item (new_order_id E))
               (OrderProcess.items (body req))
    /\ deliveries d' = deliveries d ++ [assigned_delivery E]
    /\ payments d' = payments d.
Proof.
  intros Hm Hu Hs Hval Hl Hn.
  assert (Hnone : find (offending d (OrderProcess.warehouse_id (body req)))
                    (OrderProcess.items (body req)) = None).
  { destruct (find _ (OrderProcess.items (body req))) as [i|] eqn:Hi;
      [|reflexivity].
    destruct (find_some _ _ Hi) as [Hin Hoff].
    assert (Hex : existsb (offending d (OrderProcess.warehouse_id (body req)))
                    (OrderProcess.items (body req)) = true)
      by (apply existsb_exists; eauto).
    congruence. }
  unfold handler, handler_try. rewrite Hm, Hu, Hs. simpl.
  unfold bind at 1. rewrite (v2_transaction_commits (body req) d Hnone).
  unfold bind, Prisma.transaction_logs_create, Prisma.notifications_create.
  rewrite Hl, Hn. cbn.
  do 4 eexists. split; [reflexivity|]. cbn.
  rewrite OrderWhole.totalAmount_value. repeat split.
Qed.

(** X20. In the second version an accepted order takes, from every ledger
    row of its warehouse, the summed quantity of the lines that name the
    row's product (every row, when the pair has several), and nothing from
    the rows of other warehouses. This holds on the store the endpoint
    leaves whatever the sinks answer. *)
Theorem v2_ledger_effect (req : request OrderProcess.OrderData) (d : db)
    (u : user) :
  method req = "POST" ->
  x_user_data req = Some (UserObject u) ->
  orderProcessingSchema E (body req) = true ->
  existsb (offending d (OrderProcess.warehouse_id (body req)))
          (OrderProcess.items (body req)) = false ->
  map Stock.quantity (stocks (snd (handler E show req d)))
  = map (fun s =>
           Stock.quantity s
           - (if (Stock.warehouse_id s =? OrderProcess.warehouse_id (body req))%string
              then requested (Stock.product_id s) (OrderProcess.items (body req))
              else 0))
        (stocks d).
Proof.
  intros Hm Hu Hs Hval.
  assert (Hnone : find (offending d (OrderProcess.warehouse_id (body req)))
                    (OrderProcess.items (body req)) = None).
  { destruct (find _ (OrderProcess.items (body req))) as [i|] eqn:Hi;
      [|reflexivity].
    destruct (find_some _ _ Hi) as [Hin Hoff].
    assert (Hex : existsb (offending d (OrderProcess.warehouse_id (body req)))
                    (OrderProcess.items (body req)) = true)
      by (apply existsb_exists; eauto).
    congruence. }
  assert (Hst : stocks (snd (handler E show req d))
                = ledger_after_updates (OrderProcess.warehouse_id (body req))
                    (OrderProcess.items (body req)) (stocks d)).
  { unfold handler, handler_try. rewrite Hm, Hu, Hs. simpl.
    unfold bind at 1. rewrite (v2_transaction_commits (body req) d Hnone).
    unfold bind, Prisma.transaction_logs_create, Prisma.notifications_create.
    destruct (log_failure E); [reflexivity|].
    destruct (notification_failure E); reflexivity. }
  rewrite Hst. unfold ledger_after_updates. rewrite map_map.
  apply map_ext. intros s.
  destruct (Stock.warehouse_id s =? _)%string; cbn; lia.
Qed.
End Runs.

Lemma v2_refusal_names_quantities_witness :
  handler Sample.calm Sample.tally (Sample.two_lines 3)
    (Sample.two_products_among 2)
  = (Refused 500
       "Insufficient stock for Bananas. Available: 2, Requested: 3"
       "INTERNAL_SERVER_ERROR", Sample.two_products_among 2).
Proof.
  apply (v2_refusal_names_quantities Sample.calm Sample.tally
           (Sample.two_lines 3) (Sample.two_products_among 2) Sample.client
           [Sample.line Ids.productA 5 10] [] (Sample.line Ids.productB 3 20)
           eq_refl eq_refl eq_refl eq_refl).
  - intros j [<- | []]. reflexivity.
  - reflexivity.
Defined.

Lemma v2_accepts_any_caller_witness :
  exists o its message d',
    handler Sample.calm Sample.tally Sample.driver_order Sample.split_rows
    = (Created o its (assigned_delivery Sample.calm) message, d')
    /\ Order.status o = Order.pending
    /\ deliveries d' = [assigned_delivery Sample.calm]
    /\ payments d' = [].
Proof.
  destruct (v2_accepts_any_caller Sample.calm Sample.tally Sample.driver_order
              Sample.split_rows Sample.driver
              eq_refl eq_refl eq_refl eq_refl eq_refl eq_refl)
    as (o & its & message & d' & H1 & _ & H3 & _ & _ & _ & H7 & H8).
  exists o, its, message, d'. repeat split; assumption.
Defined.

Lemma v2_ledger_effect_witness :
  map Stock.quantity
      (stocks (snd (handler Sample.audit_down Sample.tally Sample.driver_order
                      Sample.split_rows)))
  = [5 - (3 + 0); 9 - (3 + 0)].
Proof.
  exact (v2_ledger_effect Sample.audit_down Sample.tally Sample.driver_order
           Sample.split_rows Sample.driver eq_refl eq_refl eq_refl eq_refl).
Defined.
End OrderV2Facts.

(** ** The rate limiter and the sanitiser of the CRUD handler *)

Module CrudFacts.
Import CrudHandler.

Lemma map_set_same (ip : string) (r : rate_record) (m : rate_map) :
  map_set ip r m ip = Some r.
Proof. unfold map_set. now rewrite String.eqb_refl. Qed.

Lemma map_set_other (ip k : string) (r : rate_record) (m : rate_map) :
  k <> ip -> map_set ip r m k = m k.
Proof.
  intros Hk. unfold map_set.
  now destruct (String.eqb_spec k ip) as [->|_].
Qed.

Lemma checkRateLimit_other (now : Z) (ip : string) (limit windowMs : Z)
    (m : rate_map) (k : string) :
  k <> ip -> snd (checkRateLimit now ip limit windowMs m) k = m k.
Proof.
  intros Hk. unfold checkRateLimit.
  destruct (m ip) as [record|]; [|now apply map_set_other].
  destruct (resetTime record <? now); [now apply map_set_other|].
  destruct (limit <=? count record); [reflexivity|].
  now apply map_set_other.
Qed.

Lemma calls_cons (ip : string) (limit windowMs t : Z) (ts : list Z)
    (m : rate_map) :
  calls ip limit windowMs (t :: ts) m
  = (fst (checkRateLimit t ip limit windowMs m)
       :: fst (calls ip limit windowMs ts
                 (snd (checkRateLimit t ip limit windowMs m))),
     snd (calls ip limit windowMs ts
            (snd (checkRateLimit t ip limit windowMs m)))).
Proof.
  cbn [calls].
  destruct (checkRateLimit t ip limit windowMs m) as [b m1].
  cbn [fst snd].
  now destruct (calls ip limit windowMs ts m1).
Qed.

Lemma calls_in_window (ip : string) (limit windowMs : Z) (ts : list Z) :
  forall (m : rate_map) (c r : Z),
    m ip = Some {| count := c; resetTime := r |} ->
    Forall (fun t => t <= r) ts ->
    fst (calls ip limit windowMs ts m)
    = map (fun k => c + Z.of_nat k + 1 <=? limit) (seq 0 (List.length ts))
    /\ exists c',
         snd (calls ip limit windowMs ts m) ip
         = Some {| count := c'; resetTime := r |}.
Proof.
  induction ts as [|t ts IH]; intros m c r Hm Hts.
  - cbn. split; [reflexivity|]. now exists c.
  - inversion Hts as [|? ? Ht Hts']; subst.
    rewrite calls_cons. cbn [fst snd List.length seq map].
    assert (Hstep : checkRateLimit t ip limit windowMs m
                    = if limit <=? c then (false, m)
                      else (true,
                            map_set ip {| count := c + 1; resetTime := r |} m)).
    { unfold checkRateLimit. rewrite Hm. cbn [count resetTime].
      destruct (Z.ltb_spec r t); [lia|reflexivity]. }
    rewrite Hstep. rewrite <- seq_shift, map_map.
    destruct (Z.leb_spec limit c) as [Hfull|Hroom]; cbn [fst snd].
    + destruct (IH m c r Hm Hts') as [Hbs Hrec]. split; [|exact Hrec].
      rewrite Hbs. f_equal.
      * symmetry. apply Z.leb_gt. lia.
      * apply map_ext. intros k.
        transitivity false; [apply Z.leb_gt|symmetry; apply Z.leb_gt]; lia.
    + destruct (IH (map_set ip {| count := c + 1; resetTime := r |} m)
                  (c + 1) r (map_set_same _ _ _) Hts') as [Hbs Hrec].
      split; [|exact Hrec].
      rewrite Hbs. f_equal.
      * symmetry. apply Z.leb_le. lia.
      * apply map_ext. intros k. f_equal. lia.
Qed.

(** X21. The rate limiter works by fixed windows. A call that finds no
    record of the address, or one whose reset time has passed, opens a
    window and is admitted whatever the limit; of the calls that follow
    up to and including the reset time, the one that is the n-th of the
    window is admitted exactly when n is at most the limit. *)
Theorem window_admits_limit_calls (ip : string) (limit windowMs t0 : Z)
    (ts : list Z) (m : rate_map) :
  match m ip with
  | None => True
  | Some record => resetTime record < t0
  end ->
  Forall (fun t => t <= t0 + windowMs) ts ->
  fst (calls ip limit windowMs (t0 :: ts) m)
  = true :: map (fun k => Z.of_nat k + 2 <=? limit)
              (seq 0 (List.length ts)).
Proof.
  intros Hopen Hts. rewrite calls_cons.
  assert (Hstep : checkRateLimit t0 ip limit windowMs m
                  = (true,
                     map_set ip {| count := 1;
                                   resetTime := t0 + windowMs |} m)).
  { unfold checkRateLimit. destruct (m ip) as [record|]; [|reflexivity].
    destruct (Z.ltb_spec (resetTime record) t0); [reflexivity|lia]. }
  rewrite Hstep. cbn [fst snd]. f_equal.
  destruct (calls_in_window ip limit windowMs ts
              (map_set ip {| count := 1; resetTime := t0 + windowMs |} m)
              1 (t0 + windowMs) (map_set_same _ _ _) Hts) as [Hbs _].
  rewrite Hbs. apply map_ext. intros k. f_equal. lia.
Qed.

(** X22. Calls within a window never move its reset time, refused ones
    included: after any number of calls up to the reset time of the
    record of an address, the first call after that time is admitted and
    opens a new window counted from 1. *)
Theorem refusals_do_not_extend_window (ip : string) (limit windowMs t : Z)
    (ts : list Z) (m : rate_map) (record : rate_record) :
  m ip = Some record ->
  Forall (fun t' => t' <= resetTime record) ts ->
  resetTime record < t ->
  let m' := snd (calls ip limit windowMs ts m) in
  fst (checkRateLimit t ip limit windowMs m') = true
  /\ snd (checkRateLimit t ip limit windowMs m') ip
     = Some {| count := 1; resetTime := t + windowMs |}.
Proof.
  intros Hm Hts Ht m'. destruct record as [c r]. cbn [resetTime] in *.
  destruct (calls_in_window ip limit windowMs ts m c r Hm Hts)
    as [_ [c' Hrec]].
  fold m' in Hrec. unfold checkRateLimit. rewrite Hrec. cbn [resetTime].
  destruct (Z.ltb_spec r t); [|lia].
  cbn [fst snd]. split; [reflexivity|apply map_set_same].
Qed.

(** X23. The limit is kept per address: calls made for one address, at
    any times and whether admitted or refused, leave the record of every
    other address as it was. *)
Theorem rate_limit_is_per_address (ip k : string) (limit windowMs : Z)
    (ts : list Z) :
  forall m : rate_map,
    k <> ip -> snd (calls ip limit windowMs ts m) k = m k.
Proof.
  induction ts as [|t ts IH]; intros m Hk; [reflexivity|].
  rewrite calls_cons. cbn [snd].
  rewrite IH by exact Hk. now apply checkRateLimit_other.
Qed.

Lemma window_admits_limit_calls_witness :
  fst (calls "10.0.0.1" 2 1000 [0; 1; 2; 1000] (fun _ => None))
  = [true; true; false; false].
Proof.
  apply (window_admits_limit_calls "10.0.0.1" 2 1000 0 [1; 2; 1000]
           (fun _ => None) I).
  repeat constructor; lia.
Defined.

Lemma refusals_do_not_extend_window_witness :
  fst (checkRateLimit 1001 "10.0.0.1" 2 1000
         (snd (calls "10.0.0.1" 2 1000 [500; 900; 1000]
                 (map_set "10.0.0.1" {| count := 2; resetTime := 1000 |}
                    (fun _ => None))))) = true
  /\ snd (checkRateLimit 1001 "10.0.0.1" 2 1000
            (snd (calls "10.0.0.1" 2 1000 [500; 900; 1000]
                    (map_set "10.0.0.1" {| count := 2; resetTime := 1000 |}
                       (fun _ => None))))) "10.0.0.1"
     = Some {| count := 1; resetTime := 1001 + 1000 |}.
Proof.
  apply (refusals_do_not_extend_window "10.0.0.1" 2 1000 1001
           [500; 900; 1000]
           (map_set "10.0.0.1" {| count := 2; resetTime := 1000 |}
              (fun _ => None))
           {| count := 2; resetTime := 1000 |} eq_refl).
  - repeat constructor; cbn; lia.
  - cbn; lia.
Defined.

Lemma rate_limit_is_per_address_witness :
  snd (calls "10.0.0.1" 2 1000 [0; 1; 2]
         (map_set "10.0.0.2" {| count := 7; resetTime := 50 |}
            (fun _ => None))) "10.0.0.2"
  = Some {| count := 7; resetTime := 50 |}.
Proof.
  apply (rate_limit_is_per_address "10.0.0.1" "10.0.0.2" 2 1000 [0; 1; 2]).
  discriminate.
Defined.

Lemma trimStart_length (s : list Z) :
  (List.length (trimStart s) <= List.length s)%nat.
Proof.
  induction s as [|c s IH]; cbn; [lia|].
  destruct (is_white_space c); cbn; lia.
Qed.

Lemma trimStart_white (w s : list Z) :
  Forall (fun c => is_white_space c = true) w ->
  trimStart (w ++ s) = trimStart s.
Proof.
  induction 1 as [|c w Hc _ IH]; [reflexivity|].
  cbn. now rewrite Hc.
Qed.

Lemma trim_length (s : list Z) :
  (List.length (trim s) <= List.length s)%nat.
Proof.
  unfold trim, trimEnd. rewrite length_rev.
  pose proof (trimStart_length (rev (trimStart s))) as H1.
  rewrite length_rev in H1.
  pose proof (trimStart_length s). lia.
Qed.

Lemma sanitizeInput_length (s : list Z) :
  (List.length (sanitizeInput s) <= List.length s)%nat.
Proof.
  unfold sanitizeInput.
  pose proof (filter_length_le (fun c => negb (angle_bracket c)) (trim s)).
  pose proof (trim_length s). lia.
Qed.

Lemma trimEnd_closed (s : list Z) (c : Z) :
  is_white_space c = false -> trimEnd (s ++ [c]) = s ++ [c].
Proof.
  intros Hc. unfold trimEnd. rewrite rev_app_distr. cbn.
  rewrite Hc. cbn. now rewrite rev_involutive.
Qed.

Lemma white_space_kept (w : list Z) :
  Forall (fun c => is_white_space c = true) w ->
  filter (fun c => negb (angle_bracket c)) w = w.
Proof.
  induction 1 as [|c w Hc _ IH]; [reflexivity|].
  cbn. rewrite IH.
  assert (Ha : angle_bracket c = false).
  { unfold angle_bracket.
    destruct (Z.eqb_spec c 60) as [->|_]; [discriminate Hc|].
    destruct (Z.eqb_spec c 62) as [->|_]; [discriminate Hc|reflexivity]. }
  now rewrite Ha.
Qed.

(** X24. The sanitiser never leaves an angle bracket in a string and never
    makes it longer: no code unit of the result is [<] or [>], and the
    result has at most as many code units as the input. *)
Theorem sanitizeInput_removes_angle_brackets (input : list Z) :
  Forall (fun c => c <> 60 /\ c <> 62) (sanitizeInput input)
  /\ (List.length (sanitizeInput input) <= List.length input)%nat.
Proof.
  split; [|apply sanitizeInput_length].
  apply Forall_forall. intros c Hc.
  unfold sanitizeInput in Hc. apply filter_In in Hc. destruct Hc as [_ Hc].
  unfold angle_bracket in Hc.
  destruct (Z.eqb_spec c 60); [discriminate|].
  destruct (Z.eqb_spec c 62); [discriminate|]. auto.
Qed.

(** X25. The sanitiser trims before it removes the angle brackets, so the
    white space that follows a leading [<] stays at the head of the
    result: the result is not always trimmed, and sanitising it again
    gives a different string. *)
Theorem sanitizeInput_not_idempotent (w s : list Z) (c : Z) :
  w <> [] ->
  Forall (fun x => is_white_space x = true) w ->
  is_white_space c = false ->
  angle_bracket c = false ->
  sanitizeInput (60 :: w ++ s ++ [c])
  = w ++ filter (fun x => negb (angle_bracket x)) s ++ [c]
  /\ sanitizeInput (sanitizeInput (60 :: w ++ s ++ [c]))
     <> sanitizeInput (60 :: w ++ s ++ [c]).
Proof.
  intros Hw Hws Hc Ha.
  assert (Hrun : sanitizeInput (60 :: w ++ s ++ [c])
                 = w ++ filter (fun x => negb (angle_bracket x)) s ++ [c]).
  { unfold sanitizeInput, trim. cbn [trimStart].
    change (is_white_space 60) with false. cbv iota.
    change (60 :: w ++ s ++ [c]) with ((60 :: w) ++ s ++ [c]).
    rewrite app_assoc, trimEnd_closed by exact Hc.
    rewrite <- app_assoc. cbn [app filter]. 
    change (negb (angle_bracket 60)) with false. cbv iota.
    rewrite !filter_app, (white_space_kept w Hws). cbn [filter].
    now rewrite Ha. }
  split; [exact Hrun|].
  rewrite Hrun. intros Heq.
  apply (f_equal (@List.length Z)) in Heq.
  set (r := filter (fun x => negb (angle_bracket x)) s ++ [c]) in *.
  assert (Hlen : (List.length (sanitizeInput (w ++ r))
                  <= List.length r)%nat).
  { unfold sanitizeInput, trim.
    rewrite (trimStart_white w r Hws).
    pose proof (filter_length_le (fun x => negb (angle_bracket x))
                  (trimEnd (trimStart r))) as H1.
    unfold trimEnd in *. rewrite length_rev in H1.
    pose proof (trimStart_length (rev (trimStart r))) as H2.
    rewrite length_rev in H2.
    pose proof (trimStart_length r). lia. }
  rewrite length_app in Heq.
  destruct w as [|x w]; [congruence|]. cbn [List.length] in Heq. lia.
Qed.

Lemma sanitizeInput_not_idempotent_witness :
  sanitizeInput [60; 32; 98; 62; 97] = [32; 98; 97]
  /\ sanitizeInput (sanitizeInput [60; 32; 98; 62; 97])
     <> sanitizeInput [60; 32; 98; 62; 97].
Proof.
  apply (sanitizeInput_not_idempotent [32] [98; 62] 97).
  - discriminate.
  - repeat constructor.
  - reflexivity.
  - reflexivity.
Defined.
End CrudFacts.
